(** * Transaction orchestration layer of the Sui NFT DApp

    A shallow embedding of [src/lib/transactionUtils.ts] and of the three
    operation hooks ([useMintNFT], [useLevelUp], [useCoinSplit]), with the
    properties the specification states about them. *)

From Stdlib Require Import String Ascii List ZArith NArith Bool Lia.
From Equations Require Import Equations.
Import ListNotations.

Local Open Scope string_scope.
Local Open Scope list_scope.

(* ===================================================================== *)
(** * JavaScript values and strings *)
(* ===================================================================== *)

(** The values a [catch] clause or a rejected promise can hand over.
    [JsError] is any instance of [Error]; its [message] is a string, as
    the TypeScript declaration of [Error] says.  Everything else is not an
    instance of [Error]: the primitives, plain objects, and ([JsOther],
    named by its [typeof]) numbers, symbols, functions and the like.  An
    [Error] whose [message] holds something else than a string is not a
    value of this type; [Runtime.Raised] below adds those. *)
Inductive JsValue : Type :=
| JsUndefined
| JsNull
| JsBool (b : bool)
| JsString (s : string)
| JsObject (fields : list (string * string))
| JsOther (typeof : string)
| JsError (name message : string).

(** [error instanceof Error] *)
Definition instanceofError (v : JsValue) : bool :=
  match v with
  | JsError _ _ => true
  | _ => false
  end.

(** [String.prototype.includes]: [needle] occurs in [hay] at some
    position.  The comparison is on code units, hence case sensitive. *)
Fixpoint includes (needle hay : string) : bool :=
  String.prefix needle hay ||
  match hay with
  | EmptyString => false
  | String _ rest => includes needle rest
  end.

(** ASCII lower-casing, the part of [toLowerCase] that matters for the
    literals of the classifier. *)
Definition lower_ascii (c : ascii) : ascii :=
  let n := nat_of_ascii c in
  if (65 <=? n)%nat && (n <=? 90)%nat then ascii_of_nat (n + 32) else c.

Fixpoint toLowerCase (s : string) : string :=
  match s with
  | EmptyString => EmptyString
  | String c rest => String (lower_ascii c) (toLowerCase rest)
  end.

(* ===================================================================== *)
(** * Error classifier ([handleTransactionError]) *)
(* ===================================================================== *)

(** [SuiError].  The interface declares [code] and [details] optional;
    [handleTransactionError] fills all three fields in every branch. *)
Record SuiError : Type := mkSuiError {
  message : string;
  code : string;
  details : JsValue
}.

(** The classifier on the values of [JsValue], where it always
    returns; [Runtime.handleTransactionError] is the same function on
    everything a [catch] clause can hand over. *)
Definition handleTransactionError (error : JsValue) : SuiError :=
  match error with
  | JsError _ msg =>
      if includes "Insufficient funds" msg then
        {| message := "Insufficient SUI balance to complete the transaction";
           code := "INSUFFICIENT_FUNDS";
           details := error |}
      else if includes "Gas budget" msg then
        {| message := "Transaction requires more gas than available";
           code := "GAS_BUDGET_ERROR";
           details := error |}
      else if includes "No valid gas coins found" msg then
        {| message := "No separate coin available for gas fees. You may need more SUI coins or a larger balance.";
           code := "NO_GAS_COINS";
           details := error |}
      else if includes "Object not found" msg then
        {| message := "The requested object was not found on the blockchain";
           code := "OBJECT_NOT_FOUND";
           details := error |}
      else if includes "User rejected" msg then
        {| message := "Transaction was rejected by the user";
           code := "USER_REJECTED";
           details := error |}
      else
        {| message := msg;
           code := "TRANSACTION_ERROR";
           details := error |}
  | _ =>
      {| message := "An unknown error occurred during the transaction";
         code := "UNKNOWN_ERROR";
         details := error |}
  end.

(** ** The classifier as the specification words it

    An ordered table of (substring, code, fixed message); the first row
    whose substring occurs in the failure's message wins. *)
Record Pattern : Type := mkPattern {
  pat_needle : string;
  pat_code : string;
  pat_message : string
}.

(** The rows with the casing the source uses. *)
Definition errorPatterns : list Pattern :=
  [ mkPattern "Insufficient funds" "INSUFFICIENT_FUNDS"
      "Insufficient SUI balance to complete the transaction";
    mkPattern "Gas budget" "GAS_BUDGET_ERROR"
      "Transaction requires more gas than available";
    mkPattern "No valid gas coins found" "NO_GAS_COINS"
      "No separate coin available for gas fees. You may need more SUI coins or a larger balance.";
    mkPattern "Object not found" "OBJECT_NOT_FOUND"
      "The requested object was not found on the blockchain";
    mkPattern "User rejected" "USER_REJECTED"
      "Transaction was rejected by the user" ].

(** First matching row under a given matching predicate; the fall-through
    keeps the original message. *)
Fixpoint firstMatch (matches : string -> string -> bool)
         (table : list Pattern) (msg : string) : string * string :=
  match table with
  | [] => ("TRANSACTION_ERROR", msg)
  | p :: rest =>
      if matches (pat_needle p) msg then (pat_code p, pat_message p)
      else firstMatch matches rest msg
  end.

(** Matching that ignores letter case, as the specification asks. *)
Definition includesIgnoringCase (needle hay : string) : bool :=
  includes (toLowerCase needle) (toLowerCase hay).

(** The specification's classifier on error messages. *)
Definition classifySpec (msg : string) : string * string :=
  firstMatch includesIgnoringCase errorPatterns msg.

(** The same table with exact, case-sensitive matching. *)
Definition classifyExact (msg : string) : string * string :=
  firstMatch includes errorPatterns msg.

(* ===================================================================== *)
(** * JavaScript numbers holding integers *)
(* ===================================================================== *)

(** The numbers the balance guard computes with are produced by
    [parseInt] and by [+] on such results: they are NaN, an infinity, or a
    double whose value is an integer.  [Num z] is the double of value [z];
    [roundToDouble] is IEEE 754 round-to-nearest-even on integers, so
    that sums beyond 2^53 lose precision exactly as they do in
    JavaScript. *)
Inductive number : Type :=
| NaN
| Inf (negative : bool)
| Num (z : Z).

Definition roundToDouble (z : Z) : number :=
  let a := Z.abs z in
  if (a <? 2 ^ 53)%Z then Num z
  else
    let e := (Z.log2 a - 52)%Z in
    let q := Z.shiftr a e in
    let r := (a - Z.shiftl q e)%Z in
    let half := (2 ^ (e - 1))%Z in
    let q' := if (half <? r)%Z || ((r =? half)%Z && Z.odd q) then (q + 1)%Z else q in
    let m := Z.shiftl q' e in
    if (2 ^ 1024 <=? m)%Z then Inf (z <? 0)%Z else Num (Z.sgn z * m).

(** [a + b] *)
Definition js_add (a b : number) : number :=
  match a, b with
  | NaN, _ | _, NaN => NaN
  | Inf s, Inf t => if Bool.eqb s t then Inf s else NaN
  | Inf s, Num _ | Num _, Inf s => Inf s
  | Num x, Num y => roundToDouble (x + y)
  end.

(** [a < b]; every comparison with NaN is false. *)
Definition js_lt (a b : number) : bool :=
  match a, b with
  | NaN, _ | _, NaN => false
  | Inf s, Inf t => s && negb t
  | Inf s, Num _ => s
  | Num _, Inf t => negb t
  | Num x, Num y => (x <? y)%Z
  end.

(** [a > b] *)
Definition js_gt (a b : number) : bool := js_lt b a.

(** ** [parseInt] with no radix argument

    A string is a sequence of code units below 256.  Among them the
    white space and line terminators that [parseInt] skips are the space,
    the controls from TAB to CR, and the no-break space. *)

Definition isWhiteSpace (c : ascii) : bool :=
  let n := nat_of_ascii c in
  (n =? 32)%nat || ((9 <=? n)%nat && (n <=? 13)%nat) || (n =? 160)%nat.

Fixpoint trimStart (s : string) : string :=
  match s with
  | String c rest => if isWhiteSpace c then trimStart rest else s
  | EmptyString => s
  end.

Definition digitValue (radix : Z) (c : ascii) : option Z :=
  let n := Z.of_nat (nat_of_ascii c) in
  let v :=
    if (48 <=? n)%Z && (n <=? 57)%Z then (n - 48)%Z
    else if (97 <=? n)%Z && (n <=? 122)%Z then (n - 87)%Z
    else if (65 <=? n)%Z && (n <=? 90)%Z then (n - 55)%Z
    else 99%Z in
  if (v <? radix)%Z then Some v else None.

(** The longest prefix of digits, as a mathematical integer; [acc] is
    [None] until the first digit is read. *)
Fixpoint parseDigits (radix : Z) (acc : option Z) (s : string) : option Z :=
  match s with
  | EmptyString => acc
  | String c rest =>
      match digitValue radix c with
      | Some d =>
          parseDigits radix
            (Some (match acc with Some a => a * radix + d | None => d end)%Z) rest
      | None => acc
      end
  end.

Definition stripHexPrefix (s : string) : option string :=
  match s with
  | String "0" (String "x" rest) => Some rest
  | String "0" (String "X" rest) => Some rest
  | _ => None
  end.

Definition parseInt (input : string) : number :=
  let s := trimStart input in
  let '(sign, s) :=
    match s with
    | String "-" rest => ((-1)%Z, rest)
    | String "+" rest => (1%Z, rest)
    | _ => (1%Z, s)
    end in
  let '(radix, s) :=
    match stripHexPrefix s with
    | Some rest => (16%Z, rest)
    | None => (10%Z, s)
    end in
  match parseDigits radix None s with
  | None => NaN
  | Some z => roundToDouble (sign * z)
  end.

(* ===================================================================== *)
(** * Transaction builders *)
(* ===================================================================== *)

(** The part of the SDK's [Transaction] the builders touch: an ordered
    list of commands over arguments.  The builders of this section record
    each call of the SDK with the arguments it was given; the SDK's own
    checks and encodings (an amount must be an unsigned 64-bit integer, an
    object id is normalised) are left to [Runtime], where the SDK is a
    parameter that can refuse a call. *)
Inductive TxArgument : Type :=
| GasCoin                         (* [tx.gas] *)
| PureString (s : string)         (* [tx.pure.string(s)] *)
| PureAmount (amount : string)    (* an amount handed to [splitCoins] *)
| ObjectRef (id : string)         (* [tx.object(id)] *)
| CommandResult (index : nat).    (* the value a previous command returns *)

Inductive Command : Type :=
| MoveCall (target : string) (arguments : list TxArgument)
| SplitCoins (coin : TxArgument) (amounts : list TxArgument)
| TransferObjects (objects : list TxArgument) (address : string).

Definition Transaction : Type := list Command.

Definition MODULE_NAME : string := "simple_nft".

Definition DEFAULT_PACKAGE_ID : string :=
  "0x95ea5e48398629b9e21b47bd43ae04174ac3e310b54fb961d780b856b3eaf1a3".

(** [process.env.NEXT_PUBLIC_PACKAGE_ID || '0x95ea...'] *)
Definition PACKAGE_ID (env : option string) : string :=
  match env with
  | Some (String c rest) => String c rest
  | _ => DEFAULT_PACKAGE_ID
  end.

Definition CONTRACT_MINT (env : option string) : string :=
  PACKAGE_ID env ++ "::" ++ MODULE_NAME ++ "::mint".

Definition CONTRACT_LEVEL_UP (env : option string) : string :=
  PACKAGE_ID env ++ "::" ++ MODULE_NAME ++ "::level_up".

Record MintNFTData : Type := mkMintNFTData {
  name : string;
  description : string;
  image_url : string
}.

Definition createMintNFTTransaction (env : option string) (data : MintNFTData)
  : Transaction :=
  [ MoveCall (CONTRACT_MINT env)
      [ PureString (name data);
        PureString (description data);
        PureString (image_url data) ] ].

Definition createLevelUpTransaction (env : option string) (nftId : string)
  : Transaction :=
  [ MoveCall (CONTRACT_LEVEL_UP env) [ ObjectRef nftId ] ].

(** [if (recipient)]: an absent recipient and the empty string are both
    falsy. *)
Definition truthy (recipient : option string) : bool :=
  match recipient with
  | Some (String _ _) => true
  | _ => false
  end.

Definition createCoinSplitTransaction
           (coinObjectId : string) (amount : string) (recipient : option string)
  : Transaction :=
  let tx := [ SplitCoins GasCoin [ PureAmount amount ] ] in
  let splitCoin := CommandResult 0 in
  match recipient with
  | Some (String c rest) => tx ++ [ TransferObjects [ splitCoin ] (String c rest) ]
  | _ => tx
  end.

Definition isSplit (c : Command) : bool :=
  match c with SplitCoins _ _ => true | _ => false end.

Definition isTransfer (c : Command) : bool :=
  match c with TransferObjects _ _ => true | _ => false end.

(* ===================================================================== *)
(** * Operation hooks: state, effects and control flow *)
(* ===================================================================== *)

(** What the wallet hands to [onSuccess]: the digest and the rest of the
    response, kept opaque. *)
Record SignResult : Type := mkSignResult {
  result_digest : string;
  result_raw : string
}.

(** [TransactionResponse]; an omitted optional property is [None]. *)
Record TransactionResponse : Type := mkTransactionResponse {
  success : bool;
  digest : option string;
  error : option string;
  data : option SignResult
}.

(** Everything a hook does to the outside, in order. *)
Inductive Event : Type :=
| EvSetIsLoading (b : bool)
| EvSetError (e : option string)
| EvToastSuccess (text : string)
| EvToastError (text : string)
| EvSign (tx : Transaction).

(** The hook's [useState] cells, with the history of effects. *)
Record HookState : Type := mkHookState {
  isLoading : bool;
  errorState : option string;
  trace : list Event
}.

(** How a piece of an [async] function ends: it returns (the promise is
    fulfilled), it throws (the promise is rejected), or it awaits a promise
    that is never settled. *)
Inductive Completion (A : Type) : Type :=
| Returned (a : A)
| Thrown (v : JsValue)
| Pending.
Arguments Returned {A} a.
Arguments Thrown {A} v.
Arguments Pending {A}.

Definition Hook (A : Type) : Type := HookState -> Completion A * HookState.

Definition ret {A} (a : A) : Hook A := fun s => (Returned a, s).

Definition throw {A} (v : JsValue) : Hook A := fun s => (Thrown v, s).

Definition bind {A B} (m : Hook A) (k : A -> Hook B) : Hook B :=
  fun s =>
    match m s with
    | (Returned a, s') => k a s'
    | (Thrown v, s') => (Thrown v, s')
    | (Pending, s') => (Pending, s')
    end.

Declare Scope hook_scope.
Delimit Scope hook_scope with hook.
Notation "x <- m ;; k" := (bind m (fun x => k))
  (at level 61, m at next level, right associativity) : hook_scope.
Notation "m ;; k" := (bind m (fun _ => k))
  (at level 61, right associativity) : hook_scope.

(** [try { body } catch (err) { handler } finally { finalizer }].  The
    finalizer runs when control leaves the statement; a body that never
    resumes never reaches it.  The completion of the try or catch block
    stands unless the finalizer itself throws. *)
Definition tryCatchFinally {A}
           (body : Hook A) (handler : JsValue -> Hook A) (finalizer : Hook unit)
  : Hook A :=
  fun s =>
    let '(c, s1) :=
      match body s with
      | (Thrown v, s') => handler v s'
      | other => other
      end in
    match c with
    | Pending => (Pending, s1)
    | _ =>
        match finalizer s1 with
        | (Returned _, s2) => (c, s2)
        | (Thrown v, s2) => (Thrown v, s2)
        | (Pending, s2) => (Pending, s2)
        end
    end.

Definition emit (e : Event) (s : HookState) : HookState :=
  {| isLoading := isLoading s; errorState := errorState s;
     trace := trace s ++ [e] |}.

Definition setIsLoading (b : bool) : Hook unit :=
  fun s => (Returned tt,
            emit (EvSetIsLoading b)
                 {| isLoading := b; errorState := errorState s; trace := trace s |}).

Definition setError (e : option string) : Hook unit :=
  fun s => (Returned tt,
            emit (EvSetError e)
                 {| isLoading := isLoading s; errorState := e; trace := trace s |}).

Definition toast_success (text : string) : Hook unit :=
  fun s => (Returned tt, emit (EvToastSuccess text) s).

Definition toast_error (text : string) : Hook unit :=
  fun s => (Returned tt, emit (EvToastError text) s).

(** The injected sign-and-execute capability ([mutate] of
    [useSignAndExecuteTransaction]), seen from the promise wrapped around
    it: it calls [onSuccess], calls [onError], throws before calling
    either, or never calls back. *)
Inductive SignerBehaviour : Type :=
| CallsOnSuccess (result : SignResult)
| CallsOnError (e : JsValue)
| ThrowsInExecutor (e : JsValue)
| NeverCallsBack.

Definition Signer : Type := Transaction -> SignerBehaviour.

(** [await new Promise((resolve, reject) =>
       signAndExecuteTransaction({ transaction },
         { onSuccess: resolve, onError: reject }))] *)
Definition awaitSigned (signer : Signer) (transaction : Transaction)
  : Hook SignResult :=
  fun s =>
    let s' := emit (EvSign transaction) s in
    match signer transaction with
    | CallsOnSuccess result => (Returned result, s')
    | CallsOnError e => (Thrown e, s')
    | ThrowsInExecutor e => (Thrown e, s')
    | NeverCallsBack => (Pending, s')
    end.

Record SuiCoin : Type := mkSuiCoin {
  coinObjectId : string;
  balance : string
}.

Record CoinSplitData : Type := mkCoinSplitData {
  amount : string;
  data_coinObjectId : string
}.

(** [coins.data.reduce((sum, coin) => sum + parseInt(coin.balance), 0)] *)
Definition totalBalance (coins : list SuiCoin) : number :=
  fold_left (fun sum coin => js_add sum (parseInt (balance coin))) coins (Num 0).

(** [coins.data.reduce((largest, coin) =>
       parseInt(coin.balance) > parseInt(largest.balance) ? coin : largest)]
    on an array with first element [first]. *)
Definition largestCoin (first : SuiCoin) (others : list SuiCoin) : SuiCoin :=
  fold_left
    (fun largest coin =>
       if js_gt (parseInt (balance coin)) (parseInt (balance largest))
       then coin else largest)
    others first.

Definition estimatedGas : number := Num 10000000.

Section Hooks.

Local Open Scope hook_scope.

(** Build-time configuration and the capabilities the hooks receive. *)
Variable NEXT_PUBLIC_PACKAGE_ID : option string.
Variable signAndExecuteTransaction : Signer.

Definition mintNFT (data : MintNFTData) : Hook TransactionResponse :=
  setIsLoading true ;;
  setError None ;;
  tryCatchFinally
    (let transaction := createMintNFTTransaction NEXT_PUBLIC_PACKAGE_ID data in
     result <- awaitSigned signAndExecuteTransaction transaction ;;
     toast_success "NFT minted successfully!" ;;
     ret {| success := true;
            digest := Some (result_digest result);
            error := None;
            data := Some result |})
    (fun err =>
       let suiError := handleTransactionError err in
       setError (Some (message suiError)) ;;
       toast_error ("Failed to mint NFT: " ++ message suiError) ;;
       ret {| success := false;
              digest := None;
              error := Some (message suiError);
              data := None |})
    (setIsLoading false).

Definition levelUp (nftId : string) : Hook TransactionResponse :=
  setIsLoading true ;;
  setError None ;;
  tryCatchFinally
    (let transaction := createLevelUpTransaction NEXT_PUBLIC_PACKAGE_ID nftId in
     result <- awaitSigned signAndExecuteTransaction transaction ;;
     toast_success "NFT leveled up successfully! ðŸš€ Level will update shortly." ;;
     ret {| success := true;
            digest := Some (result_digest result);
            error := None;
            data := Some result |})
    (fun err =>
       let suiError := handleTransactionError err in
       setError (Some (message suiError)) ;;
       toast_error ("Failed to level up NFT: " ++ message suiError) ;;
       ret {| success := false;
              digest := None;
              error := Some (message suiError);
              data := None |})
    (setIsLoading false).

(** [suiToMist] works in binary floating point ([parseFloat], a
    product, [Math.floor], [toString]); the hook is verified for every
    conversion from the amount typed in SUI to the string in MIST. *)
Variable suiToMist : string -> string.

(** [coins?.data] of the [getCoins] query ([None] while there is no
    answer) and [currentAccount?.address]. *)
Variable coins : option (list SuiCoin).
Variable currentAddress : option string.

Definition splitCoin (data : CoinSplitData) : Hook TransactionResponse :=
  setIsLoading true ;;
  setError None ;;
  tryCatchFinally
    (let amountInMist := suiToMist (amount data) in
     match coins with
     | None | Some [] =>
         throw (JsError "Error" "No SUI coins found in your wallet")
     | Some (first :: others) =>
         let total := totalBalance (first :: others) in
         let requiredAmount := parseInt amountInMist in
         if js_lt total (js_add requiredAmount estimatedGas) then
           throw (JsError "Error" "Insufficient balance for split amount plus gas fees")
         else
           let suitableCoin := largestCoin first others in
           if js_lt (parseInt (balance suitableCoin))
                    (js_add requiredAmount estimatedGas) then
             throw (JsError "Error"
                      "Largest coin does not have sufficient balance for split amount plus gas fees")
           else
             let transaction :=
               createCoinSplitTransaction
                 (coinObjectId suitableCoin) amountInMist currentAddress in
             result <- awaitSigned signAndExecuteTransaction transaction ;;
             toast_success ("Successfully split " ++ amount data ++ " SUI") ;;
             ret {| success := true;
                    digest := Some (result_digest result);
                    error := None;
                    data := Some result |}
     end)
    (fun err =>
       let suiError := handleTransactionError err in
       setError (Some (message suiError)) ;;
       toast_error ("Failed to split coin: " ++ message suiError) ;;
       ret {| success := false;
              digest := None;
              error := Some (message suiError);
              data := None |})
    (setIsLoading false).

End Hooks.

(** A hook before its first invocation. *)
Definition idle : HookState :=
  {| isLoading := false; errorState := None; trace := [] |}.

(** Observations on the trace of a run. *)
Definition isSignEvent (e : Event) : bool :=
  match e with EvSign _ => true | _ => false end.


Definition signerCalls (s : HookState) : nat :=
  length (filter isSignEvent (trace s)).

(* ===================================================================== *)
(** * Confirmation poller ([waitForTransaction]) *)
(* ===================================================================== *)

(** The fields of [SuiTransactionBlockResponse] the poller reads.  The
    source reaches them through optional chaining, so each level may be
    absent. *)
Record ExecutionStatus : Type := mkExecutionStatus {
  status : string;
  status_error : option string
}.

Record TransactionEffects : Type := mkTransactionEffects {
  effects_status : option ExecutionStatus
}.

Record SuiTransactionBlockResponse : Type := mkBlockResponse {
  block_digest : string;
  effects : option TransactionEffects
}.

(** [result.effects?.status] *)
Definition executionStatus (result : SuiTransactionBlockResponse)
  : option ExecutionStatus :=
  match effects result with
  | Some e => effects_status e
  | None => None
  end.

(** A value inside a template literal: [undefined] prints as such. *)
Definition templateText (v : option string) : string :=
  match v with
  | Some s => s
  | None => "undefined"
  end.

(** How one [client.getTransactionBlock] call ends, how long the await
    on it takes, and how late the one-second timer after it fires.  Times
    are whole milliseconds of a clock that never runs backwards.  A timer
    of this model fires on time or late; what [Date.now] shows between two
    tests of the loop can be a millisecond short of that, and
    [Runtime.poll] below takes the turns as the clock measures them. *)
Inductive QueryOutcome : Type :=
| Resolves (result : SuiTransactionBlockResponse)
| Rejects (reason : JsValue).

Record Tick : Type := mkTick {
  reply : QueryOutcome;
  replyMs : N;
  timerLateMs : N
}.

(** The read capability: the answer to the [i]-th query for a digest. *)
Definition SuiClient : Type := string -> nat -> Tick.

(** What one turn of the loop body decides. *)
Inductive Step : Type :=
| StepReturn (result : SuiTransactionBlockResponse)
| StepThrow (v : JsValue)
| StepSleep.

(** How the [try] block ends: by its [return], by an exception (the
    awaited query rejected, or the block's own [throw]), or by falling out
    of the [if]. *)
Inductive TryExit : Type :=
| TryReturn (result : SuiTransactionBlockResponse)
| TryThrow (error : JsValue)
| TryFallThrough.

Definition tryBlock (o : QueryOutcome) : TryExit :=
  match o with
  | Rejects reason => TryThrow reason
  | Resolves result =>
      match executionStatus result with
      | Some st =>
          if String.eqb (status st) "success" then TryReturn result
          else if String.eqb (status st) "failure" then
            TryThrow (JsError "Error"
                        ("Transaction failed: " ++ templateText (status_error st)))
          else TryFallThrough
      | None => TryFallThrough
      end
  end.

(** The [catch] clause: rethrow an [Error] whose message lacks
    ['not found'], swallow everything else. *)
Definition catchBlock (error : JsValue) : Step :=
  match error with
  | JsError _ msg =>
      if negb (includes "not found" msg) then StepThrow error else StepSleep
  | _ => StepSleep
  end.

(** One turn: the [try], its [catch], and whether the sleep is
    reached. *)
Definition loopBody (o : QueryOutcome) : Step :=
  match tryBlock o with
  | TryReturn result => StepReturn result
  | TryThrow error => catchBlock error
  | TryFallThrough => StepSleep
  end.

(** What the caller of the poller observes, with the times (elapsed
    milliseconds since [startTime]) at which the queries were issued. *)
Record PollResult : Type := mkPollResult {
  outcome : Completion SuiTransactionBlockResponse;
  queryTimes : list N;
  finishedAt : N
}.

(** The [while] loop.  [issued] holds the times of the queries made so
    far and [elapsed] is [Date.now() - startTime] when the condition is
    tested.  Every turn that goes on sleeps at least 1000 ms, which is
    what makes the loop end. *)
Equations? poll (source : nat -> Tick) (timeoutMs : Z)
           (issued : list N) (elapsed : N) : PollResult
  by wf (Z.to_nat (timeoutMs - Z.of_N elapsed)) lt :=
  poll source timeoutMs issued elapsed with Z_lt_dec (Z.of_N elapsed) timeoutMs => {
    | right _ =>
        {| outcome := Thrown (JsError "Error" "Transaction confirmation timeout");
           queryTimes := issued;
           finishedAt := elapsed |}
    | left _ with loopBody (reply (source (length issued))) => {
        | StepReturn result =>
            {| outcome := Returned result;
               queryTimes := issued ++ [elapsed];
               finishedAt := (elapsed + replyMs (source (length issued)))%N |}
        | StepThrow v =>
            {| outcome := Thrown v;
               queryTimes := issued ++ [elapsed];
               finishedAt := (elapsed + replyMs (source (length issued)))%N |}
        | StepSleep =>
            poll source timeoutMs (issued ++ [elapsed])
                 (elapsed + replyMs (source (length issued))
                  + 1000 + timerLateMs (source (length issued)))%N
      }
  }.
Proof.
  lia.
Qed.

(** [waitForTransaction(client, digest, timeoutMs = 30000)] *)
Definition waitForTransaction (client : SuiClient) (digest : string)
           (timeoutMs : option Z) : PollResult :=
  let timeoutMs := match timeoutMs with Some t => t | None => 30000%Z end in
  poll (client digest) timeoutMs [] 0%N.

(* ===================================================================== *)
(** * Definitions used to state the properties *)
(* ===================================================================== *)

(** The three operations, so that a statement can range over all of
    them. *)
Inductive Operation : Type :=
| Mint (data : MintNFTData)
| LevelUp (nftId : string)
| Split (data : CoinSplitData).

Section Invocation.

Variable env : option string.
Variable signer : Signer.
Variable suiToMist : string -> string.
Variable coins : option (list SuiCoin).
Variable address : option string.

Definition invoke (op : Operation) : Hook TransactionResponse :=
  match op with
  | Mint data => mintNFT env signer data
  | LevelUp nftId => levelUp env signer nftId
  | Split data => splitCoin signer suiToMist coins address data
  end.

End Invocation.

(** The response of the catch block for a failure [v]. *)
Definition failureResponse (v : JsValue) : TransactionResponse :=
  {| success := false;
     digest := None;
     error := Some (message (handleTransactionError v));
     data := None |}.

(** The response of the try block for a wallet result. *)
Definition successResponse (result : SignResult) : TransactionResponse :=
  {| success := true;
     digest := Some (result_digest result);
     error := None;
     data := Some result |}.

(** How the text of the failure toast starts, per operation. *)
Definition failurePrefix (op : Operation) : string :=
  match op with
  | Mint _ => "Failed to mint NFT: "
  | LevelUp _ => "Failed to level up NFT: "
  | Split _ => "Failed to split coin: "
  end.

(** What one invocation did, after the two state resets that open it:
    the try block's own events and how it ended. *)
Inductive Attempt : Type :=
| Succeeded (tx : Transaction) (result : SignResult) (toast : string)
| Failed (signed : list Transaction) (v : JsValue)
| Hanging (tx : Transaction).

Definition attemptEvents (op : Operation) (a : Attempt) : list Event :=
  match a with
  | Succeeded tx _ toast =>
      [EvSign tx; EvToastSuccess toast; EvSetIsLoading false]
  | Failed signed v =>
      map EvSign signed ++
      [EvSetError (Some (message (handleTransactionError v)));
       EvToastError (failurePrefix op ++ message (handleTransactionError v));
       EvSetIsLoading false]
  | Hanging tx => [EvSign tx]
  end.

Definition attemptCompletion (a : Attempt) : Completion TransactionResponse :=
  match a with
  | Succeeded _ result _ => Returned (successResponse result)
  | Failed _ v => Returned (failureResponse v)
  | Hanging _ => Pending
  end.

Definition attemptState (op : Operation) (a : Attempt) (s0 : HookState) : HookState :=
  {| isLoading := match a with Hanging _ => true | _ => false end;
     errorState := match a with
                   | Failed _ v => Some (message (handleTransactionError v))
                   | _ => None
                   end;
     trace := trace s0 ++ EvSetIsLoading true :: EvSetError None :: attemptEvents op a |}.

(** The attempt agrees with the signer: a signed transaction is the one
    the signer answered, and a failure without signature did not reach
    it. *)
Definition attemptSound (signer : Signer) (a : Attempt) : Prop :=
  match a with
  | Succeeded tx result _ => signer tx = CallsOnSuccess result
  | Failed [] _ => True
  | Failed [tx] v => signer tx = CallsOnError v \/ signer tx = ThrowsInExecutor v
  | Failed _ _ => False
  | Hanging tx => signer tx = NeverCallsBack
  end.

Local Open Scope Z_scope.

Definition sumZ (bs : list Z) : Z := fold_right Z.add 0 bs.

Definition maxZ (bs : list Z) : Z := fold_right Z.max 0 bs.

(** [coins?.data] seen as a list: no answer counts as no coins. *)
Definition owned (coins : option (list SuiCoin)) : list SuiCoin :=
  match coins with
  | Some cs => cs
  | None => []
  end.

(** The balance string of [c] is a numeral of value [b >= 0]. *)
Definition hasBalance (c : SuiCoin) (b : Z) : Prop :=
  parseInt (balance c) = Num b /\ 0 <= b.

(** The three messages of the guard. *)
Definition guardMessages : list string :=
  [ "No SUI coins found in your wallet";
    "Insufficient balance for split amount plus gas fees";
    "Largest coin does not have sufficient balance for split amount plus gas fees" ].

Definition isObjectRef (a : TxArgument) : bool :=
  match a with ObjectRef _ => true | _ => false end.

(** The command names an object by its id. *)
Definition usesObjectRef (c : Command) : bool :=
  match c with
  | MoveCall _ args => existsb isObjectRef args
  | SplitCoins coin amounts => isObjectRef coin || existsb isObjectRef amounts
  | TransferObjects objects _ => existsb isObjectRef objects
  end.

(** The query failed with an [Error] that says ['not found']. *)
Definition notFound (o : QueryOutcome) : bool :=
  match o with
  | Rejects (JsError _ msg) => includes "not found" msg
  | _ => false
  end.

(** The query answered, with a status that is neither success nor
    failure (or with none). *)
Definition unsettled (o : QueryOutcome) : bool :=
  match o with
  | Resolves result =>
      match executionStatus result with
      | Some st =>
          negb (String.eqb (status st) "success")
          && negb (String.eqb (status st) "failure")
      | None => true
      end
  | Rejects _ => false
  end.


(** The remote reason of a terminal failure, if [result] reports one. *)
Definition failureReason (result : SuiTransactionBlockResponse) : option string :=
  match executionStatus result with
  | Some st =>
      if negb (String.eqb (status st) "success") && String.eqb (status st) "failure"
      then Some (templateText (status_error st))
      else None
  | None => None
  end.

Definition timeoutError : JsValue :=
  JsError "Error" "Transaction confirmation timeout".

(** The timeout in force: [timeoutMs] or its default. *)
Definition effectiveTimeout (timeoutMs : option Z) : Z :=
  match timeoutMs with
  | Some t => t
  | None => 30000
  end.

(** A status source on which the transaction never becomes visible. *)
Definition neverVisible : SuiClient :=
  fun _ _ => mkTick (Rejects (JsError "Error" "Transaction not found")) 0 0.

(** A source that reports 'not found' twice and then success, with
    replies that take 20 to 25 ms and a timer that fires 3 ms late. *)
Definition visibleOnThirdQuery : SuiClient :=
  fun digest i =>
    match i with
    | 0%nat | 1%nat =>
        mkTick (Rejects (JsError "Error" "Could not find the referenced transaction: not found"))
               20 3
    | _ =>
        mkTick (Resolves
                  (mkBlockResponse digest
                     (Some (mkTransactionEffects
                              (Some (mkExecutionStatus "success" None))))))
               25 0
    end.

(** A status source whose queries fail with a value that is not an
    [Error]. *)
Definition networkDown : SuiClient :=
  fun _ _ => mkTick (Rejects (JsString "network down")) 0 0.

(** A status source whose queries fail in the transport. *)
Definition transportFailure : SuiClient :=
  fun _ _ => mkTick (Rejects (JsError "TypeError" "fetch failed")) 15 0.

(** A wallet that approves everything, and one whose user declines. *)
Definition approvingWallet : Signer :=
  fun _ => CallsOnSuccess (mkSignResult "9vXk" "{}").

Definition decliningWallet : Signer :=
  fun _ => CallsOnError (JsError "Error" "User rejected the request").

Definition swordNFT : MintNFTData :=
  mkMintNFTData "Sword" "A blade" "https://example.com/s.png".

(** A source whose first answer is a terminal failure with a remote
    reason. *)
Definition abortedOnChain : SuiClient :=
  fun digest _ =>
    mkTick (Resolves
              (mkBlockResponse digest
                 (Some (mkTransactionEffects
                          (Some (mkExecutionStatus "failure"
                                   (Some "MoveAbort in simple_nft::level_up")))))))
           40 0.

(** A source that reports a terminal failure whose remote reason
    contains the words 'not found'. *)
Definition failedObjectNotFound : SuiClient :=
  fun digest _ =>
    mkTick (Resolves
              (mkBlockResponse digest
                 (Some (mkTransactionEffects
                          (Some (mkExecutionStatus "failure"
                                   (Some "Object not found")))))))
           0 0.

(* ===================================================================== *)
(** * Further definitions: observations on hooks and poller *)
(* ===================================================================== *)

(** A notification shown to the user. *)
Definition isToastEvent (e : Event) : bool :=
  match e with
  | EvToastSuccess _ | EvToastError _ => true
  | _ => false
  end.

(* ===================================================================== *)
(** * Callers of the hooks: form and page handlers *)
(* ===================================================================== *)

(** What a component does besides driving its hook: toasts of the form
    itself (with the [id] option when one is given), form and state
    setters, timers and console output. *)
Inductive ToastKind : Type := ToastLoading | ToastSuccess | ToastError.

Inductive UiEvent : Type :=
| UiToast (kind : ToastKind) (text : string) (id : option string)
| UiFormReset
| UiSetImagePreview (url : string)
| UiSetLastSplitResult (value : string)
| UiSetLevelingUpNFTId (value : option string)
| UiSetTimeout (callback : string) (ms : Z)
| UiConsoleError (label : string) (v : JsValue).

(** A component: the state of its hook instance and what the component
    itself did, in order. *)
Record AppState : Type := mkAppState {
  hookState : HookState;
  uiTrace : list UiEvent
}.

Definition App (A : Type) : Type := AppState -> Completion A * AppState.

Definition app_ret {A} (a : A) : App A := fun s => (Returned a, s).

Definition app_bind {A B} (m : App A) (k : A -> App B) : App B :=
  fun s =>
    match m s with
    | (Returned a, s') => k a s'
    | (Thrown v, s') => (Thrown v, s')
    | (Pending, s') => (Pending, s')
    end.

Declare Scope app_scope.
Delimit Scope app_scope with app.
Notation "x <- m ;; k" := (app_bind m (fun x => k))
  (at level 61, m at next level, right associativity) : app_scope.
Notation "m ;; k" := (app_bind m (fun _ => k))
  (at level 61, right associativity) : app_scope.

(** [try { body } catch (error) { handler }] and the same with a
    [finally] block, as for the hooks. *)
Definition app_tryCatch {A} (body : App A) (handler : JsValue -> App A) : App A :=
  fun s =>
    match body s with
    | (Thrown v, s') => handler v s'
    | other => other
    end.

Definition app_tryCatchFinally {A}
           (body : App A) (handler : JsValue -> App A) (finalizer : App unit)
  : App A :=
  fun s =>
    let '(c, s1) := app_tryCatch body handler s in
    match c with
    | Pending => (Pending, s1)
    | _ =>
        match finalizer s1 with
        | (Returned _, s2) => (c, s2)
        | (Thrown v, s2) => (Thrown v, s2)
        | (Pending, s2) => (Pending, s2)
        end
    end.

Definition ui (e : UiEvent) : App unit :=
  fun s => (Returned tt,
            {| hookState := hookState s; uiTrace := uiTrace s ++ [e] |}).

(** [await hook(...)]: the hook runs on the component's hook instance. *)
Definition awaitHook {A} (h : Hook A) : App A :=
  fun s =>
    let '(c, hs) := h (hookState s) in
    (c, {| hookState := hs; uiTrace := uiTrace s |}).

Section Callers.

Local Open Scope app_scope.

Variable NEXT_PUBLIC_PACKAGE_ID : option string.
Variable signAndExecuteTransaction : Signer.

(** [currentAccount], by its address; [None] when no wallet is
    connected. *)
Variable currentAccount : option string.

(** [MintForm]'s [onSubmit]; [onMintSuccess] tells whether the optional
    callback was given. *)
Definition MintForm_onSubmit (onMintSuccess : bool) (data : MintNFTData)
  : App unit :=
  match currentAccount with
  | None => ui (UiToast ToastError "Please connect your wallet first" None)
  | Some _ =>
      app_tryCatch
        (ui (UiToast ToastLoading "Minting NFT..." (Some "mint-nft")) ;;
         _ <- awaitHook
                (mintNFT NEXT_PUBLIC_PACKAGE_ID signAndExecuteTransaction
                         {| name := name data;
                            description := description data;
                            image_url := image_url data |}) ;;
         ui (UiToast ToastSuccess
                     "NFT minted successfully! ðŸŽ‰ Check your gallery in a few seconds."
                     (Some "mint-nft")) ;;
         ui UiFormReset ;;
         ui (UiSetImagePreview "") ;;
         if onMintSuccess then ui (UiSetTimeout "onMintSuccess" 2000)
         else app_ret tt)
        (fun error =>
           ui (UiConsoleError "Minting failed:" error) ;;
           ui (UiToast ToastError "Failed to mint NFT. Please try again."
                       (Some "mint-nft")))
  end.

(** [Home]'s [handleLevelUp]. *)
Definition handleLevelUp (nftId : string) : App unit :=
  app_tryCatchFinally
    (ui (UiSetLevelingUpNFTId (Some nftId)) ;;
     result <- awaitHook
                 (levelUp NEXT_PUBLIC_PACKAGE_ID signAndExecuteTransaction nftId) ;;
     if success result then ui (UiSetTimeout "refetchNFTs" 2000)
     else app_ret tt)
    (fun error => ui (UiConsoleError "Level up failed:" error))
    (ui (UiSetLevelingUpNFTId None)).

Variable suiToMist : string -> string.
Variable coins : option (list SuiCoin).

(** [CoinSplitForm]'s [onSubmit].  [exceedsBalance] is the value of
    [numericAmount > balanceNumber], two numbers the component computes
    with [parseFloat] when it renders. *)
Definition CoinSplitForm_onSubmit (exceedsBalance : bool) (formAmount : string)
  : App unit :=
  app_tryCatch
    (if exceedsBalance then
       ui (UiToast ToastError "Insufficient balance for this split amount" None)
     else
       result <- awaitHook
                   (splitCoin signAndExecuteTransaction suiToMist coins
                              currentAccount
                              {| amount := formAmount; data_coinObjectId := "" |}) ;;
       if success result then
         ui (UiSetLastSplitResult
               (match digest result with Some d => d | None => "" end)) ;;
         ui UiFormReset ;;
         ui (UiToast ToastSuccess
                     ("Successfully split " ++ formAmount ++ " SUI!") None)
       else app_ret tt)
    (fun error => ui (UiConsoleError "Split coin failed:" error)).

End Callers.

(** A component that has done nothing yet. *)
Definition freshApp : AppState := {| hookState := idle; uiTrace := [] |}.

Definition isUiToast (kind : ToastKind) (e : UiEvent) : bool :=
  match e, kind with
  | UiToast ToastLoading _ _, ToastLoading => true
  | UiToast ToastSuccess _ _, ToastSuccess => true
  | UiToast ToastError _ _, ToastError => true
  | _, _ => false
  end.

Definition isConsoleError (e : UiEvent) : bool :=
  match e with UiConsoleError _ _ => true | _ => false end.

Definition isRefetchTimer (e : UiEvent) : bool :=
  match e with UiSetTimeout _ _ => true | _ => false end.

(* ===================================================================== *)
(** * NFT collection ([useNFTs]) *)
(* ===================================================================== *)

(** A property value of the parsed Move object: a string, a number, or
    anything else. *)
Inductive FieldValue : Type :=
| FieldString (s : string)
| FieldNumber (n : number)
| FieldOther.

(** [content]: a Move object has [fields], a package has none. *)
Inductive SuiParsedData : Type :=
| MoveObject (fields : list (string * FieldValue))
| MovePackage.

(** The part of [SuiObjectData] the hook reads.  [objectType] is the
    property [type]; [display] is [display?.data], the display metadata
    when there is any. *)
Record SuiObjectData : Type := mkSuiObjectData {
  objectId : string;
  objectType : option string;
  content : option SuiParsedData;
  display : option (list (string * string))
}.

(** An entry of [ownedObjects.data]; its [data] may be missing. *)
Record SuiObjectResponse : Type := mkSuiObjectResponse {
  obj_data : option SuiObjectData
}.

Record SimpleNFT : Type := mkSimpleNFT {
  nft_id : string;
  nft_name : string;
  nft_description : string;
  nft_image_url : string;
  nft_level : number
}.

(** [record[key]]: the value of the first entry for [key]. *)
Fixpoint property {A} (key : string) (record : list (string * A)) : option A :=
  match record with
  | [] => None
  | (k, v) :: rest => if String.eqb k key then Some v else property key rest
  end.

(** [a || b] where [a] is a string or [undefined]. *)
Definition orString (a : option string) (b : string) : string :=
  match a with
  | Some (String c rest) => String c rest
  | _ => b
  end.

(** [typeof fields?.key === 'string' ? fields.key : ''] *)
Definition stringField (key : string) (fields : list (string * FieldValue)) : string :=
  match property key fields with
  | Some (FieldString s) => s
  | _ => ""
  end.

(** [obj.data?.type?.includes(PACKAGE_ID)], as the filter reads it. *)
Definition hasPackageId (env : option string) (obj : SuiObjectResponse) : bool :=
  match obj_data obj with
  | Some d =>
      match objectType d with
      | Some t => includes (PACKAGE_ID env) t
      | None => false
      end
  | None => false
  end.

(** The callback of [packageObjects.map]. *)
Definition toSimpleNFT (obj : SuiObjectResponse) : SimpleNFT :=
  let fields :=
    match obj_data obj with
    | Some d =>
        match content d with
        | Some (MoveObject fields) => fields
        | _ => []
        end
    | None => []
    end in
  let display :=
    match obj_data obj with
    | Some d => display d
    | None => None
    end in
  let shown (key : string) : option string :=
    match display with
    | Some entries => property key entries
    | None => None
    end in
  {| nft_id := match obj_data obj with Some d => objectId d | None => "" end;
     nft_name :=
       orString (Some (orString (shown "name") (stringField "name" fields)))
                "Unknown NFT";
     nft_description :=
       orString (Some (orString (shown "description")
                                (stringField "description" fields)))
                "No description";
     nft_image_url :=
       orString (Some (orString (shown "image_url")
                                (stringField "image_url" fields)))
                "";
     nft_level :=
       match property "level" fields with
       | Some (FieldNumber n) => n
       | _ => Num 1
       end |}.

(** The [nfts] value of [useNFTs]; [ownedObjects] is [ownedObjects?.data]. *)
Definition nfts (env : option string) (ownedObjects : option (list SuiObjectResponse))
  : list SimpleNFT :=
  match ownedObjects with
  | None => []
  | Some objects => map toSimpleNFT (filter (hasPackageId env) objects)
  end.

(* ===================================================================== *)
(** * Coin dashboard ([CoinManagement]) *)
(* ===================================================================== *)

Module CoinManagement.

(** [x || 0] on a number: 0 and NaN are falsy. *)
Definition orZero (x : number) : number :=
  match x with
  | NaN => Num 0
  | other => other
  end.

(** [s || fallback] on a string. *)
Definition orText (s fallback : string) : string :=
  match s with
  | EmptyString => fallback
  | _ => s
  end.

(** [coins?.data.reduce((sum, coin) => sum + parseInt(coin.balance), 0) || 0] *)
Definition totalBalance (coins : option (list SuiCoin)) : number :=
  match coins with
  | None => Num 0
  | Some data =>
      orZero (fold_left (fun sum coin => js_add sum (parseInt (balance coin)))
                        data (Num 0))
  end.

(** [coins?.data.length || 0] *)
Definition totalCoins (coins : option (list SuiCoin)) : nat :=
  match coins with
  | None => 0%nat
  | Some data => length data
  end.

(** [largest?.balance || fallback], with [largest] possibly undefined. *)
Definition balanceOr (fallback : string) (coin : option SuiCoin) : string :=
  match coin with
  | Some c => orText (balance c) fallback
  | None => fallback
  end.

(** [coins?.data.reduce((largest, coin) =>
       parseInt(coin.balance) > parseInt(largest?.balance || '0')
         ? coin : largest, coins?.data[0])] *)
Definition largestCoin (coins : option (list SuiCoin)) : option SuiCoin :=
  match coins with
  | None => None
  | Some data =>
      fold_left
        (fun largest coin =>
           if js_gt (parseInt (balance coin)) (parseInt (balanceOr "0" largest))
           then Some coin else largest)
        data (hd_error data)
  end.

(** The same with [<] and the fallback ['999999999999999']. *)
Definition smallestCoin (coins : option (list SuiCoin)) : option SuiCoin :=
  match coins with
  | None => None
  | Some data =>
      fold_left
        (fun smallest coin =>
           if js_lt (parseInt (balance coin))
                    (parseInt (balanceOr "999999999999999" smallest))
           then Some coin else smallest)
        data (hd_error data)
  end.

(** [prev.includes(coinId)] on an array of strings. *)
Definition selected (coinId : string) (prev : list string) : bool :=
  existsb (String.eqb coinId) prev.

(** The updater [toggleCoinSelection] hands to [setSelectedCoins]. *)
Definition toggleCoinSelection (coinId : string) (prev : list string) : list string :=
  if selected coinId prev
  then filter (fun id => negb (String.eqb id coinId)) prev
  else prev ++ [coinId].

End CoinManagement.

(** The least of [b] and the members of [bs]. *)
Definition minZ (b : Z) (bs : list Z) : Z := fold_right Z.min b bs.

(* ===================================================================== *)
(** * Identifier display ([formatNFTId], [formatAddress]) *)
(* ===================================================================== *)

(** [s.slice(start, end)]; an omitted [end] is [None].  Strings are taken
    as sequences of code units, which for the hexadecimal identifiers
    shown here are their characters. *)
Definition slice (start : Z) (stop : option Z) (s : string) : string :=
  let units := list_ascii_of_string s in
  let len := Z.of_nat (length units) in
  let clamp (i : Z) := if i <? 0 then Z.max (len + i) 0 else Z.min i len in
  let from := clamp start in
  let to := match stop with Some e => clamp e | None => len end in
  string_of_list_ascii
    (firstn (Z.to_nat (to - from)) (skipn (Z.to_nat from) units)).

(** [NFTCard]'s [formatNFTId]. *)
Definition formatNFTId (id : string) : string :=
  (slice 0 (Some 8) id ++ "..." ++ slice (-8) None id)%string.

(** [WalletConnect]'s [formatAddress]. *)
Definition formatAddress (address : string) : string :=
  (slice 0 (Some 4) address ++ "..." ++ slice (-4) None address)%string.

(* ===================================================================== *)
(** * Testnet faucet ([useFaucet]) *)
(* ===================================================================== *)

(** A computation of an [async] function over a state of type [S]. *)
Section Async.

Variable S : Type.

Definition Async (A : Type) : Type := S -> Completion A * S.

Definition async_ret {A} (a : A) : Async A := fun s => (Returned a, s).

Definition async_bind {A B} (m : Async A) (k : A -> Async B) : Async B :=
  fun s =>
    match m s with
    | (Returned a, s') => k a s'
    | (Thrown v, s') => (Thrown v, s')
    | (Pending, s') => (Pending, s')
    end.

Definition async_tryCatchFinally {A}
           (body : Async A) (handler : JsValue -> Async A) (finalizer : Async unit)
  : Async A :=
  fun s =>
    let '(c, s1) :=
      match body s with
      | (Thrown v, s') => handler v s'
      | other => other
      end in
    match c with
    | Pending => (Pending, s1)
    | _ =>
        match finalizer s1 with
        | (Returned _, s2) => (c, s2)
        | (Thrown v, s2) => (Thrown v, s2)
        | (Pending, s2) => (Pending, s2)
        end
    end.

End Async.

Arguments async_ret {S A} a.
Arguments async_bind {S A B} m k.
Arguments async_tryCatchFinally {S A} body handler finalizer.

Declare Scope async_scope.
Delimit Scope async_scope with async.
Notation "x <- m ;; k" := (async_bind m (fun x => k))
  (at level 61, m at next level, right associativity) : async_scope.
Notation "m ;; k" := (async_bind m (fun _ => k))
  (at level 61, right associativity) : async_scope.

(** What [requestSUI] does to the outside. *)
Inductive FaucetEvent : Type :=
| FxToastError (text : string)
| FxToastLoading (text : string)
| FxRequest (host recipient : string)
| FxToastDismiss (all : bool)
| FxToastSuccess (text description : string) (duration : Z)
| FxToastFailure (title description : string) (duration : Z) (webFaucetAction : bool)
| FxSetTimeout (callback : string) (ms : Z)
| FxConsoleError (label : string) (v : JsValue).

(** The three [useState] cells of the hook, with its effects. *)
Record FaucetState : Type := mkFaucetState {
  fx_isLoading : bool;
  fx_isSuccess : bool;
  fx_error : option string;
  fx_trace : list FaucetEvent
}.

(** How [requestSuiFromFaucetV2] ends. *)
Inductive FaucetBehaviour : Type :=
| FaucetResolves
| FaucetRejects (reason : JsValue)
| FaucetNeverSettles.

Definition fx_emit (e : FaucetEvent) : Async FaucetState unit :=
  fun s => (Returned tt,
            {| fx_isLoading := fx_isLoading s; fx_isSuccess := fx_isSuccess s;
               fx_error := fx_error s; fx_trace := fx_trace s ++ [e] |}).

Definition fx_setIsLoading (b : bool) : Async FaucetState unit :=
  fun s => (Returned tt,
            {| fx_isLoading := b; fx_isSuccess := fx_isSuccess s;
               fx_error := fx_error s; fx_trace := fx_trace s |}).

Definition fx_setIsSuccess (b : bool) : Async FaucetState unit :=
  fun s => (Returned tt,
            {| fx_isLoading := fx_isLoading s; fx_isSuccess := b;
               fx_error := fx_error s; fx_trace := fx_trace s |}).

Definition fx_setError (e : option string) : Async FaucetState unit :=
  fun s => (Returned tt,
            {| fx_isLoading := fx_isLoading s; fx_isSuccess := fx_isSuccess s;
               fx_error := e; fx_trace := fx_trace s |}).

(** The line feed of a template literal. *)
Definition lineFeed : string := String (ascii_of_nat 10) EmptyString.

(** What follows the message in the toast when fallback options are
    shown. *)
Definition fallbackLines : string :=
  (lineFeed ++ lineFeed ++ "ðŸŒ Try: https://faucet.sui.io" ++ lineFeed ++ "ðŸ’¬ Discord: Join #testnet-faucet channel")%string.

Section Faucet.

Local Open Scope async_scope.

(** [String.prototype.toLowerCase], which follows Unicode; the hook is
    verified for every such function.  [faucetHost] is
    [getFaucetHost('testnet')]. *)
Variable lowerCase : string -> string.
Variable faucetHost : string.
Variable requestSuiFromFaucetV2 : string -> string -> FaucetBehaviour.

Definition awaitFaucet (recipient : string) : Async FaucetState unit :=
  fun s =>
    let s' := snd (fx_emit (FxRequest faucetHost recipient) s) in
    match requestSuiFromFaucetV2 faucetHost recipient with
    | FaucetResolves => (Returned tt, s')
    | FaucetRejects reason => (Thrown reason, s')
    | FaucetNeverSettles => (Pending, s')
    end.

(** The catch block's choice of [errorMessage] and
    [showFallbackOptions]. *)
Definition faucetFailure (err : JsValue) : string * bool :=
  match err with
  | JsError _ msg =>
      let errorText := lowerCase msg in
      if includes "rate limit" errorText || includes "too many requests" errorText
      then ("Rate limit exceeded. Please wait a few minutes before requesting again.",
            false)
      else if includes "network" errorText || includes "connection" errorText
              || includes "failed to fetch" errorText
      then ("Faucet service is temporarily unavailable. Try alternative methods below.",
            true)
      else if includes "recipient" errorText
      then ("Invalid wallet address. Please reconnect your wallet.", false)
      else (("Request failed: " ++ msg)%string, true)
  | _ => ("Failed to request SUI tokens", false)
  end.

(** [requestSUI]; [currentAddress] is [currentAccount?.address] and
    [onSuccess] tells whether [options?.onSuccess] was given. *)
Definition requestSUI (currentAddress : option string) (onSuccess : bool)
  : Async FaucetState unit :=
  match currentAddress with
  | Some (String c rest) =>
      fx_setIsLoading true ;;
      fx_setError None ;;
      fx_setIsSuccess false ;;
      async_tryCatchFinally
        (fx_emit (FxToastLoading "Requesting SUI from testnet faucet...") ;;
         awaitFaucet (String c rest) ;;
         fx_emit (FxToastDismiss false) ;;
         fx_emit (FxToastSuccess
                    "SUI tokens requested successfully!"
                    "Tokens should appear in your wallet shortly. This may take a few moments."
                    5000) ;;
         fx_setIsSuccess true ;;
         if onSuccess then fx_emit (FxSetTimeout "onSuccess" 2000)
         else async_ret tt)
        (fun err =>
           fx_emit (FxToastDismiss true) ;;
           let '(errorMessage, showFallbackOptions) := faucetFailure err in
           fx_emit (FxToastFailure
                      "Faucet Request Failed"
                      (if showFallbackOptions
                       then (errorMessage ++ fallbackLines)%string
                       else errorMessage)
                      (if showFallbackOptions then 10000 else 6000)
                      showFallbackOptions) ;;
           fx_setError (Some errorMessage) ;;
           fx_emit (FxConsoleError "Faucet request error:" err))
        (fx_setIsLoading false)
  | _ =>
      fx_emit (FxToastError "Please connect your wallet first") ;;
      fx_setError (Some "Wallet not connected")
  end.

End Faucet.

Definition isFaucetRequest (e : FaucetEvent) : bool :=
  match e with FxRequest _ _ => true | _ => false end.

Definition isFaucetTimer (e : FaucetEvent) : bool :=
  match e with FxSetTimeout _ _ => true | _ => false end.

(** A faucet that answers with a rate-limit error in capitals. *)
Definition busyFaucet : string -> string -> FaucetBehaviour :=
  fun _ _ => FaucetRejects (JsError "Error" "Too Many Requests").

Definition freshFaucet : FaucetState :=
  {| fx_isLoading := false; fx_isSuccess := false; fx_error := None; fx_trace := [] |}.

(* ===================================================================== *)
(** * The same functions at run time *)
(* ===================================================================== *)

(** The definitions so far follow the declared types: a failure that is
    an [Error] carries a string as its message, and every call of the
    SDK's transaction builder is recorded as it was made.  At run time
    neither is guaranteed.  A [catch] clause receives whatever was thrown,
    also an [Error] whose [message] property holds something else than a
    string, and the SDK checks and encodes what it is given and throws
    when it refuses.  This module states the classifier, the builders and
    the hooks over such failures and over an SDK that is a parameter. *)
Module Runtime.

(** What can be thrown.  [Plain v] is a value of the typed model.
    [OddError name m] is an instance of [Error] whose [message] property
    holds [m]; with a string for [m] it is the ordinary [JsError]. *)
Inductive Raised : Type :=
| Plain (v : JsValue)
| OddError (name : string) (message : JsValue).

(** The value of the typed model that a thrown value is, if it is one. *)
Definition normal (x : Raised) : option JsValue :=
  match x with
  | Plain v => Some v
  | OddError name (JsString msg) => Some (JsError name msg)
  | OddError _ _ => None
  end.

(** The [TypeError] of the engine, whose text is the engine's. *)
Definition typeError (text : string) : Raised :=
  Plain (JsError "TypeError" text).

(** How a piece of code ends at run time. *)
Inductive Outcome (A : Type) : Type :=
| Done (a : A)
| Raise (x : Raised)
| Waiting.
Arguments Done {A} a.
Arguments Raise {A} x.
Arguments Waiting {A}.

(** [handleTransactionError(error: unknown)].  After [error instanceof
    Error] the first thing evaluated is [error.message.includes(...)].
    None of the values of [JsValue] other than a string has a callable
    [includes], so the call throws a [TypeError] before any branch is
    taken; [typeErrorText] is the engine's text for it. *)
Definition handleTransactionError (typeErrorText : JsValue -> string)
           (error : Raised) : Outcome SuiError :=
  match error with
  | Plain v => Done (handleTransactionError v)
  | OddError name (JsString msg) => Done (handleTransactionError (JsError name msg))
  | OddError _ other => Raise (typeError (typeErrorText other))
  end.

(** ** The SDK as a parameter

    Each method of the SDK's [Transaction] that the builders call either
    yields what it adds to the transaction, in the SDK's own encoding, or
    throws. *)
Record Sdk : Type := mkSdk {
  pure_string : string -> Raised + TxArgument;
  object : string -> Raised + TxArgument;
  moveCall : string -> list TxArgument -> Raised + Command;
  splitCoins : TxArgument -> list string -> Raised + Command;
  transferObjects : list TxArgument -> string -> Raised + Command
}.

(** Sequencing of calls that may throw. *)
Definition andThen {A B} (r : Raised + A) (k : A -> Raised + B) : Raised + B :=
  match r with
  | inl x => inl x
  | inr a => k a
  end.

Declare Scope sdk_scope.
Delimit Scope sdk_scope with sdk.
Notation "x <- r ;; k" := (andThen r (fun x => k))
  (at level 61, r at next level, right associativity) : sdk_scope.

Section Builders.

Local Open Scope sdk_scope.

Variable sdk : Sdk.
Variable NEXT_PUBLIC_PACKAGE_ID : option string.

Definition createMintNFTTransaction (data : MintNFTData) : Raised + Transaction :=
  name <- pure_string sdk (name data) ;;
  description <- pure_string sdk (description data) ;;
  image_url <- pure_string sdk (image_url data) ;;
  call <- moveCall sdk (CONTRACT_MINT NEXT_PUBLIC_PACKAGE_ID)
                   [ name; description; image_url ] ;;
  inr [ call ].

Definition createLevelUpTransaction (nftId : string) : Raised + Transaction :=
  nft <- object sdk nftId ;;
  call <- moveCall sdk (CONTRACT_LEVEL_UP NEXT_PUBLIC_PACKAGE_ID) [ nft ] ;;
  inr [ call ].

Definition createCoinSplitTransaction
           (coinObjectId : string) (amount : string) (recipient : option string)
  : Raised + Transaction :=
  split <- splitCoins sdk GasCoin [ amount ] ;;
  let splitCoin := CommandResult 0 in
  match recipient with
  | Some (String c rest) =>
      transfer <- transferObjects sdk [ splitCoin ] (String c rest) ;;
      inr [ split; transfer ]
  | _ => inr [ split ]
  end.

End Builders.

(** The SDK of the typed model: nothing is refused and every call is
    recorded as made. *)
Definition recordingSdk : Sdk :=
  {| pure_string := fun s => inr (PureString s);
     object := fun id => inr (ObjectRef id);
     moveCall := fun target arguments => inr (MoveCall target arguments);
     splitCoins := fun coin amounts => inr (SplitCoins coin (map PureAmount amounts));
     transferObjects := fun objects address => inr (TransferObjects objects address) |}.

(** ** The hooks *)

Definition Run (A : Type) : Type := HookState -> Outcome A * HookState.

Definition ret {A} (a : A) : Run A := fun s => (Done a, s).

Definition throw {A} (x : Raised) : Run A := fun s => (Raise x, s).

Definition bind {A B} (m : Run A) (k : A -> Run B) : Run B :=
  fun s =>
    match m s with
    | (Done a, s') => k a s'
    | (Raise x, s') => (Raise x, s')
    | (Waiting, s') => (Waiting, s')
    end.

Declare Scope run_scope.
Delimit Scope run_scope with run.
Notation "x <- m ;; k" := (bind m (fun x => k))
  (at level 61, m at next level, right associativity) : run_scope.
Notation "m ;; k" := (bind m (fun _ => k))
  (at level 61, right associativity) : run_scope.

(** [try { body } catch (err) { handler } finally { finalizer }], as in
    the typed model: an exception of the handler leaves through the
    finalizer. *)
Definition tryCatchFinally {A}
           (body : Run A) (handler : Raised -> Run A) (finalizer : Run unit)
  : Run A :=
  fun s =>
    let '(c, s1) :=
      match body s with
      | (Raise x, s') => handler x s'
      | other => other
      end in
    match c with
    | Waiting => (Waiting, s1)
    | _ =>
        match finalizer s1 with
        | (Done _, s2) => (c, s2)
        | (Raise x, s2) => (Raise x, s2)
        | (Waiting, s2) => (Waiting, s2)
        end
    end.

(** A state change of the typed model, which cannot fail. *)
Definition lift {A} (h : Hook A) : Run A :=
  fun s =>
    match h s with
    | (Returned a, s') => (Done a, s')
    | (Thrown v, s') => (Raise (Plain v), s')
    | (Pending, s') => (Waiting, s')
    end.

(** Synchronous code that returns or throws. *)
Definition evaluated {A} (r : Raised + A) : Run A :=
  fun s =>
    match r with
    | inl x => (Raise x, s)
    | inr a => (Done a, s)
    end.

Definition classified (c : Outcome SuiError) : Run SuiError :=
  fun s => (c, s).

(** The wallet rejects with whatever it likes. *)
Inductive Signing : Type :=
| OnSuccess (result : SignResult)
| OnError (e : Raised)
| ExecutorThrows (e : Raised)
| NoCallback.

Definition Signer : Type := Transaction -> Signing.

Definition awaitSigned (signer : Signer) (transaction : Transaction)
  : Run SignResult :=
  fun s =>
    let s' := emit (EvSign transaction) s in
    match signer transaction with
    | OnSuccess result => (Done result, s')
    | OnError e => (Raise e, s')
    | ExecutorThrows e => (Raise e, s')
    | NoCallback => (Waiting, s')
    end.

Section Hooks.

Local Open Scope run_scope.

Variable typeErrorText : JsValue -> string.
Variable sdk : Sdk.
Variable NEXT_PUBLIC_PACKAGE_ID : option string.
Variable signAndExecuteTransaction : Signer.

Definition mintNFT (data : MintNFTData) : Run TransactionResponse :=
  lift (setIsLoading true) ;;
  lift (setError None) ;;
  tryCatchFinally
    (transaction <- evaluated (createMintNFTTransaction sdk NEXT_PUBLIC_PACKAGE_ID data) ;;
     result <- awaitSigned signAndExecuteTransaction transaction ;;
     lift (toast_success "NFT minted successfully!") ;;
     ret {| success := true;
            digest := Some (result_digest result);
            error := None;
            data := Some result |})
    (fun err =>
       suiError <- classified (handleTransactionError typeErrorText err) ;;
       lift (setError (Some (message suiError))) ;;
       lift (toast_error ("Failed to mint NFT: " ++ message suiError)) ;;
       ret {| success := false;
              digest := None;
              error := Some (message suiError);
              data := None |})
    (lift (setIsLoading false)).

Definition levelUp (nftId : string) : Run TransactionResponse :=
  lift (setIsLoading true) ;;
  lift (setError None) ;;
  tryCatchFinally
    (transaction <- evaluated (createLevelUpTransaction sdk NEXT_PUBLIC_PACKAGE_ID nftId) ;;
     result <- awaitSigned signAndExecuteTransaction transaction ;;
     lift (toast_success "NFT leveled up successfully! ðŸš€ Level will update shortly.") ;;
     ret {| success := true;
            digest := Some (result_digest result);
            error := None;
            data := Some result |})
    (fun err =>
       suiError <- classified (handleTransactionError typeErrorText err) ;;
       lift (setError (Some (message suiError))) ;;
       lift (toast_error ("Failed to level up NFT: " ++ message suiError)) ;;
       ret {| success := false;
              digest := None;
              error := Some (message suiError);
              data := None |})
    (lift (setIsLoading false)).

Variable suiToMist : string -> string.
Variable coins : option (list SuiCoin).
Variable currentAddress : option string.

Definition splitCoin (data : CoinSplitData) : Run TransactionResponse :=
  lift (setIsLoading true) ;;
  lift (setError None) ;;
  tryCatchFinally
    (let amountInMist := suiToMist (amount data) in
     match coins with
     | None | Some [] =>
         throw (Plain (JsError "Error" "No SUI coins found in your wallet"))
     | Some (first :: others) =>
         let total := totalBalance (first :: others) in
         let requiredAmount := parseInt amountInMist in
         if js_lt total (js_add requiredAmount estimatedGas) then
           throw (Plain (JsError "Error"
                           "Insufficient balance for split amount plus gas fees"))
         else
           let suitableCoin := largestCoin first others in
           if js_lt (parseInt (balance suitableCoin))
                    (js_add requiredAmount estimatedGas) then
             throw (Plain (JsError "Error"
                      "Largest coin does not have sufficient balance for split amount plus gas fees"))
           else
             transaction <-
               evaluated (createCoinSplitTransaction sdk
                            (coinObjectId suitableCoin) amountInMist currentAddress) ;;
             result <- awaitSigned signAndExecuteTransaction transaction ;;
             lift (toast_success ("Successfully split " ++ amount data ++ " SUI")) ;;
             ret {| success := true;
                    digest := Some (result_digest result);
                    error := None;
                    data := Some result |}
     end)
    (fun err =>
       suiError <- classified (handleTransactionError typeErrorText err) ;;
       lift (setError (Some (message suiError))) ;;
       lift (toast_error ("Failed to split coin: " ++ message suiError)) ;;
       ret {| success := false;
              digest := None;
              error := Some (message suiError);
              data := None |})
    (lift (setIsLoading false)).

End Hooks.

(** ** What a run did, for the statements

    The three checks of [splitCoin] before it builds: the message of the
    first one that fails, or the coin it goes on with. *)
Definition preflight (coins : option (list SuiCoin)) (amountInMist : string)
  : string + SuiCoin :=
  match coins with
  | None | Some [] => inl "No SUI coins found in your wallet"
  | Some (first :: others) =>
      if js_lt (totalBalance (first :: others))
               (js_add (parseInt amountInMist) estimatedGas)
      then inl "Insufficient balance for split amount plus gas fees"
      else if js_lt (parseInt (balance (largestCoin first others)))
                    (js_add (parseInt amountInMist) estimatedGas)
      then inl "Largest coin does not have sufficient balance for split amount plus gas fees"
      else inr (largestCoin first others)
  end.

Section Invocation.

Variable typeErrorText : JsValue -> string.
Variable sdk : Sdk.
Variable env : option string.
Variable signer : Signer.
Variable suiToMist : string -> string.
Variable coins : option (list SuiCoin).
Variable address : option string.

Definition invoke (op : Operation) : Run TransactionResponse :=
  match op with
  | Mint data => mintNFT typeErrorText sdk env signer data
  | LevelUp nftId => levelUp typeErrorText sdk env signer nftId
  | Split data => splitCoin typeErrorText sdk signer suiToMist coins address data
  end.

(** What the [try] block does before it signs: the exception of the
    guard or of the builder, or the transaction built. *)
Definition prepared (op : Operation) : Raised + Transaction :=
  match op with
  | Mint data => createMintNFTTransaction sdk env data
  | LevelUp nftId => createLevelUpTransaction sdk env nftId
  | Split data =>
      match preflight coins (suiToMist (amount data)) with
      | inl text => inl (Plain (JsError "Error" text))
      | inr suitableCoin =>
          createCoinSplitTransaction sdk (coinObjectId suitableCoin)
                                     (suiToMist (amount data)) address
      end
  end.

(** The exception the [catch] clause receives, if the [try] block ends
    by one: that of the guard or the builder, else the wallet's
    rejection. *)
Definition failure (op : Operation) : option Raised :=
  match prepared op with
  | inl x => Some x
  | inr transaction =>
      match signer transaction with
      | OnError e | ExecutorThrows e => Some e
      | OnSuccess _ | NoCallback => None
      end
  end.

End Invocation.

(** The text of the toast of a successful run. *)
Definition successToast (op : Operation) : string :=
  match op with
  | Mint _ => "NFT minted successfully!"
  | LevelUp _ => "NFT leveled up successfully! ðŸš€ Level will update shortly."
  | Split data => "Successfully split " ++ amount data ++ " SUI"
  end.

(** The [catch] and [finally] clauses on an exception [x], from a state
    whose trace is [events]: the classifier returns and the failure is
    stored, shown and returned, or the classifier throws and only the
    [finally] clause has run. *)
Definition handled (typeErrorText : JsValue -> string) (op : Operation)
           (events : list Event) (x : Raised)
  : Outcome TransactionResponse * HookState :=
  match handleTransactionError typeErrorText x with
  | Done suiError =>
      (Done {| success := false;
               digest := None;
               error := Some (message suiError);
               data := None |},
       {| isLoading := false;
          errorState := Some (message suiError);
          trace := events ++
                   [EvSetError (Some (message suiError));
                    EvToastError (failurePrefix op ++ message suiError);
                    EvSetIsLoading false] |})
  | Raise y =>
      (Raise y,
       {| isLoading := false;
          errorState := None;
          trace := events ++ [EvSetIsLoading false] |})
  | Waiting =>
      (Waiting, {| isLoading := true; errorState := None; trace := events |})
  end.

(** A whole run, by what the [try] block meets. *)
Definition expected (typeErrorText : JsValue -> string) (sdk : Sdk)
           (env : option string) (signer : Signer) (suiToMist : string -> string)
           (coins : option (list SuiCoin)) (address : option string)
           (op : Operation) (s0 : HookState)
  : Outcome TransactionResponse * HookState :=
  let opened := trace s0 ++ [EvSetIsLoading true; EvSetError None] in
  match prepared sdk env suiToMist coins address op with
  | inl x => handled typeErrorText op opened x
  | inr transaction =>
      match signer transaction with
      | OnSuccess result =>
          (Done (successResponse result),
           {| isLoading := false;
              errorState := None;
              trace := opened ++
                       [EvSign transaction;
                        EvToastSuccess (successToast op);
                        EvSetIsLoading false] |})
      | OnError e | ExecutorThrows e =>
          handled typeErrorText op (opened ++ [EvSign transaction]) e
      | NoCallback =>
          (Waiting,
           {| isLoading := true;
              errorState := None;
              trace := opened ++ [EvSign transaction] |})
      end
  end.

(** ** The poller on a measured clock

    [answer] is how the query of a turn ends.  [untilNextTest] is the
    difference between [Date.now()] at the test of the loop condition that
    opens the turn and at the next test, after the awaited query and the
    1000 ms timer: whatever the clock shows, in whole milliseconds, and at
    least one. *)
Record Turn : Type := mkTurn {
  answer : QueryOutcome;
  untilNextTest : positive
}.

Record Polled : Type := mkPolled {
  settled : Completion SuiTransactionBlockResponse;
  queriedAt : list N;
  lastReading : N
}.

(** The [while] loop; [reading] is [Date.now() - startTime] at the test
    of its condition, and [issued] the readings under which queries were
    made. *)
Equations? poll (source : nat -> Turn) (timeoutMs : Z)
           (issued : list N) (reading : N) : Polled
  by wf (Z.to_nat (timeoutMs - Z.of_N reading)) lt :=
  poll source timeoutMs issued reading with Z_lt_dec (Z.of_N reading) timeoutMs => {
    | right _ =>
        {| settled := Thrown (JsError "Error" "Transaction confirmation timeout");
           queriedAt := issued;
           lastReading := reading |}
    | left _ with loopBody (answer (source (length issued))) => {
        | StepReturn result =>
            {| settled := Returned result;
               queriedAt := issued ++ [reading];
               lastReading := reading |}
        | StepThrow v =>
            {| settled := Thrown v;
               queriedAt := issued ++ [reading];
               lastReading := reading |}
        | StepSleep =>
            poll source timeoutMs (issued ++ [reading])
                 (reading + Npos (untilNextTest (source (length issued))))%N
      }
  }.
Proof.
  lia.
Qed.

(** [waitForTransaction(client, digest, timeoutMs = 30000)];
    [firstReading] is what the clock shows at the first test, since
    [startTime] was taken. *)
Definition waitForTransaction (client : string -> nat -> Turn) (firstReading : N)
           (digest : string) (timeoutMs : option Z) : Polled :=
  let timeoutMs := match timeoutMs with Some t => t | None => 30000%Z end in
  poll (client digest) timeoutMs [] firstReading.

(** The reading at the test that opens turn [i]. *)
Fixpoint readingAt (source : nat -> Turn) (firstReading : N) (i : nat) : N :=
  match i with
  | O => firstReading
  | S k => (readingAt source firstReading k + Npos (untilNextTest (source k)))%N
  end.

(** [ceil(t / d)], and zero for a [t] that is not positive. *)
Definition turnsWithin (t d : Z) : nat := Z.to_nat ((t + d - 1) / d).

(** ** Fixtures *)

Definition isDecimalDigit (c : ascii) : bool :=
  let n := nat_of_ascii c in (48 <=? n)%nat && (n <=? 57)%nat.

(** A decimal numeral of an unsigned 64-bit integer. *)
Definition isU64Numeral (s : string) : bool :=
  match s with
  | EmptyString => false
  | String _ _ =>
      forallb isDecimalDigit (list_ascii_of_string s) &&
      match parseDigits 10 None s with
      | Some z => z <? 2 ^ 64
      | None => false
      end
  end.

(** An SDK that takes the decimal numerals of unsigned 64-bit integers
    as amounts and refuses every other text. *)
Definition numeralSdk : Sdk :=
  {| pure_string := fun s => inr (PureString s);
     object := fun id => inr (ObjectRef id);
     moveCall := fun target arguments => inr (MoveCall target arguments);
     splitCoins := fun coin amounts =>
       if forallb isU64Numeral amounts
       then inr (SplitCoins coin (map PureAmount amounts))
       else inl (Plain (JsError "Error" "Invalid u64 value"));
     transferObjects := fun objects address => inr (TransferObjects objects address) |}.

(** The text one engine gives the [TypeError]. *)
Definition engineText (message : JsValue) : string :=
  match message with
  | JsUndefined => "Cannot read properties of undefined (reading 'includes')"
  | JsNull => "Cannot read properties of null (reading 'includes')"
  | _ => "error.message.includes is not a function"
  end.

(** A wallet that rejects with an [Error] whose message is a number. *)
Definition oddWallet : Signer :=
  fun _ => OnError (OddError "Error" (JsOther "number")).

(** A clock on which every turn takes 999 ms and no transaction becomes
    visible. *)
Definition earlyTimers : string -> nat -> Turn :=
  fun _ _ => mkTurn (Rejects (JsError "Error" "Transaction not found")) 999.


End Runtime.

(** A signer and a completion of the typed model, seen at run time. *)
Definition atRuntime (signer : Signer) : Runtime.Signer :=
  fun transaction =>
    match signer transaction with
    | CallsOnSuccess result => Runtime.OnSuccess result
    | CallsOnError e => Runtime.OnError (Runtime.Plain e)
    | ThrowsInExecutor e => Runtime.ExecutorThrows (Runtime.Plain e)
    | NeverCallsBack => Runtime.NoCallback
    end.

Definition ofCompletion {A} (c : Completion A) : Runtime.Outcome A :=
  match c with
  | Returned a => Runtime.Done a
  | Thrown v => Runtime.Raise (Runtime.Plain v)
  | Pending => Runtime.Waiting
  end.

(** The guard of [splitCoin] refused with [text]: the response is the
    failure with that text, which the classifier files under
    [TRANSACTION_ERROR], and the signer was not asked. *)
Definition refusedWith (text : string)
           (run : Runtime.Outcome TransactionResponse * HookState)
           (s0 : HookState) : Prop :=
  fst run = Runtime.Done {| success := false; digest := None;
                            error := Some text; data := None |}
  /\ code (handleTransactionError (JsError "Error" text)) = "TRANSACTION_ERROR"
  /\ signerCalls (snd run) = signerCalls s0.

(** A wallet whose rejection carries an empty message, and the response
    to it. *)
Definition silentWallet : Runtime.Signer :=
  fun _ => Runtime.OnError (Runtime.Plain (JsError "Error" "")).

Definition emptyFailure : TransactionResponse :=
  {| success := false; digest := None; error := Some ""; data := None |}.

(** Two owned coins of 5 and 20 SUI, and conversions that yield 20 SUI,
    1 SUI, and the texts of numbers that are no numerals. *)
Definition twoCoins : option (list SuiCoin) :=
  Some [ mkSuiCoin "0xa" "5000000000"; mkSuiCoin "0xb" "20000000000" ].

(** One owned coin of exactly 20 SUI. *)
Definition oneCoin : option (list SuiCoin) :=
  Some [ mkSuiCoin "0xb" "20000000000" ].

Definition twentySui : string -> string := fun _ => "20000000000".

Definition oneSui : string -> string := fun _ => "1000000000".

Definition notANumber : string -> string := fun _ => "NaN".

Definition exponentText : string -> string := fun _ => "1e+21".

(** A source of the first poller as the clock of the second sees it:
    a turn takes the reply, the 1000 ms of the timer and its delay. *)
Definition measured (source : nat -> Tick) : nat -> Runtime.Turn :=
  fun i =>
    Runtime.mkTurn (reply (source i))
                   (N.succ_pos (replyMs (source i) + 999 + timerLateMs (source i))).


(** What [toSimpleNFT] reads: the display entry for a key, and the
    object's own field when that is a string. *)
Definition displayed (key : string) (obj : SuiObjectResponse) : option string :=
  match obj_data obj with
  | Some d =>
      match display d with
      | Some entries => property key entries
      | None => None
      end
  | None => None
  end.

Definition ownFields (obj : SuiObjectResponse) : list (string * FieldValue) :=
  match obj_data obj with
  | Some d =>
      match content d with
      | Some (MoveObject fields) => fields
      | _ => []
      end
  | None => []
  end.

(** An object without display data whose fields are of the wrong
    types, and one whose level is the number 7. *)
Definition untypedObject : SuiObjectResponse :=
  mkSuiObjectResponse
    (Some (mkSuiObjectData "0x77" None
             (Some (MoveObject [("name", FieldNumber (Num 5));
                                ("description", FieldOther);
                                ("level", FieldString "3")]))
             None)).

Definition levelSeven : SuiObjectResponse :=
  mkSuiObjectResponse
    (Some (mkSuiObjectData "0x78" None
             (Some (MoveObject [("name", FieldString "raw");
                                ("level", FieldNumber (Num 7))]))
             (Some [("name", "Shown")]))).

(* ===================================================================== *)
(** * Theorems: error classifier *)
(* ===================================================================== *)

Section Classifier.

Example includes_empty : includes "" "" = true.
Proof. reflexivity. Qed.

Example includes_inner :
  includes "Gas budget" "Error: Gas budget exceeded" = true.
Proof. reflexivity. Qed.

Example includes_case_sensitive :
  includes "Gas budget" "error: gas budget exceeded" = false.
Proof. reflexivity. Qed.

Example priority_of_rows :
  code (handleTransactionError
          (JsError "Error" "User rejected: Gas budget too low, Insufficient funds"))
  = "INSUFFICIENT_FUNDS"
  /\ code (handleTransactionError (JsError "Error" "User rejected after Gas budget"))
     = "GAS_BUDGET_ERROR"
  /\ code (handleTransactionError (JsError "Error" "Object not found"))
     = "OBJECT_NOT_FOUND".
Proof. repeat split. Qed.

Example lower_example : toLowerCase "Insufficient Funds 42" = "insufficient funds 42".
Proof. reflexivity. Qed.

Lemma handleTransactionError_details (v : JsValue) :
  details (handleTransactionError v) = v.
Proof.
  destruct v; simpl; try reflexivity.
  repeat match goal with
         | |- context [if ?c then _ else _] => destruct c
         end; reflexivity.
Qed.

Lemma handleTransactionError_exact (name msg : string) :
  (code (handleTransactionError (JsError name msg)),
   message (handleTransactionError (JsError name msg))) = classifyExact msg.
Proof.
  unfold classifyExact, errorPatterns; simpl.
  repeat match goal with
         | |- context [if ?c then _ else _] => destruct c; simpl
         end; reflexivity.
Qed.

End Classifier.

(** C1 (as stated, refuted): with the message ["insufficient funds"] the
    case-insensitive classifier of the specification answers
    INSUFFICIENT_FUNDS, while [handleTransactionError] finds no match and
    answers TRANSACTION_ERROR with the message verbatim. *)
Lemma C1_case_insensitive_counterexample :
  classifySpec "insufficient funds" =
    ("INSUFFICIENT_FUNDS", "Insufficient SUI balance to complete the transaction")
  /\ code (handleTransactionError (JsError "Error" "insufficient funds"))
     = "TRANSACTION_ERROR"
  /\ message (handleTransactionError (JsError "Error" "insufficient funds"))
     = "insufficient funds"
  /\ (code (handleTransactionError (JsError "Error" "insufficient funds")),
      message (handleTransactionError (JsError "Error" "insufficient funds")))
     <> classifySpec "insufficient funds".
Proof.
  repeat split; try reflexivity.
  vm_compute. discriminate.
Qed.

(** C1 (amended): for every failure that is an [Error],
    [handleTransactionError] yields the code and message of the first row
    of the table, in the fixed priority order, whose substring occurs in
    the error's message with exactly the casing of the source (matching is
    case sensitive); when no row matches it yields TRANSACTION_ERROR with
    the original message verbatim; and two errors with equal messages get
    equal code and message. *)
Theorem C1_first_match_exact_case :
  (forall name msg,
      (code (handleTransactionError (JsError name msg)),
       message (handleTransactionError (JsError name msg)))
      = firstMatch includes errorPatterns msg)
  /\ (forall name msg,
         forallb (fun p => negb (includes (pat_needle p) msg)) errorPatterns = true ->
         code (handleTransactionError (JsError name msg)) = "TRANSACTION_ERROR"
         /\ message (handleTransactionError (JsError name msg)) = msg)
  /\ (forall name1 name2 msg,
         code (handleTransactionError (JsError name1 msg))
           = code (handleTransactionError (JsError name2 msg))
         /\ message (handleTransactionError (JsError name1 msg))
           = message (handleTransactionError (JsError name2 msg))).
Proof.
  split; [| split].
  - intros name msg. apply handleTransactionError_exact.
  - intros name msg H. simpl in H.
    repeat (apply andb_prop in H; destruct H as [?H H]).
    repeat match goal with
           | Hn : negb _ = true |- _ => apply negb_true_iff in Hn
           end.
    simpl.
    repeat match goal with
           | Hn : includes ?n msg = false |- _ => rewrite Hn; clear Hn
           end.
    split; reflexivity.
  - intros name1 name2 msg.
    pose proof (handleTransactionError_exact name1 msg) as H1.
    pose proof (handleTransactionError_exact name2 msg) as H2.
    rewrite <- H2 in H1.
    split; [exact (f_equal fst H1) | exact (f_equal snd H1)].
Qed.

Lemma C1_first_match_exact_case_witness :
  code (handleTransactionError (JsError "Error" "insufficient funds"))
  = "TRANSACTION_ERROR"
  /\ message (handleTransactionError (JsError "Error" "insufficient funds"))
     = "insufficient funds".
Proof.
  apply (proj1 (proj2 C1_first_match_exact_case) "Error" "insufficient funds").
  reflexivity.
Defined.

(* ===================================================================== *)
(** * Theorems: operation hooks *)
(* ===================================================================== *)

Ltac unfold_hook :=
  unfold invoke, mintNFT, levelUp, splitCoin, tryCatchFinally, bind, ret, throw,
    awaitSigned, setIsLoading, setError, toast_success, toast_error, emit,
    attemptState, attemptCompletion, attemptEvents, failureResponse,
    successResponse, failurePrefix;
  cbn [isLoading errorState trace fst snd].

(** Case analysis on membership in an explicit list of events. *)
Ltac in_cases H :=
  repeat match type of H with
         | _ \/ _ => destruct H as [H | H]
         | False => destruct H
         | _ = _ => first [discriminate H | inversion H; subst; clear H]
         end.

Ltac tidy_trace :=
  repeat rewrite <- app_assoc; cbn [app map].

(** Every invocation is one of the three attempts. *)
Lemma invoke_attempt env signer suiToMist coins address op s0 :
  exists a : Attempt,
    attemptSound signer a /\
    invoke env signer suiToMist coins address op s0
    = (attemptCompletion a, attemptState op a s0).
Proof.
  destruct op as [d | nftId | d].
  - destruct (signer (createMintNFTTransaction env d)) as [res | e | e |] eqn:Hs.
    + exists (Succeeded (createMintNFTTransaction env d) res "NFT minted successfully!").
      split; [exact Hs |]. unfold_hook. rewrite Hs. cbn. tidy_trace. reflexivity.
    + exists (Failed [createMintNFTTransaction env d] e).
      split; [left; exact Hs |]. unfold_hook. rewrite Hs. cbn. tidy_trace. reflexivity.
    + exists (Failed [createMintNFTTransaction env d] e).
      split; [right; exact Hs |]. unfold_hook. rewrite Hs. cbn. tidy_trace. reflexivity.
    + exists (Hanging (createMintNFTTransaction env d)).
      split; [exact Hs |]. unfold_hook. rewrite Hs. cbn. tidy_trace. reflexivity.
  - destruct (signer (createLevelUpTransaction env nftId)) as [res | e | e |] eqn:Hs.
    + eexists (Succeeded (createLevelUpTransaction env nftId) res _).
      split; [exact Hs |]. unfold_hook. rewrite Hs. cbn. tidy_trace. reflexivity.
    + exists (Failed [createLevelUpTransaction env nftId] e).
      split; [left; exact Hs |]. unfold_hook. rewrite Hs. cbn. tidy_trace. reflexivity.
    + exists (Failed [createLevelUpTransaction env nftId] e).
      split; [right; exact Hs |]. unfold_hook. rewrite Hs. cbn. tidy_trace. reflexivity.
    + exists (Hanging (createLevelUpTransaction env nftId)).
      split; [exact Hs |]. unfold_hook. rewrite Hs. cbn. tidy_trace. reflexivity.
  - destruct coins as [[| first others] |].
    2: destruct (js_lt (totalBalance (first :: others))
                       (js_add (parseInt (suiToMist (amount d))) estimatedGas)) eqn:Htot.
    3: destruct (js_lt (parseInt (balance (largestCoin first others)))
                       (js_add (parseInt (suiToMist (amount d))) estimatedGas)) eqn:Hbig.
    4: destruct (signer (createCoinSplitTransaction
                           (coinObjectId (largestCoin first others))
                           (suiToMist (amount d)) address)) as [res | e | e |] eqn:Hs.
    all: unfold_hook; try rewrite Htot; try rewrite Hbig; try rewrite Hs.
    1, 8: exists (Failed [] (JsError "Error" "No SUI coins found in your wallet"));
      split; [exact I |]; cbn; tidy_trace; reflexivity.
    + exists (Failed [] (JsError "Error"
                "Insufficient balance for split amount plus gas fees"));
      split; [exact I |]; cbn; tidy_trace; reflexivity.
    + exists (Failed [] (JsError "Error"
                "Largest coin does not have sufficient balance for split amount plus gas fees"));
      split; [exact I |]; cbn; tidy_trace; reflexivity.
    + eexists (Succeeded _ res _); split; [exact Hs |]; cbn; tidy_trace; reflexivity.
    + eexists (Failed [_] e); split; [left; exact Hs |]; cbn; tidy_trace; reflexivity.
    + eexists (Failed [_] e); split; [right; exact Hs |]; cbn; tidy_trace; reflexivity.
    + eexists (Hanging _); split; [exact Hs |]; cbn; tidy_trace; reflexivity.
Qed.


(** The classified message is empty only for an [Error] whose own
    message is empty. *)
Lemma classified_message_empty v :
  message (handleTransactionError v) = "" -> exists n, v = JsError n "".
Proof.
  destruct v as [| | b | s | fields | ty | n msg]; simpl; try discriminate.
  repeat match goal with
         | |- context [if ?c then _ else _] => destruct c; simpl; try discriminate
         end.
  intros ->. exists n. reflexivity.
Qed.

(** Whatever the body of a [try] does, a catch block that returns and a
    finalizer that returns leave nothing thrown: this is the shape of the
    three hooks, and it does not depend on what their bodies call. *)
Lemma tryCatchFinally_recovers {A} (body : Hook A)
      (handler : JsValue -> Hook A) (finalizer : Hook unit) (s : HookState) :
  (forall v s1, exists a s2, handler v s1 = (Returned a, s2)) ->
  (forall s1, exists s2, finalizer s1 = (Returned tt, s2)) ->
  forall v s', tryCatchFinally body handler finalizer s <> (Thrown v, s').
Proof.
  intros Hhandler Hfinal v s'. unfold tryCatchFinally.
  destruct (body s) as [[a | v0 |] s1].
  - destruct (Hfinal s1) as [s2 ->]. discriminate.
  - destruct (Hhandler v0 s1) as [a [s2 ->]].
    destruct (Hfinal s2) as [s3 ->]. discriminate.
  - discriminate.
Qed.


(* ===================================================================== *)
(** * Theorems: the balance guard of [splitCoin] *)
(* ===================================================================== *)

Lemma roundToDouble_exact z :
  - 2 ^ 53 < z < 2 ^ 53 -> roundToDouble z = Num z.
Proof.
  intros H. unfold roundToDouble.
  replace (Z.abs z <? 2 ^ 53) with true; [reflexivity |].
  symmetry. apply Z.ltb_lt. lia.
Qed.

Lemma sumZ_nonneg cs bs : Forall2 hasBalance cs bs -> 0 <= sumZ bs.
Proof.
  induction 1 as [| c b cs bs [_ Hb] _ IH]; simpl; lia.
Qed.

Lemma maxZ_le_sumZ cs bs : Forall2 hasBalance cs bs -> maxZ bs <= sumZ bs.
Proof.
  induction 1 as [| c b cs bs [_ Hb] Hrest IH]; simpl; [lia |].
  pose proof (sumZ_nonneg _ _ Hrest). lia.
Qed.

Lemma fold_total_exact cs bs :
  Forall2 hasBalance cs bs ->
  forall acc, 0 <= acc -> acc + sumZ bs < 2 ^ 53 ->
  fold_left (fun sum coin => js_add sum (parseInt (balance coin))) cs (Num acc)
  = Num (acc + sumZ bs).
Proof.
  induction 1 as [| c b cs bs [Hp Hb] Hrest IH]; intros acc Hacc Hsum; simpl in *.
  - f_equal. lia.
  - rewrite Hp. simpl.
    pose proof (sumZ_nonneg _ _ Hrest) as Hnn.
    rewrite roundToDouble_exact by lia.
    rewrite IH by lia. f_equal. lia.
Qed.

Lemma totalBalance_exact cs bs :
  Forall2 hasBalance cs bs -> sumZ bs < 2 ^ 53 ->
  totalBalance cs = Num (sumZ bs).
Proof.
  intros H Hs. unfold totalBalance.
  rewrite (fold_total_exact cs bs H 0) by lia. reflexivity.
Qed.

Lemma largestCoin_exact others bs :
  Forall2 hasBalance others bs ->
  forall first b, hasBalance first b ->
  parseInt (balance (largestCoin first others)) = Num (Z.max b (maxZ bs)).
Proof.
  unfold largestCoin.
  induction 1 as [| c x cs xs [Hp Hx] Hrest IH]; intros first b [Hf Hb]; simpl.
  - rewrite Hf. f_equal. lia.
  - rewrite Hp, Hf. change (js_gt (Num x) (Num b)) with (b <? x).
    destruct (b <? x) eqn:Hlt; cbv iota.
    + apply Z.ltb_lt in Hlt.
      rewrite (IH c x) by (split; assumption). f_equal. lia.
    + apply Z.ltb_ge in Hlt.
      rewrite (IH first b) by (split; assumption). f_equal. lia.
Qed.

Lemma signerCalls_app s evs :
  length (filter isSignEvent (trace s ++ evs))
  = (signerCalls s + length (filter isSignEvent evs))%nat.
Proof.
  unfold signerCalls. rewrite filter_app, length_app. reflexivity.
Qed.

Ltac unfold_run :=
  unfold tryCatchFinally, bind, ret, throw, awaitSigned, setIsLoading, setError,
    toast_success, toast_error, emit;
  cbn [isLoading errorState trace fst snd].

(* ===================================================================== *)
(** * Theorems: the coin split builder *)
(* ===================================================================== *)

Lemma truthy_spec recipient :
  truthy recipient = true <-> exists r, recipient = Some r /\ r <> "".
Proof.
  split.
  - destruct recipient as [[| c r] |]; simpl; try discriminate.
    intros _. exists (String c r). split; [reflexivity | discriminate].
  - intros [r [-> Hr]]. destruct r; [contradiction Hr; reflexivity | reflexivity].
Qed.

(** C10: the [coinObjectId] argument of [createCoinSplitTransaction]
    has no influence on the transaction built: two calls that agree on the
    amount and on the recipient build the same transaction, whatever coin
    ids they are given. *)
Theorem C10_coinObjectId_unused (id1 id2 amount : string) (recipient : option string) :
  createCoinSplitTransaction id1 amount recipient
  = createCoinSplitTransaction id2 amount recipient.
Proof.
  reflexivity.
Qed.

(** The guard of [splitCoin] reads balances only. *)
Lemma totalBalance_balances cs cs' :
  map balance cs = map balance cs' -> totalBalance cs = totalBalance cs'.
Proof.
  unfold totalBalance. generalize (Num 0).
  revert cs'. induction cs as [| c cs IH]; intros [| c' cs'] acc H;
    simpl in *; try discriminate; [reflexivity |].
  inversion H as [[Hb Hrest]]. rewrite Hb. apply IH. exact Hrest.
Qed.

Lemma largestCoin_balance others others' first first' :
  balance first = balance first' ->
  map balance others = map balance others' ->
  balance (largestCoin first others) = balance (largestCoin first' others').
Proof.
  unfold largestCoin.
  revert others' first first'.
  induction others as [| c cs IH]; intros [| c' cs'] first first' Hf H;
    simpl in *; try discriminate; [exact Hf |].
  inversion H as [[Hb Hrest]]. rewrite Hb, Hf.
  destruct (js_gt (parseInt (balance c')) (parseInt (balance first')));
    apply IH; assumption.
Qed.

(** X4, the hook level of C10: [splitCoin] hands the id of the largest
    coin to the builder, and no coin id influences what the hook does. *)
Lemma splitCoin_ignores_coin_ids signer suiToMist cs cs' address d s0 :
  map balance cs = map balance cs' ->
  splitCoin signer suiToMist (Some cs) address d s0
  = splitCoin signer suiToMist (Some cs') address d s0.
Proof.
  intros H. destruct cs as [| first others], cs' as [| first' others'];
    try discriminate; [reflexivity |].
  pose proof (totalBalance_balances _ _ H) as Htot.
  simpl in H. inversion H as [[Hf Hrest]].
  pose proof (largestCoin_balance _ _ _ _ Hf Hrest) as Hbig.
  unfold splitCoin. rewrite Htot, Hbig. reflexivity.
Qed.

(* ===================================================================== *)
(** * Theorems: the confirmation poller *)
(* ===================================================================== *)

Section Poller.

Variable source : nat -> Tick.
Variable timeoutMs : Z.

Lemma poll_timeout issued elapsed :
  ~ Z.of_N elapsed < timeoutMs ->
  poll source timeoutMs issued elapsed
  = {| outcome := Thrown timeoutError; queryTimes := issued; finishedAt := elapsed |}.
Proof.
  intros H. funelim (poll source timeoutMs issued elapsed);
    [reflexivity | contradiction | contradiction | contradiction].
Qed.

Lemma poll_turn issued elapsed :
  Z.of_N elapsed < timeoutMs ->
  poll source timeoutMs issued elapsed =
  match loopBody (reply (source (length issued))) with
  | StepReturn result =>
      {| outcome := Returned result;
         queryTimes := issued ++ [elapsed];
         finishedAt := (elapsed + replyMs (source (length issued)))%N |}
  | StepThrow v =>
      {| outcome := Thrown v;
         queryTimes := issued ++ [elapsed];
         finishedAt := (elapsed + replyMs (source (length issued)))%N |}
  | StepSleep =>
      poll source timeoutMs (issued ++ [elapsed])
           (elapsed + replyMs (source (length issued)) + 1000
            + timerLateMs (source (length issued)))%N
  end.
Proof.
  intros H. funelim (poll source timeoutMs issued elapsed).
  - contradiction.
  - rewrite Heq. reflexivity.
  - rewrite Heq. reflexivity.
  - rewrite Heq. reflexivity.
Qed.

Lemma loopBody_sleeps o :
  notFound o || unsettled o = true -> loopBody o = StepSleep.
Proof.
  unfold loopBody, tryBlock, notFound, unsettled.
  destruct o as [result | reason].
  - simpl. destruct (executionStatus result) as [st |]; [| reflexivity].
    destruct (String.eqb (status st) "success"); simpl; [discriminate |].
    destruct (String.eqb (status st) "failure"); simpl; [discriminate |].
    reflexivity.
  - rewrite orb_false_r.
    destruct reason; try discriminate. simpl. intros ->. reflexivity.
Qed.


End Poller.

(** C4 (as stated, refuted): a query failure that is not 'not found' but
    is not an [Error] instance either is not propagated: the poller goes on
    querying, 30 times at the default settings, and ends with the timeout
    error instead of the failure it was given. *)
Lemma C4_non_error_rejection_counterexample :
  notFound (reply (networkDown "9vXk" 0%nat)) = false
  /\ reply (networkDown "9vXk" 0%nat) = Rejects (JsString "network down")
  /\ outcome (waitForTransaction networkDown "9vXk" None)
     = Thrown (JsError "Error" "Transaction confirmation timeout")
  /\ outcome (waitForTransaction networkDown "9vXk" None)
     <> Thrown (JsString "network down")
  /\ length (queryTimes (waitForTransaction networkDown "9vXk" None)) = 30%nat.
Proof.
  repeat split; try (vm_compute; reflexivity).
  vm_compute. discriminate.
Qed.

(** The prefix of the failure message cannot complete a match of
    ['not found']. *)
Lemma includes_failed_prefix reason :
  includes "not found" ("Transaction failed: " ++ reason)
  = includes "not found" reason.
Proof. reflexivity. Qed.

(** C4 (amended): at a turn of the polling loop taken before the
    timeout, (a) a query failure that is an [Error] whose message contains
    'not found' is treated as not yet settled: the loop sleeps and goes on;
    (b) a query failure that is an [Error] whose message does not contain
    'not found' is thrown to the caller at once, with no further query;
    (c) a query failure that is not an [Error] instance is swallowed and
    the loop goes on; (d) a result reporting terminal failure with a remote
    reason that does not contain 'not found' makes the poller fail at once
    with the [Error] 'Transaction failed: ' followed by that reason. *)
Theorem C4_query_failures (source : nat -> Tick) (timeoutMs : Z)
        (issued : list N) (elapsed : N) :
  Z.of_N elapsed < timeoutMs ->
  (notFound (reply (source (length issued))) = true ->
   poll source timeoutMs issued elapsed
   = poll source timeoutMs (issued ++ [elapsed])
          (elapsed + replyMs (source (length issued)) + 1000
           + timerLateMs (source (length issued)))%N)
  /\ (forall name msg,
         reply (source (length issued)) = Rejects (JsError name msg) ->
         includes "not found" msg = false ->
         poll source timeoutMs issued elapsed
         = {| outcome := Thrown (JsError name msg);
              queryTimes := issued ++ [elapsed];
              finishedAt := (elapsed + replyMs (source (length issued)))%N |})
  /\ (forall v,
         reply (source (length issued)) = Rejects v ->
         instanceofError v = false ->
         poll source timeoutMs issued elapsed
         = poll source timeoutMs (issued ++ [elapsed])
                (elapsed + replyMs (source (length issued)) + 1000
                 + timerLateMs (source (length issued)))%N)
  /\ (forall result reason,
         reply (source (length issued)) = Resolves result ->
         failureReason result = Some reason ->
         includes "not found" reason = false ->
         poll source timeoutMs issued elapsed
         = {| outcome := Thrown (JsError "Error" ("Transaction failed: " ++ reason));
              queryTimes := issued ++ [elapsed];
              finishedAt := (elapsed + replyMs (source (length issued)))%N |}).
Proof.
  intros Hlt. rewrite (poll_turn source timeoutMs issued elapsed Hlt).
  split; [| split; [| split]].
  - intros Hnf. rewrite loopBody_sleeps by (rewrite Hnf; reflexivity). reflexivity.
  - intros name msg Hreply Hmsg. rewrite Hreply.
    unfold loopBody, tryBlock, catchBlock. rewrite Hmsg. reflexivity.
  - intros v Hreply Hne. rewrite Hreply.
    unfold loopBody, tryBlock, catchBlock.
    destruct v; try discriminate; reflexivity.
  - intros result reason Hreply Hreason Hmsg. rewrite Hreply.
    unfold failureReason in Hreason. unfold loopBody, tryBlock.
    destruct (executionStatus result) as [st |]; [| discriminate].
    destruct (String.eqb (status st) "success"); [discriminate |].
    destruct (String.eqb (status st) "failure"); [| discriminate].
    simpl in Hreason. inversion Hreason; subst reason.
    unfold catchBlock. rewrite includes_failed_prefix, Hmsg. reflexivity.
Qed.

Lemma C4_query_failures_witness :
  poll (neverVisible "9vXk") 30000 [] 0 = poll (neverVisible "9vXk") 30000 [0%N] 1000
  /\ poll (transportFailure "9vXk") 30000 [] 0
     = {| outcome := Thrown (JsError "TypeError" "fetch failed");
          queryTimes := [0%N];
          finishedAt := 15%N |}
  /\ poll (networkDown "9vXk") 30000 [] 0 = poll (networkDown "9vXk") 30000 [0%N] 1000
  /\ poll (abortedOnChain "9vXk") 30000 [] 0
     = {| outcome :=
            Thrown (JsError "Error"
                      "Transaction failed: MoveAbort in simple_nft::level_up");
          queryTimes := [0%N];
          finishedAt := 40%N |}.
Proof.
  assert (Hlt : Z.of_N 0 < 30000) by reflexivity.
  split; [| split; [| split]].
  - apply (proj1 (C4_query_failures (neverVisible "9vXk") 30000 [] 0 Hlt)).
    reflexivity.
  - apply (proj1 (proj2 (C4_query_failures (transportFailure "9vXk") 30000 [] 0 Hlt))
             "TypeError" "fetch failed"); reflexivity.
  - apply (proj1 (proj2 (proj2
             (C4_query_failures (networkDown "9vXk") 30000 [] 0 Hlt)))
             (JsString "network down")); reflexivity.
  - apply (proj2 (proj2 (proj2
             (C4_query_failures (abortedOnChain "9vXk") 30000 [] 0 Hlt)))
             (mkBlockResponse "9vXk"
                (Some (mkTransactionEffects
                         (Some (mkExecutionStatus "failure"
                                  (Some "MoveAbort in simple_nft::level_up"))))))
             "MoveAbort in simple_nft::level_up"); reflexivity.
Defined.

(** The [throw] of a terminal failure sits inside the [try] whose
    [catch] swallows messages containing 'not found': a failure whose
    remote reason contains these words is not reported, and the poller runs
    into its timeout. *)
Example terminal_failure_swallowed :
  failureReason
    (mkBlockResponse "9vXk"
       (Some (mkTransactionEffects
                (Some (mkExecutionStatus "failure" (Some "Object not found"))))))
  = Some "Object not found"
  /\ waitForTransaction failedObjectNotFound "9vXk" (Some 3000)
     = {| outcome := Thrown (JsError "Error" "Transaction confirmation timeout");
          queryTimes := [0; 1000; 2000]%N;
          finishedAt := 3000%N |}.
Proof. split; reflexivity. Qed.

(* ===================================================================== *)
(** * Further properties: builders and hooks *)
(* ===================================================================== *)

(** X1: what [mintNFT] and [levelUp] hand to the signer is exactly the
    transaction their builder made, and they hand it over exactly once,
    whatever the signer then does. *)
Theorem hooks_sign_builder_output env signer s0 :
  (forall data,
      exists evs,
        trace (snd (mintNFT env signer data s0)) = trace s0 ++ evs
        /\ filter isSignEvent evs = [EvSign (createMintNFTTransaction env data)])
  /\ (forall nftId,
         exists evs,
           trace (snd (levelUp env signer nftId s0)) = trace s0 ++ evs
           /\ filter isSignEvent evs = [EvSign (createLevelUpTransaction env nftId)]).
Proof.
  split.
  - intros data. unfold mintNFT. unfold_run.
    destruct (signer (createMintNFTTransaction env data));
      cbn; tidy_trace; eexists; (split; [reflexivity | reflexivity]).
  - intros nftId. unfold levelUp. unfold_run.
    destruct (signer (createLevelUpTransaction env nftId));
      cbn; tidy_trace; eexists; (split; [reflexivity | reflexivity]).
Qed.

Lemma splitCoin_ignores_coin_ids_witness :
  splitCoin approvingWallet (fun _ => "1000000000")
            (Some [mkSuiCoin "0xc1" "20000000000"; mkSuiCoin "0xc2" "7"])
            (Some "0xa11ce") (mkCoinSplitData "1" "") idle
  = splitCoin approvingWallet (fun _ => "1000000000")
              (Some [mkSuiCoin "0xd4" "20000000000"; mkSuiCoin "0xd5" "7"])
              (Some "0xa11ce") (mkCoinSplitData "1" "") idle.
Proof.
  apply splitCoin_ignores_coin_ids. reflexivity.
Defined.

Lemma largestCoin_owned others :
  forall first, In (largestCoin first others) (first :: others).
Proof.
  unfold largestCoin.
  induction others as [| c cs IH]; intros first; simpl; [left; reflexivity |].
  destruct (js_gt (parseInt (balance c)) (parseInt (balance first))).
  - right. apply IH.
  - destruct (IH first) as [H | H]; [left; exact H | right; right; exact H].
Qed.

(** X5: the coin [splitCoin] selects is one of the owned coins, and when
    the balances are numerals no owned coin has a larger balance. *)
Theorem suitable_coin_owned_and_largest first others :
  In (largestCoin first others) (first :: others)
  /\ (forall bs,
         Forall2 hasBalance (first :: others) bs ->
         forall c, In c (first :: others) ->
                   js_gt (parseInt (balance c))
                         (parseInt (balance (largestCoin first others))) = false).
Proof.
  split; [apply largestCoin_owned |].
  intros bs Hbal c Hin.
  inversion Hbal as [| ? b ? bs' Hfirst Hrest]; subst.
  rewrite (largestCoin_exact _ _ Hrest _ _ Hfirst).
  assert (Hle : forall cs xs, Forall2 hasBalance cs xs ->
                 forall c0, In c0 cs ->
                 exists x, parseInt (balance c0) = Num x /\ x <= maxZ xs).
  { induction 1 as [| c1 x1 cs1 xs1 [Hp Hx] _ IH]; intros c0 Hc0; [destruct Hc0 |].
    destruct Hc0 as [<- | Hc0].
    - exists x1. split; [exact Hp | simpl; lia].
    - destruct (IH c0 Hc0) as [x [Hpx Hxle]]. exists x. split; [exact Hpx | simpl; lia]. }
  destruct (Hle _ _ Hbal c Hin) as [x [Hpx Hxle]].
  rewrite Hpx. unfold js_gt. cbn [js_lt]. apply Z.ltb_ge. exact Hxle.
Qed.

Lemma suitable_coin_owned_and_largest_witness :
  js_gt (parseInt (balance (mkSuiCoin "0xc2" "7")))
        (parseInt (balance (largestCoin (mkSuiCoin "0xc1" "5")
                                        [mkSuiCoin "0xc2" "7"; mkSuiCoin "0xc3" "7"])))
  = false.
Proof.
  apply (proj2 (suitable_coin_owned_and_largest (mkSuiCoin "0xc1" "5")
                  [mkSuiCoin "0xc2" "7"; mkSuiCoin "0xc3" "7"]) [5; 7; 7]).
  - repeat constructor; vm_compute; discriminate.
  - right. left. reflexivity.
Defined.

(* ===================================================================== *)
(** * Further properties: the confirmation poller *)
(* ===================================================================== *)

Lemma loopBody_failure_not_found result reason :
  failureReason result = Some reason ->
  includes "not found" reason = true ->
  loopBody (Resolves result) = StepSleep.
Proof.
  unfold failureReason, loopBody, tryBlock.
  destruct (executionStatus result) as [st |]; [| discriminate].
  destruct (String.eqb (status st) "success"); [discriminate |].
  destruct (String.eqb (status st) "failure"); [| discriminate].
  intros H Hinc. cbn [negb andb] in H. inversion H; subst reason.
  unfold catchBlock. rewrite includes_failed_prefix, Hinc. reflexivity.
Qed.

(** X6: a terminal failure whose remote reason contains 'not found' is
    not reported: its [throw] is caught by the poller's own [catch], which
    takes it for a record that is not visible yet, so the loop sleeps and
    queries again. *)
Theorem poll_swallows_not_found_failure
        (source : nat -> Tick) (timeoutMs : Z) (issued : list N) (elapsed : N)
        (result : SuiTransactionBlockResponse) (reason : string) :
  Z.of_N elapsed < timeoutMs ->
  reply (source (length issued)) = Resolves result ->
  failureReason result = Some reason ->
  includes "not found" reason = true ->
  poll source timeoutMs issued elapsed
  = poll source timeoutMs (issued ++ [elapsed])
         (elapsed + replyMs (source (length issued)) + 1000
          + timerLateMs (source (length issued)))%N.
Proof.
  intros Hlt Hreply Hreason Hinc.
  rewrite (poll_turn source timeoutMs issued elapsed Hlt), Hreply.
  rewrite (loopBody_failure_not_found result reason Hreason Hinc). reflexivity.
Qed.

Lemma poll_swallows_not_found_failure_witness :
  poll (failedObjectNotFound "9vXk") 3000 [] 0
  = poll (failedObjectNotFound "9vXk") 3000 [0%N] 1000.
Proof.
  apply (poll_swallows_not_found_failure (failedObjectNotFound "9vXk") 3000 [] 0
           (mkBlockResponse "9vXk"
              (Some (mkTransactionEffects
                       (Some (mkExecutionStatus "failure" (Some "Object not found"))))))
           "Object not found"); reflexivity.
Defined.

(** X7: with a timeout that is zero or negative [waitForTransaction]
    issues no query at all and fails at once with the timeout error. *)
Theorem waitForTransaction_no_time_no_query client digest t :
  t <= 0 ->
  waitForTransaction client digest (Some t)
  = {| outcome := Thrown (JsError "Error" "Transaction confirmation timeout");
       queryTimes := [];
       finishedAt := 0%N |}.
Proof.
  intros Ht. unfold waitForTransaction.
  rewrite poll_timeout by (simpl; lia). reflexivity.
Qed.

Lemma waitForTransaction_no_time_no_query_witness :
  waitForTransaction visibleOnThirdQuery "9vXk" (Some 0)
  = {| outcome := Thrown (JsError "Error" "Transaction confirmation timeout");
       queryTimes := [];
       finishedAt := 0%N |}.
Proof.
  apply waitForTransaction_no_time_no_query. discriminate.
Defined.

(* ===================================================================== *)
(** * Further properties: the callers of the hooks *)
(* ===================================================================== *)

Ltac unfold_app :=
  unfold MintForm_onSubmit, handleLevelUp, CoinSplitForm_onSubmit,
    app_tryCatchFinally, app_tryCatch, app_bind, app_ret, ui, awaitHook;
  cbn [hookState uiTrace fst snd].

(** The hooks, seen from a caller: they return a response or stay
    pending. *)
Lemma mintNFT_attempt env signer data hs :
  exists a, attemptSound signer a
            /\ mintNFT env signer data hs
               = (attemptCompletion a, attemptState (Mint data) a hs).
Proof.
  exact (invoke_attempt env signer (fun s => s) None None (Mint data) hs).
Qed.

Lemma levelUp_attempt env signer nftId hs :
  exists a, attemptSound signer a
            /\ levelUp env signer nftId hs
               = (attemptCompletion a, attemptState (LevelUp nftId) a hs).
Proof.
  exact (invoke_attempt env signer (fun s => s) None None (LevelUp nftId) hs).
Qed.

Lemma splitCoin_attempt signer suiToMist coins address d hs :
  exists a, attemptSound signer a
            /\ splitCoin signer suiToMist coins address d hs
               = (attemptCompletion a, attemptState (Split d) a hs).
Proof.
  exact (invoke_attempt None signer suiToMist coins address (Split d) hs).
Qed.

(** X11: when the wallet rejects the mint, the user is shown the hook's
    error toast and then the form's success toast, and the form is reset:
    the failure stays visible only in the hook's error state. *)
Theorem MintForm_reports_success_after_rejection
        env signer onMintSuccess data account s0 e :
  signer (createMintNFTTransaction env data) = CallsOnError e ->
  errorState
    (hookState (snd (MintForm_onSubmit env signer (Some account) onMintSuccess data s0)))
  = Some (message (handleTransactionError e))
  /\ In (EvToastError ("Failed to mint NFT: " ++ message (handleTransactionError e)))
        (trace (hookState
                  (snd (MintForm_onSubmit env signer (Some account) onMintSuccess data s0))))
  /\ In (UiToast ToastSuccess
                 "NFT minted successfully! ðŸŽ‰ Check your gallery in a few seconds."
                 (Some "mint-nft"))
        (uiTrace (snd (MintForm_onSubmit env signer (Some account) onMintSuccess data s0)))
  /\ In UiFormReset
        (uiTrace (snd (MintForm_onSubmit env signer (Some account) onMintSuccess data s0)))
  /\ filter (isUiToast ToastError)
            (uiTrace (snd (MintForm_onSubmit env signer (Some account) onMintSuccess data s0)))
     = filter (isUiToast ToastError) (uiTrace s0).
Proof.
  intros Hrej. destruct data as [n d u].
  unfold_app. cbn [name description image_url].
  unfold mintNFT. unfold_run.
  change (createMintNFTTransaction env
            {| name := n; description := d; image_url := u |})
    with (createMintNFTTransaction env (mkMintNFTData n d u)).
  rewrite Hrej. destruct onMintSuccess; cbn; tidy_trace;
    (split; [reflexivity |]);
    (split; [apply in_or_app; right; simpl; auto 10 |]);
    (split; [apply in_or_app; right; simpl; auto 10 |]);
    (split; [apply in_or_app; right; simpl; auto 10 |]);
    rewrite filter_app; cbn; rewrite app_nil_r; reflexivity.
Qed.

Lemma MintForm_reports_success_after_rejection_witness :
  errorState
    (hookState (snd (MintForm_onSubmit None decliningWallet (Some "0xa11ce") true
                       swordNFT freshApp)))
  = Some "Transaction was rejected by the user"
  /\ In UiFormReset
        (uiTrace (snd (MintForm_onSubmit None decliningWallet (Some "0xa11ce") true
                         swordNFT freshApp))).
Proof.
  pose proof (MintForm_reports_success_after_rejection
                None decliningWallet true swordNFT "0xa11ce" freshApp
                (JsError "Error" "User rejected the request") eq_refl) as H.
  split; [exact (proj1 H) | exact (proj1 (proj2 (proj2 (proj2 H))))].
Defined.

(* ===================================================================== *)
(** * Further properties: the NFT collection *)
(* ===================================================================== *)

Lemma orString_fallback_nonempty a b : b <> "" -> orString a b <> "".
Proof.
  intros Hb. destruct a as [[| c r] |]; simpl; [exact Hb | discriminate | exact Hb].
Qed.

(** X15: the NFTs returned are exactly the owned objects whose type
    contains the package id, in their order: each returned NFT carries the
    object id of such an object (never the empty fallback id), and each
    such object is returned; objects without data or without a type are
    dropped. *)
Theorem nfts_are_the_package_objects env objects :
  map nft_id (nfts env (Some objects))
  = map (fun obj => match obj_data obj with Some d => objectId d | None => "" end)
        (filter (hasPackageId env) objects)
  /\ (forall n, In n (nfts env (Some objects)) ->
                exists obj d t,
                  In obj objects /\ obj_data obj = Some d
                  /\ objectType d = Some t
                  /\ includes (PACKAGE_ID env) t = true
                  /\ nft_id n = objectId d)
  /\ (forall obj d t,
         In obj objects -> obj_data obj = Some d -> objectType d = Some t ->
         includes (PACKAGE_ID env) t = true ->
         In (toSimpleNFT obj) (nfts env (Some objects)))
  /\ (length (nfts env (Some objects)) <= length objects)%nat.
Proof.
  unfold nfts. split; [| split; [| split]].
  - rewrite map_map. reflexivity.
  - intros n Hin. apply in_map_iff in Hin. destruct Hin as [obj [<- Hf]].
    apply filter_In in Hf. destruct Hf as [Hobj Hpkg].
    unfold hasPackageId in Hpkg.
    destruct (obj_data obj) as [d |] eqn:Hd; [| discriminate].
    destruct (objectType d) as [t |] eqn:Ht; [| discriminate].
    exists obj, d, t. unfold toSimpleNFT. rewrite Hd. simpl. auto.
  - intros obj d t Hin Hd Ht Hinc. apply in_map. apply filter_In.
    split; [exact Hin |]. unfold hasPackageId. rewrite Hd, Ht. exact Hinc.
  - rewrite length_map. apply filter_length_le.
Qed.

Lemma nfts_are_the_package_objects_witness :
  In (toSimpleNFT
        (mkSuiObjectResponse
           (Some (mkSuiObjectData "0x77"
                    (Some (DEFAULT_PACKAGE_ID ++ "::simple_nft::Nft")%string)
                    None None))))
     (nfts None
           (Some [mkSuiObjectResponse None;
                  mkSuiObjectResponse
                    (Some (mkSuiObjectData "0x77"
                             (Some (DEFAULT_PACKAGE_ID ++ "::simple_nft::Nft")%string)
                             None None))])).
Proof.
  apply (proj1 (proj2 (proj2 (nfts_are_the_package_objects None _)))
           _ (mkSuiObjectData "0x77"
                (Some (DEFAULT_PACKAGE_ID ++ "::simple_nft::Nft")%string) None None)
           (DEFAULT_PACKAGE_ID ++ "::simple_nft::Nft")%string).
  - right. left. reflexivity.
  - reflexivity.
  - reflexivity.
  - reflexivity.
Defined.

(* ===================================================================== *)
(** * Further properties: the coin dashboard *)
(* ===================================================================== *)

Lemma selected_In coinId prev :
  CoinManagement.selected coinId prev = true <-> In coinId prev.
Proof.
  unfold CoinManagement.selected. rewrite existsb_exists. split.
  - intros [x [Hin Heq]]. apply String.eqb_eq in Heq. subst. exact Hin.
  - intros Hin. exists coinId. split; [exact Hin | apply String.eqb_refl].
Qed.

(** X17: [toggleCoinSelection] flips the selection of the coin it is
    given and of no other: afterwards the coin is selected exactly when it
    was not before, every other coin is selected exactly when it was, and a
    selection without duplicates stays without duplicates. *)
Theorem toggleCoinSelection_flips_one coinId prev :
  (In coinId (CoinManagement.toggleCoinSelection coinId prev) <-> ~ In coinId prev)
  /\ (forall other, other <> coinId ->
                    (In other (CoinManagement.toggleCoinSelection coinId prev)
                     <-> In other prev))
  /\ (NoDup prev -> NoDup (CoinManagement.toggleCoinSelection coinId prev)).
Proof.
  unfold CoinManagement.toggleCoinSelection.
  destruct (CoinManagement.selected coinId prev) eqn:Hsel.
  - apply selected_In in Hsel. split; [| split].
    + rewrite filter_In. split.
      * intros [_ Hneq]. rewrite String.eqb_refl in Hneq. discriminate.
      * intros Hnot. contradiction.
    + intros other Hneq. rewrite filter_In. split; [intros [H _]; exact H |].
      intros Hin. split; [exact Hin |].
      apply negb_true_iff. apply String.eqb_neq. exact Hneq.
    + intros Hnd. apply NoDup_filter. exact Hnd.
  - assert (Hnot : ~ In coinId prev)
      by (intros Hin; apply selected_In in Hin; rewrite Hin in Hsel; discriminate).
    split; [| split].
    + split; [intros _; exact Hnot |].
      intros _. apply in_or_app. right. left. reflexivity.
    + intros other Hneq. rewrite in_app_iff. split; [| intros H; left; exact H].
      intros [H | [H | []]]; [exact H | contradiction Hneq; symmetry; exact H].
    + intros Hnd. apply NoDup_app.
      * exact Hnd.
      * constructor; [intros [] | constructor].
      * intros x Hx [<- | []]. contradiction.
Qed.

Lemma toggleCoinSelection_flips_one_witness :
  NoDup (CoinManagement.toggleCoinSelection "0xc2" ["0xc1"; "0xc2"; "0xc3"]).
Proof.
  apply (proj2 (proj2 (toggleCoinSelection_flips_one "0xc2" ["0xc1"; "0xc2"; "0xc3"]))).
  repeat constructor; simpl; intuition discriminate.
Defined.

(** X18: selecting a coin that was not selected and toggling it again
    gives back the selection as it was. *)
Theorem toggleCoinSelection_twice coinId prev :
  ~ In coinId prev ->
  CoinManagement.toggleCoinSelection coinId
    (CoinManagement.toggleCoinSelection coinId prev) = prev.
Proof.
  intros Hnot. unfold CoinManagement.toggleCoinSelection at 2.
  replace (CoinManagement.selected coinId prev) with false
    by (symmetry; apply not_true_is_false; intros H; apply selected_In in H;
        contradiction).
  unfold CoinManagement.toggleCoinSelection.
  replace (CoinManagement.selected coinId (prev ++ [coinId])) with true
    by (symmetry; apply selected_In, in_or_app; right; left; reflexivity).
  rewrite filter_app. cbn. rewrite String.eqb_refl. cbn. rewrite app_nil_r.
  induction prev as [| x xs IH]; [reflexivity |].
  cbn. destruct (String.eqb x coinId) eqn:Hx.
  - apply String.eqb_eq in Hx. subst. contradiction Hnot. left. reflexivity.
  - cbn. f_equal. apply IH. intros H. apply Hnot. right. exact H.
Qed.

Lemma toggleCoinSelection_twice_witness :
  CoinManagement.toggleCoinSelection "0xc9"
    (CoinManagement.toggleCoinSelection "0xc9" ["0xc1"; "0xc2"]) = ["0xc1"; "0xc2"].
Proof.
  apply toggleCoinSelection_twice. simpl. intuition discriminate.
Defined.

Lemma dashboard_fold_largest others :
  Forall (fun c => balance c <> "") others ->
  forall acc, balance acc <> "" ->
  fold_left
    (fun largest coin =>
       if js_gt (parseInt (balance coin))
                (parseInt (CoinManagement.balanceOr "0" largest))
       then Some coin else largest)
    others (Some acc)
  = Some (largestCoin acc others).
Proof.
  unfold largestCoin.
  induction 1 as [| c cs Hc _ IH]; intros acc Hacc; simpl; [reflexivity |].
  replace (CoinManagement.orText (balance acc) "0") with (balance acc)
    by (destruct (balance acc); [contradiction Hacc; reflexivity | reflexivity]).
  destruct (js_gt (parseInt (balance c)) (parseInt (balance acc)));
    apply IH; assumption.
Qed.

Lemma js_gt_irrefl x : js_gt x x = false.
Proof.
  unfold js_gt. destruct x as [| [|] | z]; simpl; try reflexivity.
  apply Z.ltb_irrefl.
Qed.

(** X19: the coin the dashboard shows as largest is the coin the split
    guard selects, as long as no balance string is empty; and the total the
    dashboard shows is the guard's total, except that it shows 0 where the
    guard's total is NaN, so the displayed total is never NaN. *)
Theorem dashboard_agrees_with_split_guard first others :
  (Forall (fun c => balance c <> "") (first :: others) ->
   CoinManagement.largestCoin (Some (first :: others))
   = Some (largestCoin first others))
  /\ CoinManagement.totalBalance (Some (first :: others))
     = CoinManagement.orZero (totalBalance (first :: others))
  /\ (forall coins, CoinManagement.totalBalance coins <> NaN).
Proof.
  split; [| split].
  - intros Hall. inversion Hall as [| ? ? Hfirst Hothers]; subst.
    unfold CoinManagement.largestCoin. cbn [hd_error fold_left].
    replace (CoinManagement.balanceOr "0" (Some first)) with (balance first)
      by (simpl; destruct (balance first);
          [contradiction Hfirst; reflexivity | reflexivity]).
    rewrite js_gt_irrefl.
    apply dashboard_fold_largest; assumption.
  - reflexivity.
  - intros [data |]; simpl; [| discriminate].
    destruct (fold_left _ data (Num 0)); simpl; discriminate.
Qed.

Lemma dashboard_agrees_with_split_guard_witness :
  CoinManagement.largestCoin
    (Some [mkSuiCoin "0xc1" "5"; mkSuiCoin "0xc2" "7"; mkSuiCoin "0xc3" "7"])
  = Some (largestCoin (mkSuiCoin "0xc1" "5")
                      [mkSuiCoin "0xc2" "7"; mkSuiCoin "0xc3" "7"]).
Proof.
  apply (proj1 (dashboard_agrees_with_split_guard _ _)).
  repeat constructor; discriminate.
Defined.

Lemma hasBalance_nonempty c b : hasBalance c b -> balance c <> "".
Proof.
  intros [Hp _] Hempty. rewrite Hempty in Hp. discriminate.
Qed.

Lemma fold_min_le u l : fold_right Z.min u l <= u.
Proof. induction l; simpl; lia. Qed.

Lemma fold_min_base u v l :
  u <= v -> fold_right Z.min u l = Z.min u (fold_right Z.min v l).
Proof. intros Huv. induction l; simpl; lia. Qed.

Lemma dashboard_fold_smallest others bs :
  Forall2 hasBalance others bs ->
  forall acc a, hasBalance acc a ->
  exists c,
    fold_left
      (fun smallest coin =>
         if js_lt (parseInt (balance coin))
                  (parseInt (CoinManagement.balanceOr "999999999999999" smallest))
         then Some coin else smallest)
      others (Some acc)
    = Some c
    /\ In c (acc :: others)
    /\ parseInt (balance c) = Num (minZ a bs).
Proof.
  induction 1 as [| x b cs bs' Hx Hrest IH]; intros acc a Hacc.
  - exists acc. simpl. split; [reflexivity |]. split; [left; reflexivity |].
    exact (proj1 Hacc).
  - cbn [fold_left].
    replace (CoinManagement.balanceOr "999999999999999" (Some acc))
      with (balance acc)
      by (simpl; pose proof (hasBalance_nonempty _ _ Hacc);
          destruct (balance acc); [contradiction | reflexivity]).
    rewrite (proj1 Hx), (proj1 Hacc). cbn [js_lt].
    destruct (b <? a) eqn:Hlt.
    + apply Z.ltb_lt in Hlt.
      destruct (IH x b Hx) as [c [Hfold [Hin Hmin]]].
      exists c. split; [exact Hfold |].
      split; [destruct Hin as [<- | Hin]; [right; left; reflexivity
                                          | right; right; exact Hin] |].
      rewrite Hmin. f_equal. unfold minZ. simpl.
      apply fold_min_base. lia.
    + apply Z.ltb_ge in Hlt.
      destruct (IH acc a Hacc) as [c [Hfold [Hin Hmin]]].
      exists c. split; [exact Hfold |].
      split; [destruct Hin as [<- | Hin]; [left; reflexivity
                                          | right; right; exact Hin] |].
      rewrite Hmin. f_equal. unfold minZ. simpl.
      pose proof (fold_min_le a bs'). lia.
Qed.

(** X20: when the balances are numerals, the coin the dashboard shows as
    smallest is one of the owned coins and carries the least balance. *)
Theorem dashboard_smallest_is_least first others b bs :
  Forall2 hasBalance (first :: others) (b :: bs) ->
  exists c,
    CoinManagement.smallestCoin (Some (first :: others)) = Some c
    /\ In c (first :: others)
    /\ parseInt (balance c) = Num (minZ b bs)
    /\ Forall (fun x => minZ b bs <= x) (b :: bs).
Proof.
  intros Hall. inversion Hall as [| ? ? ? ? Hfirst Hrest]; subst.
  unfold CoinManagement.smallestCoin. cbn [hd_error fold_left].
  replace (CoinManagement.balanceOr "999999999999999" (Some first))
    with (balance first)
    by (simpl; pose proof (hasBalance_nonempty _ _ Hfirst);
        destruct (balance first); [contradiction | reflexivity]).
  replace (js_lt (parseInt (balance first)) (parseInt (balance first))) with false
    by (symmetry; apply (js_gt_irrefl (parseInt (balance first)))).
  destruct (dashboard_fold_smallest _ _ Hrest _ _ Hfirst) as [c [Hfold [Hin Hmin]]].
  exists c. split; [exact Hfold |]. split; [exact Hin |]. split; [exact Hmin |].
  constructor; [apply fold_min_le |].
  unfold minZ. clear. induction bs as [| y l IH]; [constructor |].
  constructor; [simpl; lia |].
  simpl. eapply Forall_impl; [| exact IH]. simpl. intros z Hz. lia.
Qed.

Lemma dashboard_smallest_is_least_witness :
  exists c,
    CoinManagement.smallestCoin
      (Some [mkSuiCoin "0xc1" "5"; mkSuiCoin "0xc2" "3"; mkSuiCoin "0xc3" "7"]) = Some c
    /\ In c [mkSuiCoin "0xc1" "5"; mkSuiCoin "0xc2" "3"; mkSuiCoin "0xc3" "7"]
    /\ parseInt (balance c) = Num (minZ 5 [3; 7])
    /\ Forall (fun x => minZ 5 [3; 7] <= x) [5; 3; 7].
Proof.
  apply dashboard_smallest_is_least.
  repeat constructor; vm_compute; discriminate.
Defined.

(* ===================================================================== *)
(** * Further properties: identifier display *)
(* ===================================================================== *)

Lemma string_of_list_ascii_app l1 l2 :
  string_of_list_ascii (l1 ++ l2)
  = (string_of_list_ascii l1 ++ string_of_list_ascii l2)%string.
Proof. induction l1 as [| c l IH]; simpl; [reflexivity | rewrite IH; reflexivity]. Qed.

Lemma length_list_ascii_of_string s :
  length (list_ascii_of_string s) = String.length s.
Proof. induction s as [| c s IH]; simpl; [reflexivity | rewrite IH; reflexivity]. Qed.

Lemma string_length_app s1 s2 :
  String.length (s1 ++ s2)%string = (String.length s1 + String.length s2)%nat.
Proof. induction s1 as [| c s IH]; simpl; [reflexivity | rewrite IH; reflexivity]. Qed.

Lemma slice_head k s :
  slice 0 (Some (Z.of_nat k)) s
  = string_of_list_ascii (firstn k (list_ascii_of_string s)).
Proof.
  unfold slice. set (l := list_ascii_of_string s).
  replace (0 <? 0) with false by reflexivity.
  destruct (Z.of_nat k <? 0) eqn:Hk; [apply Z.ltb_lt in Hk; lia |].
  replace (Z.to_nat (Z.min 0 (Z.of_nat (length l)))) with 0%nat by lia.
  cbn [skipn]. f_equal.
  destruct (Nat.le_gt_cases k (length l)) as [Hle | Hgt].
  - f_equal. lia.
  - rewrite (firstn_all2 l (n := k)) by lia.
    apply firstn_all2. lia.
Qed.

Lemma slice_tail k s :
  (0 < k)%nat ->
  slice (- Z.of_nat k) None s
  = string_of_list_ascii
      (skipn (length (list_ascii_of_string s) - k) (list_ascii_of_string s)).
Proof.
  intros Hk. unfold slice. set (l := list_ascii_of_string s).
  replace (- Z.of_nat k <? 0) with true by (symmetry; apply Z.ltb_lt; lia).
  replace (Z.to_nat (Z.max (Z.of_nat (length l) + - Z.of_nat k) 0))
    with (length l - k)%nat by lia.
  f_equal. apply firstn_all2. rewrite length_skipn. lia.
Qed.

(** The shape both display functions share: the first [k] and the last
    [k] code units around three dots. *)
Lemma abbreviation_shape k s :
  (0 < k)%nat ->
  String.length (slice 0 (Some (Z.of_nat k)) s ++ "..."
                 ++ slice (- Z.of_nat k) None s)%string
  = (2 * Nat.min k (String.length s) + 3)%nat
  /\ ((String.length s <= k)%nat ->
      (slice 0 (Some (Z.of_nat k)) s ++ "..." ++ slice (- Z.of_nat k) None s)%string
      = (s ++ "..." ++ s)%string)
  /\ ((2 * k <= String.length s)%nat ->
      exists first middle last,
        s = (first ++ middle ++ last)%string
        /\ String.length first = k /\ String.length last = k
        /\ (slice 0 (Some (Z.of_nat k)) s ++ "..." ++ slice (- Z.of_nat k) None s)%string
           = (first ++ "..." ++ last)%string).
Proof.
  intros Hk. rewrite slice_head, (slice_tail k s Hk).
  pose proof (length_list_ascii_of_string s) as Hlen.
  set (l := list_ascii_of_string s) in *.
  split; [| split].
  - rewrite !string_length_app. cbn [String.length].
    rewrite <- !length_list_ascii_of_string, !list_ascii_of_string_of_list_ascii.
    rewrite length_firstn, length_skipn. subst l. lia.
  - intros Hshort.
    rewrite (firstn_all2 l (n := k)) by lia.
    replace (length l - k)%nat with 0%nat by lia. cbn [skipn].
    unfold l. rewrite string_of_list_ascii_of_string. reflexivity.
  - intros Hlong.
    exists (string_of_list_ascii (firstn k l)),
           (string_of_list_ascii (firstn (length l - 2 * k) (skipn k l))),
           (string_of_list_ascii (skipn (length l - k) l)).
    split; [| split; [| split]].
    + rewrite <- !string_of_list_ascii_app.
      replace (skipn (length l - k) l)
        with (skipn (length l - 2 * k) (skipn k l))
        by (rewrite skipn_skipn; f_equal; lia).
      rewrite (firstn_skipn (length l - 2 * k) (skipn k l)).
      rewrite (firstn_skipn k l).
      unfold l. symmetry. apply string_of_list_ascii_of_string.
    + rewrite <- length_list_ascii_of_string, list_ascii_of_string_of_list_ascii.
      rewrite length_firstn. lia.
    + rewrite <- length_list_ascii_of_string, list_ascii_of_string_of_list_ascii.
      rewrite length_skipn. lia.
    + reflexivity.
Qed.

(** X21: [formatNFTId] shows at most 19 characters: the first 8 and the
    last 8 of the id around three dots.  For an id of at least 16
    characters these are two disjoint ends of the id; for an id of at most
    8 characters the whole id is shown twice.  [formatAddress] does the
    same with 4 characters at each end. *)
Theorem identifier_display_shape id :
  (String.length (formatNFTId id) = (2 * Nat.min 8 (String.length id) + 3)%nat
   /\ ((String.length id <= 8)%nat -> formatNFTId id = (id ++ "..." ++ id)%string)
   /\ ((16 <= String.length id)%nat ->
       exists first middle last,
         id = (first ++ middle ++ last)%string
         /\ String.length first = 8%nat /\ String.length last = 8%nat
         /\ formatNFTId id = (first ++ "..." ++ last)%string))
  /\ (String.length (formatAddress id) = (2 * Nat.min 4 (String.length id) + 3)%nat
      /\ ((String.length id <= 4)%nat -> formatAddress id = (id ++ "..." ++ id)%string)
      /\ ((8 <= String.length id)%nat ->
          exists first middle last,
            id = (first ++ middle ++ last)%string
            /\ String.length first = 4%nat /\ String.length last = 4%nat
            /\ formatAddress id = (first ++ "..." ++ last)%string)).
Proof.
  split.
  - exact (abbreviation_shape 8 id (Nat.lt_0_succ 7)).
  - exact (abbreviation_shape 4 id (Nat.lt_0_succ 3)).
Qed.

Lemma identifier_display_shape_witness :
  formatNFTId "0x2a" = "0x2a...0x2a"
  /\ (exists first middle last,
         "0x95ea5e48398629b9e21b" = (first ++ middle ++ last)%string
         /\ String.length first = 8%nat /\ String.length last = 8%nat
         /\ formatNFTId "0x95ea5e48398629b9e21b" = (first ++ "..." ++ last)%string)
  /\ formatAddress "0x2" = "0x2...0x2"
  /\ (exists first middle last,
         "0x95ea5e48398629b9e21b" = (first ++ middle ++ last)%string
         /\ String.length first = 4%nat /\ String.length last = 4%nat
         /\ formatAddress "0x95ea5e48398629b9e21b" = (first ++ "..." ++ last)%string).
Proof.
  split; [| split; [| split]].
  - apply (proj1 (proj2 (proj1 (identifier_display_shape "0x2a")))).
    simpl. lia.
  - apply (proj2 (proj2 (proj1 (identifier_display_shape "0x95ea5e48398629b9e21b")))).
    simpl. lia.
  - apply (proj1 (proj2 (proj2 (identifier_display_shape "0x2")))).
    simpl. lia.
  - apply (proj2 (proj2 (proj2 (identifier_display_shape "0x95ea5e48398629b9e21b")))).
    simpl. lia.
Defined.

(* ===================================================================== *)
(** * Further properties: the faucet hook *)
(* ===================================================================== *)

Ltac unfold_faucet :=
  unfold requestSUI, async_tryCatchFinally, async_bind, async_ret, awaitFaucet,
    fx_emit, fx_setIsLoading, fx_setIsSuccess, fx_setError;
  cbn [fx_isLoading fx_isSuccess fx_error fx_trace fst snd].

Lemma faucetFailure_message_nonempty lowerCase err :
  fst (faucetFailure lowerCase err) <> "".
Proof.
  destruct err as [| | b | s | fields | ty | n msg]; simpl; try discriminate.
  repeat match goal with
         | |- context [if ?c then _ else _] => destruct c; simpl; try discriminate
         end.
Qed.

(** X22: without a connected wallet (no address, or an empty one)
    [requestSUI] asks the faucet for nothing: it shows one error toast,
    sets the error to 'Wallet not connected' and returns, leaving
    [isLoading] and [isSuccess] as they were, so the success flag of an
    earlier request stays up next to the new error. *)
Theorem requestSUI_needs_wallet lowerCase faucetHost faucet currentAddress onSuccess s0 :
  truthy currentAddress = false ->
  requestSUI lowerCase faucetHost faucet currentAddress onSuccess s0
  = (Returned tt,
     {| fx_isLoading := fx_isLoading s0;
        fx_isSuccess := fx_isSuccess s0;
        fx_error := Some "Wallet not connected";
        fx_trace := fx_trace s0 ++ [FxToastError "Please connect your wallet first"] |}).
Proof.
  intros Hfalsy.
  destruct currentAddress as [[| c rest] |]; try discriminate; reflexivity.
Qed.

Lemma requestSUI_needs_wallet_witness :
  requestSUI (fun s => s) "https://faucet.testnet.sui.io" busyFaucet (Some "") true
             {| fx_isLoading := false; fx_isSuccess := true; fx_error := None;
                fx_trace := [] |}
  = (Returned tt,
     {| fx_isLoading := false;
        fx_isSuccess := true;
        fx_error := Some "Wallet not connected";
        fx_trace := [FxToastError "Please connect your wallet first"] |}).
Proof.
  apply (requestSUI_needs_wallet (fun s => s) "https://faucet.testnet.sui.io"
           busyFaucet (Some "") true
           {| fx_isLoading := false; fx_isSuccess := true; fx_error := None;
              fx_trace := [] |}).
  reflexivity.
Defined.

(** X24: the failure toast and the stored error agree: the toast's
    description is the stored message, followed by the fallback lines
    exactly when the web-faucet action is offered, and it stays 10 seconds
    with the action and 6 seconds without it.  A failure that is not an
    [Error] gets the plain message 'Failed to request SUI tokens' without
    the action; a rate-limit message never gets the action. *)
Theorem requestSUI_failure_toast lowerCase faucetHost faucet c rest onSuccess s0 reason :
  faucet faucetHost (String c rest) = FaucetRejects reason ->
  (exists description duration action,
      In (FxToastFailure "Faucet Request Failed" description duration action)
         (fx_trace (snd (requestSUI lowerCase faucetHost faucet (Some (String c rest))
                                    onSuccess s0)))
      /\ fx_error (snd (requestSUI lowerCase faucetHost faucet (Some (String c rest))
                                   onSuccess s0))
         = Some (fst (faucetFailure lowerCase reason))
      /\ action = snd (faucetFailure lowerCase reason)
      /\ description
         = (if action
            then (fst (faucetFailure lowerCase reason) ++ fallbackLines)%string
            else fst (faucetFailure lowerCase reason))
      /\ duration = (if action then 10000 else 6000))
  /\ (instanceofError reason = false ->
      faucetFailure lowerCase reason = ("Failed to request SUI tokens", false))
  /\ (forall name msg,
         reason = JsError name msg ->
         includes "rate limit" (lowerCase msg)
         || includes "too many requests" (lowerCase msg) = true ->
         faucetFailure lowerCase reason
         = ("Rate limit exceeded. Please wait a few minutes before requesting again.",
            false)).
Proof.
  intros Hrej. split; [| split].
  - unfold_faucet. rewrite Hrej.
    destruct (faucetFailure lowerCase reason) as [msg show] eqn:Hf.
    cbn. exists (if show then (msg ++ fallbackLines)%string else msg),
           (if show then 10000 else 6000), show.
    split; [tidy_trace; apply in_or_app; right; simpl; auto 10 |].
    repeat split.
  - intros Hne. destruct reason; try discriminate; reflexivity.
  - intros name msg -> Hrate. unfold faucetFailure. rewrite Hrate. reflexivity.
Qed.

Lemma requestSUI_failure_toast_witness :
  faucetFailure toLowerCase (JsString "boom") = ("Failed to request SUI tokens", false)
  /\ faucetFailure toLowerCase (JsError "Error" "Too Many Requests")
     = ("Rate limit exceeded. Please wait a few minutes before requesting again.",
        false).
Proof.
  split.
  - apply (proj1 (proj2
      (requestSUI_failure_toast toLowerCase "https://faucet.testnet.sui.io"
         (fun _ _ => FaucetRejects (JsString "boom")) "0" "xa11ce" false freshFaucet
         (JsString "boom") eq_refl))).
    reflexivity.
  - apply (proj2 (proj2
      (requestSUI_failure_toast toLowerCase "https://faucet.testnet.sui.io"
         busyFaucet "0" "xa11ce" false freshFaucet
         (JsError "Error" "Too Many Requests") eq_refl))
      "Error" "Too Many Requests"); reflexivity.
Defined.

(* ===================================================================== *)
(** * Theorems: the hooks at run time *)
(* ===================================================================== *)

Ltac unfold_runtime :=
  unfold Runtime.invoke, Runtime.mintNFT, Runtime.levelUp, Runtime.splitCoin,
    Runtime.tryCatchFinally, Runtime.bind, Runtime.ret, Runtime.throw,
    Runtime.lift, Runtime.evaluated, Runtime.classified, Runtime.awaitSigned,
    setIsLoading, setError, toast_success, toast_error, emit.

Ltac tidy_runtime :=
  cbn; repeat rewrite <- app_assoc; cbn; try reflexivity.

(** The catch and finally clauses of the three hooks are [handled]. *)
Lemma invoke_expected text sdk env signer suiToMist coins address op s0 :
  Runtime.invoke text sdk env signer suiToMist coins address op s0 =
  Runtime.expected text sdk env signer suiToMist coins address op s0.
Proof.
  unfold Runtime.expected, Runtime.handled.
  destruct op as [d | id | d]; unfold Runtime.prepared.
  - unfold_runtime.
    destruct (Runtime.createMintNFTTransaction sdk env d) as [x | tx]; cbn.
    + destruct (Runtime.handleTransactionError text x); tidy_runtime.
    + destruct (signer tx) as [r | e | e | ]; cbn;
        try destruct (Runtime.handleTransactionError text e); tidy_runtime.
  - unfold_runtime.
    destruct (Runtime.createLevelUpTransaction sdk env id) as [x | tx]; cbn.
    + destruct (Runtime.handleTransactionError text x); tidy_runtime.
    + destruct (signer tx) as [r | e | e | ]; cbn;
        try destruct (Runtime.handleTransactionError text e); tidy_runtime.
  - unfold Runtime.invoke, Runtime.splitCoin, Runtime.preflight.
    destruct coins as [[ | first others] | ];
      [ unfold_runtime; tidy_runtime | | unfold_runtime; tidy_runtime ].
    destruct (js_lt (totalBalance (first :: others))
                    (js_add (parseInt (suiToMist (amount d))) estimatedGas));
      [ unfold_runtime; tidy_runtime | ].
    destruct (js_lt (parseInt (balance (largestCoin first others)))
                    (js_add (parseInt (suiToMist (amount d))) estimatedGas));
      [ unfold_runtime; tidy_runtime | ].
    destruct (Runtime.createCoinSplitTransaction sdk
                (coinObjectId (largestCoin first others))
                (suiToMist (amount d)) address) as [x | tx];
      unfold_runtime; cbn.
    + destruct (Runtime.handleTransactionError text x); tidy_runtime.
    + destruct (signer tx) as [r | e | e | ]; cbn;
        try destruct (Runtime.handleTransactionError text e); tidy_runtime.
Qed.

Lemma runtime_classifier_normal text x v :
  Runtime.normal x = Some v ->
  Runtime.handleTransactionError text x = Runtime.Done (handleTransactionError v).
Proof.
  destruct x as [w | n m]; simpl.
  - intros H. inversion H. reflexivity.
  - destruct m; try discriminate. intros H. inversion H. reflexivity.
Qed.

Lemma runtime_classifier_odd text x :
  Runtime.normal x = None ->
  exists n m, x = Runtime.OddError n m /\ (forall s, m <> JsString s) /\
              Runtime.handleTransactionError text x
              = Runtime.Raise (Runtime.typeError (text m)).
Proof.
  destruct x as [w | n m]; simpl; [discriminate |].
  intros H. exists n, m.
  destruct m; try discriminate; (split; [reflexivity | split; [intros s; discriminate | reflexivity]]).
Qed.

Lemma message_empty_iff v :
  message (handleTransactionError v) = "" <-> exists n, v = JsError n "".
Proof.
  split.
  - apply classified_message_empty.
  - intros [n ->]. reflexivity.
Qed.

(* ===================================================================== *)
(** * C8: the classifier at run time *)
(* ===================================================================== *)

(** C8 (as stated, refuted): on an [Error] whose message is a number,
    or is missing, [handleTransactionError] does not return a [SuiError]:
    it throws a [TypeError]. *)
Lemma C8_non_string_message_counterexample :
  Runtime.handleTransactionError Runtime.engineText
    (Runtime.OddError "Error" (JsOther "number"))
  = Runtime.Raise (Runtime.typeError "error.message.includes is not a function")
  /\ Runtime.handleTransactionError Runtime.engineText
       (Runtime.OddError "Error" JsUndefined)
     = Runtime.Raise
         (Runtime.typeError "Cannot read properties of undefined (reading 'includes')").
Proof.
  split; reflexivity.
Qed.

(** C8 (amended): on every input that is not an [Error], or is an
    [Error] whose message is a string, [handleTransactionError] returns a
    [SuiError] whose [details] is the input unchanged, and for an input
    that is not an [Error] the code is [UNKNOWN_ERROR] with the generic
    message.  On an [Error] whose message is not a string it throws the
    engine's [TypeError] instead of returning. *)
Theorem C8_total_on_string_messages (text : JsValue -> string) (x : Runtime.Raised) :
  (forall v, Runtime.normal x = Some v ->
     exists r,
       Runtime.handleTransactionError text x = Runtime.Done r
       /\ details r = v
       /\ (instanceofError v = false ->
           message r = "An unknown error occurred during the transaction"
           /\ code r = "UNKNOWN_ERROR"))
  /\ (Runtime.normal x = None ->
      exists n m,
        x = Runtime.OddError n m
        /\ (forall s, m <> JsString s)
        /\ Runtime.handleTransactionError text x
           = Runtime.Raise (Runtime.typeError (text m))).
Proof.
  split.
  - intros v Hv. exists (handleTransactionError v).
    split; [apply runtime_classifier_normal; exact Hv |].
    split; [apply handleTransactionError_details |].
    destruct v; simpl; try discriminate; intros _; split; reflexivity.
  - apply runtime_classifier_odd.
Qed.

Lemma C8_total_on_string_messages_witness :
  (exists r,
      Runtime.handleTransactionError Runtime.engineText
        (Runtime.Plain (JsString "network down")) = Runtime.Done r
      /\ details r = JsString "network down"
      /\ (instanceofError (JsString "network down") = false ->
          message r = "An unknown error occurred during the transaction"
          /\ code r = "UNKNOWN_ERROR"))
  /\ (exists n m,
        Runtime.OddError "Error" JsNull = Runtime.OddError n m
        /\ (forall s, m <> JsString s)
        /\ Runtime.handleTransactionError Runtime.engineText
             (Runtime.OddError "Error" JsNull)
           = Runtime.Raise (Runtime.typeError (Runtime.engineText m))).
Proof.
  split.
  - apply (proj1 (C8_total_on_string_messages Runtime.engineText
                    (Runtime.Plain (JsString "network down")))).
    reflexivity.
  - apply (proj2 (C8_total_on_string_messages Runtime.engineText
                    (Runtime.OddError "Error" JsNull))).
    reflexivity.
Defined.

(* ===================================================================== *)
(** * C6 and C5: what a run returns, and when it rejects *)
(* ===================================================================== *)

Lemma handled_normal text op events x v :
  Runtime.normal x = Some v ->
  Runtime.handled text op events x
  = (Runtime.Done (failureResponse v),
     {| isLoading := false;
        errorState := Some (message (handleTransactionError v));
        trace := events ++
                 [EvSetError (Some (message (handleTransactionError v)));
                  EvToastError (failurePrefix op ++ message (handleTransactionError v));
                  EvSetIsLoading false] |}).
Proof.
  intros H. unfold Runtime.handled.
  rewrite (runtime_classifier_normal text x v H). reflexivity.
Qed.

Lemma handled_odd text op events n m :
  (forall s, m <> JsString s) ->
  Runtime.handled text op events (Runtime.OddError n m)
  = (Runtime.Raise (Runtime.typeError (text m)),
     {| isLoading := false; errorState := None;
        trace := events ++ [EvSetIsLoading false] |}).
Proof.
  intros H. unfold Runtime.handled.
  destruct m; try reflexivity. exfalso. apply (H s). reflexivity.
Qed.

(** A run, by the exception its [try] block ends with. *)
Lemma run_with_failure text sdk env signer suiToMist coins address op s0 x :
  Runtime.failure sdk env signer suiToMist coins address op = Some x ->
  exists signed,
    Runtime.invoke text sdk env signer suiToMist coins address op s0
    = Runtime.handled text op
        (trace s0 ++ [EvSetIsLoading true; EvSetError None] ++ map EvSign signed) x
    /\ (signed = [] \/ exists tx, signed = [tx]).
Proof.
  intros H. rewrite invoke_expected. unfold Runtime.expected.
  unfold Runtime.failure in H.
  destruct (Runtime.prepared sdk env suiToMist coins address op) as [y | tx].
  - inversion H; subst. exists []. simpl. split; [reflexivity | left; reflexivity].
  - exists [tx]. simpl.
    destruct (signer tx) as [r | e | e | ]; try discriminate;
      inversion H; subst; rewrite <- app_assoc; simpl;
      (split; [reflexivity | right; exists tx; reflexivity]).
Qed.

Lemma run_without_failure text sdk env signer suiToMist coins address op s0 :
  Runtime.failure sdk env signer suiToMist coins address op = None ->
  exists tx,
    Runtime.prepared sdk env suiToMist coins address op = inr tx
    /\ ((exists result,
           signer tx = Runtime.OnSuccess result
           /\ Runtime.invoke text sdk env signer suiToMist coins address op s0
              = (Runtime.Done (successResponse result),
                 {| isLoading := false; errorState := None;
                    trace := trace s0 ++
                             [EvSetIsLoading true; EvSetError None; EvSign tx;
                              EvToastSuccess (Runtime.successToast op);
                              EvSetIsLoading false] |}))
        \/ (signer tx = Runtime.NoCallback
            /\ Runtime.invoke text sdk env signer suiToMist coins address op s0
               = (Runtime.Waiting,
                  {| isLoading := true; errorState := None;
                     trace := trace s0 ++
                              [EvSetIsLoading true; EvSetError None; EvSign tx] |}))).
Proof.
  intros H. rewrite invoke_expected. unfold Runtime.expected.
  unfold Runtime.failure in H.
  destruct (Runtime.prepared sdk env suiToMist coins address op) as [y | tx];
    [discriminate |].
  exists tx. split; [reflexivity |].
  destruct (signer tx) as [r | e | e | ]; try discriminate.
  - left. exists r. rewrite <- app_assoc. split; reflexivity.
  - right. rewrite <- app_assoc. split; reflexivity.
Qed.

Lemma filter_toast_signed signed : filter isToastEvent (map EvSign signed) = [].
Proof.
  induction signed as [| tx rest IH]; simpl; [reflexivity | exact IH].
Qed.

(** C6 (as stated, refuted): the wallet rejects the mint with an
    [Error] whose message is a number.  The classifier throws in the
    [catch] clause, so the promise of [mintNFT] is rejected, with a
    [TypeError]; nothing was stored in the error state and no failure
    response exists. *)
Lemma C6_rejected_promise_counterexample :
  Runtime.mintNFT Runtime.engineText Runtime.recordingSdk None Runtime.oddWallet
                  swordNFT idle
  = (Runtime.Raise (Runtime.typeError "error.message.includes is not a function"),
     {| isLoading := false;
        errorState := None;
        trace := [EvSetIsLoading true; EvSetError None;
                  EvSign (createMintNFTTransaction None swordNFT);
                  EvSetIsLoading false] |}).
Proof.
  reflexivity.
Qed.

(** C6 (amended): a failure that is not an [Error], or is an [Error]
    whose message is a string, is caught wherever it arises (thrown by the
    guard or by the SDK while the transaction is built, or the rejection
    of the signer), classified, stored in the error state as the
    classified message, shown in one error toast and returned as the
    failure response: the promise is fulfilled.  A failure that is an
    [Error] whose message is not a string makes the classifier throw
    inside the [catch] clause: the promise is rejected with that
    [TypeError], the error state stays cleared, no toast is shown, and
    [isLoading] is reset all the same.  Without a failure the promise is
    fulfilled with the success response or stays pending; a rejected
    promise always comes from a failure of the second kind. *)
Theorem C6_rejects_only_on_odd_failures
        text sdk env signer suiToMist coins address op s0 :
  (forall x v,
      Runtime.failure sdk env signer suiToMist coins address op = Some x ->
      Runtime.normal x = Some v ->
      fst (Runtime.invoke text sdk env signer suiToMist coins address op s0)
      = Runtime.Done (failureResponse v)
      /\ errorState (snd (Runtime.invoke text sdk env signer suiToMist coins address op s0))
         = Some (message (handleTransactionError v))
      /\ isLoading (snd (Runtime.invoke text sdk env signer suiToMist coins address op s0))
         = false
      /\ exists events,
          trace (snd (Runtime.invoke text sdk env signer suiToMist coins address op s0))
          = trace s0 ++ events
          /\ filter isToastEvent events
             = [EvToastError
                  (failurePrefix op ++ message (handleTransactionError v))%string])
  /\ (forall x,
      Runtime.failure sdk env signer suiToMist coins address op = Some x ->
      Runtime.normal x = None ->
      exists n m,
        x = Runtime.OddError n m
        /\ fst (Runtime.invoke text sdk env signer suiToMist coins address op s0)
           = Runtime.Raise (Runtime.typeError (text m))
        /\ errorState (snd (Runtime.invoke text sdk env signer suiToMist coins address op s0))
           = None
        /\ isLoading (snd (Runtime.invoke text sdk env signer suiToMist coins address op s0))
           = false
        /\ exists events,
            trace (snd (Runtime.invoke text sdk env signer suiToMist coins address op s0))
            = trace s0 ++ events
            /\ filter isToastEvent events = [])
  /\ (Runtime.failure sdk env signer suiToMist coins address op = None ->
      (exists result,
          fst (Runtime.invoke text sdk env signer suiToMist coins address op s0)
          = Runtime.Done (successResponse result))
      \/ fst (Runtime.invoke text sdk env signer suiToMist coins address op s0)
         = Runtime.Waiting)
  /\ (forall y,
      fst (Runtime.invoke text sdk env signer suiToMist coins address op s0)
      = Runtime.Raise y ->
      exists x,
        Runtime.failure sdk env signer suiToMist coins address op = Some x
        /\ Runtime.normal x = None).
Proof.
  repeat split.
  - destruct (run_with_failure text sdk env signer suiToMist coins address op s0 x H)
      as [signed [-> _]].
    rewrite (handled_normal text op _ x v H0). reflexivity.
  - destruct (run_with_failure text sdk env signer suiToMist coins address op s0 x H)
      as [signed [-> _]].
    rewrite (handled_normal text op _ x v H0). reflexivity.
  - destruct (run_with_failure text sdk env signer suiToMist coins address op s0 x H)
      as [signed [-> _]].
    rewrite (handled_normal text op _ x v H0). reflexivity.
  - destruct (run_with_failure text sdk env signer suiToMist coins address op s0 x H)
      as [signed [-> _]].
    rewrite (handled_normal text op _ x v H0). cbn [snd trace].
    eexists. rewrite <- app_assoc. split; [reflexivity |].
    rewrite !filter_app, filter_toast_signed. reflexivity.
  - intros x Hx Hodd.
    destruct (runtime_classifier_odd text x Hodd) as [n [m [-> [Hm _]]]].
    exists n, m.
    destruct (run_with_failure text sdk env signer suiToMist coins address op s0 _ Hx)
      as [signed [-> _]].
    rewrite (handled_odd text op _ n m Hm). cbn [fst snd trace errorState isLoading].
    repeat split.
    eexists. rewrite <- app_assoc. split; [reflexivity |].
    rewrite !filter_app, filter_toast_signed. reflexivity.
  - intros Hnone.
    destruct (run_without_failure text sdk env signer suiToMist coins address op s0 Hnone)
      as [tx [_ [[result [_ ->]] | [_ ->]]]].
    + left. exists result. reflexivity.
    + right. reflexivity.
  - intros y Hy.
    destruct (Runtime.failure sdk env signer suiToMist coins address op) as [x |] eqn:Hf.
    + exists x. split; [reflexivity |].
      destruct (Runtime.normal x) as [v |] eqn:Hn; [| reflexivity].
      destruct (run_with_failure text sdk env signer suiToMist coins address op s0 x Hf)
        as [signed [Hrun _]].
      rewrite Hrun, (handled_normal text op _ x v Hn) in Hy. discriminate.
    + destruct (run_without_failure text sdk env signer suiToMist coins address op s0 Hf)
        as [tx [_ [[result [_ Hrun]] | [_ Hrun]]]]; rewrite Hrun in Hy; discriminate.
Qed.

Lemma C6_rejects_only_on_odd_failures_witness :
  (* the SDK refuses the amount while the split is built *)
  fst (Runtime.invoke Runtime.engineText Runtime.numeralSdk None
         (atRuntime approvingWallet) notANumber twoCoins (Some "0xme")
         (Split (mkCoinSplitData "abc" "")) idle)
  = Runtime.Done (failureResponse (JsError "Error" "Invalid u64 value"))
  (* the user declines in the wallet *)
  /\ fst (Runtime.invoke Runtime.engineText Runtime.recordingSdk None
            (atRuntime decliningWallet) oneSui twoCoins None (Mint swordNFT) idle)
     = Runtime.Done (failureResponse (JsError "Error" "User rejected the request"))
  (* the wallet rejects with an Error whose message is a number *)
  /\ (exists n m,
         Runtime.OddError "Error" (JsOther "number") = Runtime.OddError n m
         /\ fst (Runtime.invoke Runtime.engineText Runtime.recordingSdk None
                   Runtime.oddWallet oneSui twoCoins None (LevelUp "0x1") idle)
            = Runtime.Raise (Runtime.typeError (Runtime.engineText m)))
  (* the wallet approves *)
  /\ ((exists result,
          fst (Runtime.invoke Runtime.engineText Runtime.recordingSdk None
                 (atRuntime approvingWallet) oneSui twoCoins None (Mint swordNFT) idle)
          = Runtime.Done (successResponse result))
      \/ fst (Runtime.invoke Runtime.engineText Runtime.recordingSdk None
                (atRuntime approvingWallet) oneSui twoCoins None (Mint swordNFT) idle)
         = Runtime.Waiting)
  (* a rejected promise has a failure outside the typed domain behind it *)
  /\ (exists x,
         Runtime.failure Runtime.recordingSdk None Runtime.oddWallet oneSui twoCoins None
                         (Mint swordNFT) = Some x
         /\ Runtime.normal x = None).
Proof.
  split; [| split; [| split; [| split]]].
  - apply (proj1 (C6_rejects_only_on_odd_failures Runtime.engineText Runtime.numeralSdk
                    None (atRuntime approvingWallet) notANumber twoCoins (Some "0xme")
                    (Split (mkCoinSplitData "abc" "")) idle)
                 (Runtime.Plain (JsError "Error" "Invalid u64 value"))
                 (JsError "Error" "Invalid u64 value")); reflexivity.
  - apply (proj1 (C6_rejects_only_on_odd_failures Runtime.engineText Runtime.recordingSdk
                    None (atRuntime decliningWallet) oneSui twoCoins None
                    (Mint swordNFT) idle)
                 (Runtime.Plain (JsError "Error" "User rejected the request"))
                 (JsError "Error" "User rejected the request")); reflexivity.
  - destruct (proj1 (proj2 (C6_rejects_only_on_odd_failures Runtime.engineText
                              Runtime.recordingSdk None Runtime.oddWallet oneSui twoCoins
                              None (LevelUp "0x1") idle))
                    (Runtime.OddError "Error" (JsOther "number"))
                    eq_refl eq_refl) as [n [m [Hx [Hrun _]]]].
    exists n, m. split; assumption.
  - apply (proj1 (proj2 (proj2 (C6_rejects_only_on_odd_failures Runtime.engineText
                                  Runtime.recordingSdk None (atRuntime approvingWallet)
                                  oneSui twoCoins None (Mint swordNFT) idle)))).
    reflexivity.
  - apply (proj2 (proj2 (proj2 (C6_rejects_only_on_odd_failures Runtime.engineText
                                  Runtime.recordingSdk None Runtime.oddWallet
                                  oneSui twoCoins None (Mint swordNFT) idle)))
                 (Runtime.typeError "error.message.includes is not a function")).
    reflexivity.
Defined.

(** C5 (as stated, refuted): the wallet rejects with an [Error] whose
    message is empty.  The response has [success = false] and its [error]
    is the empty string. *)
Lemma C5_empty_message_counterexample :
  fst (Runtime.mintNFT Runtime.engineText Runtime.recordingSdk None silentWallet
                       swordNFT idle)
  = Runtime.Done {| success := false; digest := None; error := Some ""; data := None |}.
Proof.
  reflexivity.
Qed.

(** C5 (amended): every response a hook returns has one of two shapes.
    With [success = true] the error is unset, and the digest and the data
    are those of the result with which the signer answered the
    transaction that was built.  With [success = false] the digest and the
    data are unset and the error is a string: the classified message of
    the very exception that ended the [try] block (that of the guard or
    the SDK, else the rejection of the signer).  That string is empty
    exactly when this exception is an [Error] with the empty message.
    Digest and error are never both set. *)
Theorem C5_response_shape_linked
        text sdk env signer suiToMist coins address op s0 (r : TransactionResponse) :
  fst (Runtime.invoke text sdk env signer suiToMist coins address op s0)
  = Runtime.Done r ->
  ((success r = true /\ error r = None
    /\ exists tx result,
        Runtime.prepared sdk env suiToMist coins address op = inr tx
        /\ signer tx = Runtime.OnSuccess result
        /\ digest r = Some (result_digest result)
        /\ data r = Some result)
   \/ (success r = false /\ digest r = None /\ data r = None
       /\ exists x v,
           Runtime.failure sdk env signer suiToMist coins address op = Some x
           /\ Runtime.normal x = Some v
           /\ error r = Some (message (handleTransactionError v))
           /\ (message (handleTransactionError v) = "" <-> exists n, v = JsError n "")))
  /\ (digest r = None \/ error r = None).
Proof.
  intros Hr.
  assert (Hshape :
    (success r = true /\ error r = None
     /\ exists tx result,
         Runtime.prepared sdk env suiToMist coins address op = inr tx
         /\ signer tx = Runtime.OnSuccess result
         /\ digest r = Some (result_digest result)
         /\ data r = Some result)
    \/ (success r = false /\ digest r = None /\ data r = None
        /\ exists x v,
            Runtime.failure sdk env signer suiToMist coins address op = Some x
            /\ Runtime.normal x = Some v
            /\ error r = Some (message (handleTransactionError v))
            /\ (message (handleTransactionError v) = "" <-> exists n, v = JsError n ""))).
  { destruct (Runtime.failure sdk env signer suiToMist coins address op) as [x |] eqn:Hf.
    - right.
      destruct (run_with_failure text sdk env signer suiToMist coins address op s0 x Hf)
        as [signed [Hrun _]].
      destruct (Runtime.normal x) as [v |] eqn:Hn.
      + rewrite Hrun, (handled_normal text op _ x v Hn) in Hr.
        cbn [fst] in Hr. inversion Hr; subst r. cbn.
        repeat split; try reflexivity.
        exists x, v. repeat split; try assumption; try reflexivity;
          apply message_empty_iff.
      + destruct (runtime_classifier_odd text x Hn) as [n [m [-> [Hm _]]]].
        rewrite Hrun, (handled_odd text op _ n m Hm) in Hr. discriminate.
    - left.
      destruct (run_without_failure text sdk env signer suiToMist coins address op s0 Hf)
        as [tx [Hp [[result [Hs Hrun]] | [_ Hrun]]]]; rewrite Hrun in Hr;
        [| discriminate].
      cbn [fst] in Hr. inversion Hr; subst r. cbn.
      repeat split. exists tx, result. repeat split; assumption. }
  split; [exact Hshape |].
  destruct Hshape as [[_ [He _]] | [_ [Hd _]]]; [right | left]; assumption.
Qed.

Lemma C5_response_shape_linked_witness :
  exists x v,
    Runtime.failure Runtime.recordingSdk None silentWallet oneSui twoCoins None
                    (Mint swordNFT) = Some x
    /\ Runtime.normal x = Some v
    /\ error emptyFailure = Some (message (handleTransactionError v))
    /\ (message (handleTransactionError v) = "" <-> exists n, v = JsError n "").
Proof.
  destruct (C5_response_shape_linked Runtime.engineText Runtime.recordingSdk None
              silentWallet oneSui twoCoins None (Mint swordNFT) idle emptyFailure
              eq_refl) as [[[Hs _] | [_ [_ [_ H]]]] _].
  - discriminate Hs.
  - exact H.
Defined.

(* ===================================================================== *)
(** * C2 and C9: the guard of [splitCoin] and the split builder *)
(* ===================================================================== *)

Lemma splitCoin_expected text sdk signer suiToMist coins address d s0 :
  Runtime.splitCoin text sdk signer suiToMist coins address d s0
  = Runtime.expected text sdk None signer suiToMist coins address (Split d) s0.
Proof.
  rewrite <- invoke_expected. reflexivity.
Qed.

Lemma refusedWith_guard text sdk signer suiToMist coins address d s0 msg :
  Runtime.preflight coins (suiToMist (amount d)) = inl msg ->
  In msg guardMessages ->
  refusedWith msg (Runtime.splitCoin text sdk signer suiToMist coins address d s0) s0.
Proof.
  intros Hp Hin. rewrite splitCoin_expected.
  unfold Runtime.expected, Runtime.prepared. rewrite Hp.
  rewrite (handled_normal text (Split d) _ (Runtime.Plain (JsError "Error" msg))
             (JsError "Error" msg) eq_refl).
  assert (Hc : handleTransactionError (JsError "Error" msg)
               = {| message := msg; code := "TRANSACTION_ERROR";
                    details := JsError "Error" msg |}).
  { simpl in Hin. destruct Hin as [<- | [<- | [<- | []]]]; reflexivity. }
  unfold refusedWith, failureResponse. rewrite Hc. cbn.
  repeat split.
  unfold signerCalls. cbn [snd trace].
  rewrite !filter_app, !length_app. cbn. lia.
Qed.

(** Where doubles are exact the guard compares the integers: the sum
    of the balances, and the largest of them, with the requested amount
    plus 10,000,000. *)
Lemma guard_compares_integers first others b bs req :
  hasBalance first b -> Forall2 hasBalance others bs ->
  b + sumZ bs < 2 ^ 53 -> - 2 ^ 53 < req + 10000000 < 2 ^ 53 ->
  js_lt (totalBalance (first :: others)) (js_add (Num req) estimatedGas)
  = (b + sumZ bs <? req + 10000000)
  /\ js_lt (parseInt (balance (largestCoin first others)))
           (js_add (Num req) estimatedGas)
     = (Z.max b (maxZ bs) <? req + 10000000).
Proof.
  intros Hf Hrest Hsum Hreq.
  assert (Hall : Forall2 hasBalance (first :: others) (b :: bs))
    by (constructor; assumption).
  rewrite (totalBalance_exact _ _ Hall) by (simpl; lia).
  rewrite (largestCoin_exact others bs Hrest first b Hf).
  unfold estimatedGas. cbn [js_add].
  rewrite roundToDouble_exact by lia. split; reflexivity.
Qed.

(** C2 (as stated, refuted): with coins of 5 and 20 SUI and a request
    of 20 SUI the guard refuses, and the failure is classified
    [TRANSACTION_ERROR]; no code [INSUFFICIENT_BALANCE] exists.  With the
    same coins and a conversion that yields the text [1e+21], which
    [parseInt] reads as 1, the guard passes, an SDK that takes numerals
    only refuses the amount while the transaction is built, and the signer
    is not invoked at all. *)
Lemma C2_guard_counterexample :
  fst (Runtime.splitCoin Runtime.engineText Runtime.numeralSdk
         (atRuntime approvingWallet) twentySui twoCoins (Some "0xme")
         (mkCoinSplitData "20" "") idle)
  = Runtime.Done
      {| success := false; digest := None;
         error := Some "Largest coin does not have sufficient balance for split amount plus gas fees";
         data := None |}
  /\ code (handleTransactionError
             (JsError "Error"
                "Largest coin does not have sufficient balance for split amount plus gas fees"))
     = "TRANSACTION_ERROR"
  /\ Runtime.preflight twoCoins (exponentText "1000000000000")
     = inr (mkSuiCoin "0xb" "20000000000")
  /\ signerCalls
       (snd (Runtime.splitCoin Runtime.engineText Runtime.numeralSdk
               (atRuntime approvingWallet) exponentText twoCoins (Some "0xme")
               (mkCoinSplitData "1000000000000" "") idle))
     = 0%nat.
Proof.
  repeat split; vm_compute; reflexivity.
Qed.

(** C2 (amended): [splitCoin] checks three conditions in order before
    it builds anything, computing as JavaScript does ([parseInt] of each
    balance and of the converted amount, sums in floating point): no coin
    is owned; the sum of the owned balances is less than the requested
    amount plus 10,000,000; the balance of the single largest coin is less
    than that.  On the first that holds it fails with a plain [Error],
    which the classifier files under [TRANSACTION_ERROR], and returns the
    failure response without invoking the signer.  When none holds the
    split transaction is built: if the SDK yields a transaction, the
    signer is invoked exactly once, with that transaction; if the SDK
    throws, the signer is not invoked and the exception is handled like
    any other failure. *)
Theorem C2_preflight_guard_runtime text sdk signer suiToMist coins address d s0 :
  (owned coins = [] ->
   refusedWith "No SUI coins found in your wallet"
     (Runtime.splitCoin text sdk signer suiToMist coins address d s0) s0)
  /\ (forall first others,
      coins = Some (first :: others) ->
      (js_lt (totalBalance (first :: others))
             (js_add (parseInt (suiToMist (amount d))) estimatedGas) = true ->
       refusedWith "Insufficient balance for split amount plus gas fees"
         (Runtime.splitCoin text sdk signer suiToMist coins address d s0) s0)
      /\ (js_lt (totalBalance (first :: others))
                (js_add (parseInt (suiToMist (amount d))) estimatedGas) = false ->
          js_lt (parseInt (balance (largestCoin first others)))
                (js_add (parseInt (suiToMist (amount d))) estimatedGas) = true ->
          refusedWith
            "Largest coin does not have sufficient balance for split amount plus gas fees"
            (Runtime.splitCoin text sdk signer suiToMist coins address d s0) s0)
      /\ (js_lt (totalBalance (first :: others))
                (js_add (parseInt (suiToMist (amount d))) estimatedGas) = false ->
          js_lt (parseInt (balance (largestCoin first others)))
                (js_add (parseInt (suiToMist (amount d))) estimatedGas) = false ->
          (forall tx,
              Runtime.createCoinSplitTransaction sdk
                (coinObjectId (largestCoin first others))
                (suiToMist (amount d)) address = inr tx ->
              exists events,
                trace (snd (Runtime.splitCoin text sdk signer suiToMist coins address d s0))
                = trace s0 ++ events
                /\ filter isSignEvent events = [EvSign tx])
          /\ (forall x,
              Runtime.createCoinSplitTransaction sdk
                (coinObjectId (largestCoin first others))
                (suiToMist (amount d)) address = inl x ->
              signerCalls
                (snd (Runtime.splitCoin text sdk signer suiToMist coins address d s0))
              = signerCalls s0
              /\ forall v,
                  Runtime.normal x = Some v ->
                  fst (Runtime.splitCoin text sdk signer suiToMist coins address d s0)
                  = Runtime.Done (failureResponse v)))).
Proof.
  split.
  - intros Hc. apply refusedWith_guard; [| simpl; tauto].
    destruct coins as [[ | c cs] | ]; try discriminate; reflexivity.
  - intros first others ->. split; [| split].
    + intros H1. apply refusedWith_guard; [| simpl; tauto].
      unfold Runtime.preflight. rewrite H1. reflexivity.
    + intros H1 H2. apply refusedWith_guard; [| simpl; tauto].
      unfold Runtime.preflight. rewrite H1, H2. reflexivity.
    + intros H1 H2. split.
      * intros tx Htx. rewrite splitCoin_expected.
        unfold Runtime.expected, Runtime.prepared, Runtime.preflight.
        rewrite H1, H2, Htx.
        destruct (signer tx) as [r | e | e | ]; unfold Runtime.handled;
          try destruct (Runtime.handleTransactionError text e);
          cbn [snd trace]; eexists; rewrite <- !app_assoc;
          (split; [reflexivity | reflexivity]).
      * intros x Hx. rewrite splitCoin_expected.
        unfold Runtime.expected, Runtime.prepared, Runtime.preflight.
        rewrite H1, H2, Hx. split.
        -- unfold Runtime.handled, signerCalls.
           destruct (Runtime.handleTransactionError text x); cbn [snd trace];
             rewrite !filter_app, !length_app; cbn; lia.
        -- intros v Hv. rewrite (handled_normal text _ _ x v Hv). reflexivity.
Qed.

Lemma C2_preflight_guard_runtime_witness :
  (* 5 and 20 SUI owned, 20 SUI requested: the largest coin falls short *)
  refusedWith
    "Largest coin does not have sufficient balance for split amount plus gas fees"
    (Runtime.splitCoin Runtime.engineText Runtime.numeralSdk
       (atRuntime approvingWallet) twentySui twoCoins (Some "0xme")
       (mkCoinSplitData "20" "") idle) idle
  (* one coin of 20 SUI, 1 SUI requested: the guard passes and the signer
     is invoked once *)
  /\ (exists events,
         trace (snd (Runtime.splitCoin Runtime.engineText Runtime.numeralSdk
                       (atRuntime approvingWallet) oneSui oneCoin (Some "0xme")
                       (mkCoinSplitData "1" "") idle))
         = trace idle ++ events
         /\ filter isSignEvent events
            = [EvSign [ SplitCoins GasCoin [PureAmount "1000000000"];
                        TransferObjects [CommandResult 0] "0xme" ]])
  (* nothing owned *)
  /\ refusedWith "No SUI coins found in your wallet"
       (Runtime.splitCoin Runtime.engineText Runtime.numeralSdk
          (atRuntime approvingWallet) oneSui None (Some "0xme")
          (mkCoinSplitData "1" "") idle) idle
  (* the SDK refuses the amount text: no signature is asked for *)
  /\ signerCalls
       (snd (Runtime.splitCoin Runtime.engineText Runtime.numeralSdk
               (atRuntime approvingWallet) notANumber twoCoins (Some "0xme")
               (mkCoinSplitData "abc" "") idle))
     = signerCalls idle.
Proof.
  split; [| split; [| split]].
  - apply (proj1 (proj2 (proj2 (C2_preflight_guard_runtime Runtime.engineText
                                  Runtime.numeralSdk (atRuntime approvingWallet) twentySui
                                  twoCoins (Some "0xme") (mkCoinSplitData "20" "") idle)
                               (mkSuiCoin "0xa" "5000000000")
                               [mkSuiCoin "0xb" "20000000000"] eq_refl)));
      reflexivity.
  - apply (proj1 (proj2 (proj2 (proj2 (C2_preflight_guard_runtime Runtime.engineText
                                         Runtime.numeralSdk (atRuntime approvingWallet)
                                         oneSui oneCoin (Some "0xme")
                                         (mkCoinSplitData "1" "") idle)
                                      (mkSuiCoin "0xb" "20000000000") [] eq_refl))
                        eq_refl eq_refl)).
    reflexivity.
  - apply (proj1 (C2_preflight_guard_runtime Runtime.engineText Runtime.numeralSdk
                    (atRuntime approvingWallet) oneSui None (Some "0xme")
                    (mkCoinSplitData "1" "") idle)).
    reflexivity.
  - apply (proj2 (proj2 (proj2 (proj2 (C2_preflight_guard_runtime Runtime.engineText
                                         Runtime.numeralSdk (atRuntime approvingWallet)
                                         notANumber twoCoins (Some "0xme")
                                         (mkCoinSplitData "abc" "") idle)
                                      (mkSuiCoin "0xa" "5000000000")
                                      [mkSuiCoin "0xb" "20000000000"] eq_refl))
                        eq_refl eq_refl)
                 (Runtime.Plain (JsError "Error" "Invalid u64 value"))).
    reflexivity.
Defined.

(** C9 (as stated, refuted): a recipient that is provided but empty
    gets no transfer, and an SDK that takes numerals only throws while the
    split of the amount text [NaN] is built. *)
Lemma C9_builder_counterexample :
  Runtime.createCoinSplitTransaction Runtime.recordingSdk "0xc" "1000" (Some "")
  = inr [ SplitCoins GasCoin [PureAmount "1000"] ]
  /\ Runtime.createCoinSplitTransaction Runtime.numeralSdk "0xc" "NaN" (Some "0xme")
     = inl (Runtime.Plain (JsError "Error" "Invalid u64 value")).
Proof.
  split; reflexivity.
Qed.

(** C9 (amended): [createCoinSplitTransaction] asks the SDK to split
    the one amount from the implicit gas coin, never from the coin it is
    given the id of.  It asks for a transfer of the split result exactly
    when the recipient is a non-empty string, and then to that recipient.
    Construction fails exactly when one of these calls of the SDK throws,
    with what that call throws; with an SDK that refuses nothing it yields
    the split, followed by the transfer in the case named. *)
Theorem C9_split_from_gas_coin_sdk
        (sdk : Runtime.Sdk) (id amount : string) (recipient : option string) :
  (forall x,
      Runtime.splitCoins sdk GasCoin [amount] = inl x ->
      Runtime.createCoinSplitTransaction sdk id amount recipient = inl x)
  /\ (forall split,
      Runtime.splitCoins sdk GasCoin [amount] = inr split ->
      (truthy recipient = false ->
       Runtime.createCoinSplitTransaction sdk id amount recipient = inr [split])
      /\ (forall r,
          recipient = Some r -> truthy recipient = true ->
          (forall transfer,
              Runtime.transferObjects sdk [CommandResult 0] r = inr transfer ->
              Runtime.createCoinSplitTransaction sdk id amount recipient
              = inr [split; transfer])
          /\ (forall x,
              Runtime.transferObjects sdk [CommandResult 0] r = inl x ->
              Runtime.createCoinSplitTransaction sdk id amount recipient = inl x)))
  /\ Runtime.createCoinSplitTransaction Runtime.recordingSdk id amount recipient
     = inr (createCoinSplitTransaction id amount recipient)
  /\ (forall id',
      Runtime.createCoinSplitTransaction sdk id' amount recipient
      = Runtime.createCoinSplitTransaction sdk id amount recipient).
Proof.
  unfold Runtime.createCoinSplitTransaction, Runtime.andThen.
  split; [| split; [| split]].
  - intros x ->. reflexivity.
  - intros split ->. split.
    + destruct recipient as [[ | c rest] | ]; try discriminate; reflexivity.
    + intros r -> Ht. destruct r as [ | c rest]; [discriminate |].
      split; [intros transfer -> | intros x ->]; reflexivity.
  - unfold createCoinSplitTransaction.
    destruct recipient as [[ | c rest] | ]; reflexivity.
  - reflexivity.
Qed.

Lemma C9_split_from_gas_coin_sdk_witness :
  Runtime.createCoinSplitTransaction Runtime.numeralSdk "0xc" "1e+21" (Some "0xme")
  = inl (Runtime.Plain (JsError "Error" "Invalid u64 value"))
  /\ Runtime.createCoinSplitTransaction Runtime.numeralSdk "0xc" "1000" None
     = inr [ SplitCoins GasCoin [PureAmount "1000"] ]
  /\ Runtime.createCoinSplitTransaction Runtime.numeralSdk "0xc" "1000" (Some "0xme")
     = inr [ SplitCoins GasCoin [PureAmount "1000"];
             TransferObjects [CommandResult 0] "0xme" ].
Proof.
  split; [| split].
  - apply (proj1 (C9_split_from_gas_coin_sdk Runtime.numeralSdk "0xc" "1e+21"
                    (Some "0xme"))).
    reflexivity.
  - apply (proj1 (proj2 (C9_split_from_gas_coin_sdk Runtime.numeralSdk "0xc" "1000" None))
                 (SplitCoins GasCoin [PureAmount "1000"]) eq_refl).
    reflexivity.
  - apply (proj1 (proj2 (proj1 (proj2 (C9_split_from_gas_coin_sdk Runtime.numeralSdk
                                         "0xc" "1000" (Some "0xme")))
                               (SplitCoins GasCoin [PureAmount "1000"]) eq_refl)
                        "0xme" eq_refl eq_refl)).
    reflexivity.
Defined.

(** The typed model is the run-time model with an SDK that refuses
    nothing and failures of the typed domain. *)
Lemma typed_hooks_at_runtime text env signer suiToMist coins address op s0 :
  Runtime.invoke text Runtime.recordingSdk env (atRuntime signer)
                 suiToMist coins address op s0
  = (ofCompletion (fst (invoke env signer suiToMist coins address op s0)),
     snd (invoke env signer suiToMist coins address op s0)).
Proof.
  destruct op as [d | id | d].
  - unfold invoke, Runtime.invoke. unfold_runtime. unfold_hook.
    unfold atRuntime, createMintNFTTransaction. cbn.
    destruct (signer _) as [r | e | e | ]; cbn; reflexivity.
  - unfold invoke, Runtime.invoke. unfold_runtime. unfold_hook.
    unfold atRuntime, createLevelUpTransaction. cbn.
    destruct (signer _) as [r | e | e | ]; cbn; reflexivity.
  - unfold invoke, Runtime.invoke, Runtime.splitCoin, splitCoin.
    destruct coins as [[ | first others] | ];
      [ unfold_runtime; unfold_hook; reflexivity | | unfold_runtime; unfold_hook; reflexivity ].
    destruct (js_lt (totalBalance (first :: others))
                    (js_add (parseInt (suiToMist (amount d))) estimatedGas));
      [ unfold_runtime; unfold_hook; reflexivity | ].
    destruct (js_lt (parseInt (balance (largestCoin first others)))
                    (js_add (parseInt (suiToMist (amount d))) estimatedGas));
      [ unfold_runtime; unfold_hook; reflexivity | ].
    assert (Hb : Runtime.createCoinSplitTransaction Runtime.recordingSdk
                   (coinObjectId (largestCoin first others))
                   (suiToMist (amount d)) address
                 = inr (createCoinSplitTransaction
                          (coinObjectId (largestCoin first others))
                          (suiToMist (amount d)) address)).
    { unfold Runtime.createCoinSplitTransaction, createCoinSplitTransaction.
      destruct address as [[ | c rest] | ]; reflexivity. }
    rewrite Hb. unfold_runtime. unfold_hook. unfold atRuntime. cbn.
    destruct (signer _) as [r | e | e | ]; cbn; reflexivity.
Qed.

(* ===================================================================== *)
(** * C3: the poller on a measured clock *)
(* ===================================================================== *)


Lemma turnsWithin_step t d :
  0 < d -> 0 < t -> Runtime.turnsWithin t d = S (Runtime.turnsWithin (t - d) d).
Proof.
  intros Hd Ht. unfold Runtime.turnsWithin.
  replace (t + d - 1) with ((t - d + d - 1) + 1 * d) by lia.
  rewrite Z.div_add by lia.
  assert (0 <= (t - d + d - 1) / d) by (apply Z.div_pos; lia).
  lia.
Qed.

Lemma turnsWithin_mono t t' d :
  0 < d -> t <= t' -> (Runtime.turnsWithin t d <= Runtime.turnsWithin t' d)%nat.
Proof.
  intros Hd Ht. unfold Runtime.turnsWithin.
  assert ((t + d - 1) / d <= (t' + d - 1) / d) by (apply Z.div_le_mono; lia).
  lia.
Qed.

Section ClockPoller.

Variable source : nat -> Runtime.Turn.
Variable timeoutMs : Z.

Lemma clock_poll_timeout issued reading :
  ~ Z.of_N reading < timeoutMs ->
  Runtime.poll source timeoutMs issued reading
  = {| Runtime.settled := Thrown timeoutError;
       Runtime.queriedAt := issued;
       Runtime.lastReading := reading |}.
Proof.
  intros H. funelim (Runtime.poll source timeoutMs issued reading);
    [reflexivity | contradiction | contradiction | contradiction].
Qed.

Lemma clock_poll_turn issued reading :
  Z.of_N reading < timeoutMs ->
  Runtime.poll source timeoutMs issued reading =
  match loopBody (Runtime.answer (source (length issued))) with
  | StepReturn result =>
      {| Runtime.settled := Returned result;
         Runtime.queriedAt := issued ++ [reading];
         Runtime.lastReading := reading |}
  | StepThrow v =>
      {| Runtime.settled := Thrown v;
         Runtime.queriedAt := issued ++ [reading];
         Runtime.lastReading := reading |}
  | StepSleep =>
      Runtime.poll source timeoutMs (issued ++ [reading])
        (reading + Npos (Runtime.untilNextTest (source (length issued))))%N
  end.
Proof.
  intros H. funelim (Runtime.poll source timeoutMs issued reading).
  - contradiction.
  - rewrite Heq. reflexivity.
  - rewrite Heq. reflexivity.
  - rewrite Heq. reflexivity.
Qed.


End ClockPoller.





(** With turns of 999 ms the timeout of 2000 ms sees three queries, and
    the default one sees 31. *)
Example early_timers_add_a_query :
  Runtime.queriedAt (Runtime.waitForTransaction Runtime.earlyTimers 0 "0xd1" (Some 2000))
  = [0; 999; 1998]%N
  /\ length (Runtime.queriedAt
               (Runtime.waitForTransaction Runtime.earlyTimers 0 "0xd1" None))
     = 31%nat
  /\ Runtime.turnsWithin 30000 999 = 31%nat
  /\ Runtime.turnsWithin 30000 1034 = 30%nat.
Proof.
  repeat split; vm_compute; reflexivity.
Qed.

(* ===================================================================== *)
(** * The first poller on the measured clock *)
(* ===================================================================== *)

(** The poller of the typed model is the one on the measured clock,
    read on a clock whose timers never fire early. *)
Lemma typed_poll_on_clock source timeoutMs issued elapsed :
  Runtime.settled (Runtime.poll (measured source) timeoutMs issued elapsed)
  = outcome (poll source timeoutMs issued elapsed)
  /\ Runtime.queriedAt (Runtime.poll (measured source) timeoutMs issued elapsed)
     = queryTimes (poll source timeoutMs issued elapsed).
Proof.
  funelim (poll source timeoutMs issued elapsed).
  - rewrite clock_poll_timeout by assumption. split; reflexivity.
  - rewrite clock_poll_turn by assumption. cbn [measured Runtime.answer].
    rewrite Heq. split; reflexivity.
  - rewrite clock_poll_turn by assumption. cbn [measured Runtime.answer].
    rewrite Heq. split; reflexivity.
  - rewrite clock_poll_turn by assumption.
    cbn [measured Runtime.answer Runtime.untilNextTest].
    rewrite Heq, N.succ_pos_spec.
    replace (elapsed
             + N.succ (replyMs (source (length issued)) + 999
                       + timerLateMs (source (length issued))))%N
      with (elapsed + replyMs (source (length issued)) + 1000
            + timerLateMs (source (length issued)))%N by lia.
    exact H.
Qed.

(* ===================================================================== *)
(** * Further properties of the hooks at run time and of the poller *)
(* ===================================================================== *)

(** X3: an invocation of [mintNFT], [levelUp] or [splitCoin] whose
    promise is fulfilled has shown exactly one notification, a success
    toast for a success response and an error toast for a failure
    response, and leaves the hook's error state equal to the response's
    [error] (so a stale error of an earlier invocation is cleared by a
    success).  An invocation that is pending, or whose promise is rejected
    because the classifier threw on the failure, has shown none and has
    the error state cleared. *)
Theorem one_notification_per_invocation
        text sdk env signer suiToMist coins address op s0 :
  exists events,
    trace (snd (Runtime.invoke text sdk env signer suiToMist coins address op s0))
    = trace s0 ++ events
    /\ match fst (Runtime.invoke text sdk env signer suiToMist coins address op s0) with
       | Runtime.Done r =>
           (exists toast,
               filter isToastEvent events
               = [if success r then EvToastSuccess toast else EvToastError toast])
           /\ errorState (snd (Runtime.invoke text sdk env signer suiToMist coins
                                              address op s0))
              = error r
       | Runtime.Raise _ | Runtime.Waiting =>
           filter isToastEvent events = []
           /\ errorState (snd (Runtime.invoke text sdk env signer suiToMist coins
                                              address op s0))
              = None
       end.
Proof.
  rewrite invoke_expected. unfold Runtime.expected, Runtime.handled.
  destruct (Runtime.prepared sdk env suiToMist coins address op) as [x | tx].
  - destruct (Runtime.handleTransactionError text x) as [e | y | ];
      cbn [fst snd trace errorState]; rewrite <- ?app_assoc; eexists;
      (split; [reflexivity |]); cbn; split; try reflexivity.
    eexists. reflexivity.
  - destruct (signer tx) as [r | e | e | ];
      try destruct (Runtime.handleTransactionError text e) as [e' | y | ];
      cbn [fst snd trace errorState]; rewrite <- ?app_assoc; eexists;
      (split; [reflexivity |]); cbn; split; try reflexivity;
      eexists; reflexivity.
Qed.



(* ===================================================================== *)
(** * Further properties of the callers, the NFT list and the faucet *)
(* ===================================================================== *)

(** X10: [MintForm]'s [onSubmit] does not look at the response of
    [mintNFT].  Without a wallet it only shows an error toast and leaves
    the hook alone.  With a wallet it runs [mintNFT] once and, when that
    returns a response, shows its own success toast, resets the form and
    clears the preview (and arms the refresh timer when a callback was
    given), whether the response is a success or a failure.  While
    [mintNFT] is pending only the loading toast has been shown. *)
Theorem MintForm_onSubmit_ignores_response env signer onMintSuccess data s0 :
  MintForm_onSubmit env signer None onMintSuccess data s0
  = (Returned tt,
     {| hookState := hookState s0;
        uiTrace := uiTrace s0
                   ++ [UiToast ToastError "Please connect your wallet first" None] |})
  /\ forall account,
      hookState (snd (MintForm_onSubmit env signer (Some account) onMintSuccess data s0))
      = snd (mintNFT env signer data (hookState s0))
      /\ match fst (mintNFT env signer data (hookState s0)) with
         | Returned _ =>
             MintForm_onSubmit env signer (Some account) onMintSuccess data s0
             = (Returned tt,
                {| hookState := snd (mintNFT env signer data (hookState s0));
                   uiTrace :=
                     uiTrace s0
                     ++ [UiToast ToastLoading "Minting NFT..." (Some "mint-nft");
                         UiToast ToastSuccess
                                 "NFT minted successfully! ðŸŽ‰ Check your gallery in a few seconds."
                                 (Some "mint-nft");
                         UiFormReset;
                         UiSetImagePreview ""]
                     ++ (if onMintSuccess
                         then [UiSetTimeout "onMintSuccess" 2000] else []) |})
         | Pending =>
             MintForm_onSubmit env signer (Some account) onMintSuccess data s0
             = (Pending,
                {| hookState := snd (mintNFT env signer data (hookState s0));
                   uiTrace :=
                     uiTrace s0
                     ++ [UiToast ToastLoading "Minting NFT..." (Some "mint-nft")] |})
         | Thrown _ => True
         end.
Proof.
  split; [reflexivity |].
  intros account. destruct data as [n d u].
  destruct (mintNFT_attempt env signer (mkMintNFTData n d u) (hookState s0))
    as [a [_ Ha]].
  unfold_app. cbn [name description image_url]. rewrite Ha.
  destruct a as [tx result toast | signed v | tx], onMintSuccess; cbn;
    (split; [reflexivity |]); tidy_trace; reflexivity.
Qed.

(** X12: [Home]'s [handleLevelUp] marks the NFT as levelling up and
    runs [levelUp] once.  When that returns a response it clears the mark
    as its last act, and it arms the refetch timer exactly when the
    response is a success.  While [levelUp] is pending the mark stays
    set. *)
Theorem handleLevelUp_marks_and_refetches env signer nftId s0 :
  hookState (snd (handleLevelUp env signer nftId s0))
  = snd (levelUp env signer nftId (hookState s0))
  /\ match fst (levelUp env signer nftId (hookState s0)) with
     | Returned r =>
         fst (handleLevelUp env signer nftId s0) = Returned tt
         /\ uiTrace (snd (handleLevelUp env signer nftId s0))
            = uiTrace s0
              ++ [UiSetLevelingUpNFTId (Some nftId)]
              ++ (if success r then [UiSetTimeout "refetchNFTs" 2000] else [])
              ++ [UiSetLevelingUpNFTId None]
     | Pending =>
         fst (handleLevelUp env signer nftId s0) = Pending
         /\ uiTrace (snd (handleLevelUp env signer nftId s0))
            = uiTrace s0 ++ [UiSetLevelingUpNFTId (Some nftId)]
     | Thrown _ => True
     end.
Proof.
  destruct (levelUp_attempt env signer nftId (hookState s0)) as [a [_ Ha]].
  unfold_app. rewrite Ha.
  destruct a as [tx result toast | signed v | tx]; cbn;
    (split; [reflexivity |]); split; try reflexivity;
    tidy_trace; reflexivity.
Qed.

(** X13: [CoinSplitForm]'s [onSubmit] does not call [splitCoin] when
    the amount exceeds the displayed balance: it only shows its error
    toast.  Otherwise it runs [splitCoin] once with the form's amount; on
    a success response it records the digest, resets the form and shows a
    success toast of its own; on a failure response it does nothing more,
    so the hook's error toast is the only feedback. *)
Theorem CoinSplitForm_onSubmit_feedback signer account suiToMist coins formAmount s0 :
  CoinSplitForm_onSubmit signer account suiToMist coins true formAmount s0
  = (Returned tt,
     {| hookState := hookState s0;
        uiTrace :=
          uiTrace s0
          ++ [UiToast ToastError "Insufficient balance for this split amount" None] |})
  /\ hookState (snd (CoinSplitForm_onSubmit signer account suiToMist coins false
                       formAmount s0))
     = snd (splitCoin signer suiToMist coins account
                      (mkCoinSplitData formAmount "") (hookState s0))
  /\ match fst (splitCoin signer suiToMist coins account
                          (mkCoinSplitData formAmount "") (hookState s0)) with
     | Returned r =>
         fst (CoinSplitForm_onSubmit signer account suiToMist coins false formAmount s0)
         = Returned tt
         /\ uiTrace (snd (CoinSplitForm_onSubmit signer account suiToMist coins false
                            formAmount s0))
            = uiTrace s0
              ++ (if success r
                  then [UiSetLastSplitResult
                          (match digest r with Some d => d | None => "" end);
                        UiFormReset;
                        UiToast ToastSuccess
                                ("Successfully split " ++ formAmount ++ " SUI!") None]
                  else [])
     | Pending =>
         fst (CoinSplitForm_onSubmit signer account suiToMist coins false formAmount s0)
         = Pending
         /\ uiTrace (snd (CoinSplitForm_onSubmit signer account suiToMist coins false
                            formAmount s0))
            = uiTrace s0
     | Thrown _ => True
     end.
Proof.
  split; [reflexivity |].
  destruct (splitCoin_attempt signer suiToMist coins account
              (mkCoinSplitData formAmount "") (hookState s0)) as [a [_ Ha]].
  unfold_app. rewrite Ha.
  destruct a as [tx result toast | signed v | tx]; cbn;
    (split; [reflexivity |]); split; try reflexivity;
    tidy_trace; try rewrite app_nil_r; reflexivity.
Qed.

Lemma toSimpleNFT_name obj :
  nft_name (toSimpleNFT obj)
  = orString (Some (orString (displayed "name" obj)
                             (stringField "name" (ownFields obj))))
             "Unknown NFT".
Proof.
  unfold toSimpleNFT, displayed, ownFields. cbn [nft_name].
  destruct (obj_data obj) as [d |]; reflexivity.
Qed.

Lemma toSimpleNFT_description obj :
  nft_description (toSimpleNFT obj)
  = orString (Some (orString (displayed "description" obj)
                             (stringField "description" (ownFields obj))))
             "No description".
Proof.
  unfold toSimpleNFT, displayed, ownFields. cbn [nft_description].
  destruct (obj_data obj) as [d |]; reflexivity.
Qed.

Lemma toSimpleNFT_level obj :
  nft_level (toSimpleNFT obj)
  = match property "level" (ownFields obj) with
    | Some (FieldNumber n) => n
    | _ => Num 1
    end.
Proof.
  unfold toSimpleNFT, ownFields. cbn [nft_level].
  destruct (obj_data obj) as [d |]; reflexivity.
Qed.

(** X14: every NFT [useNFTs] returns has a name and a description that
    are not empty, whatever the object on chain holds.  When the display
    data has no name, or an empty one, and the object's [name] field is
    missing, empty or not a string, the name is 'Unknown NFT'; under the
    same conditions on the description it is 'No description'. *)
Theorem nfts_named_and_described env ownedObjects :
  Forall (fun n => nft_name n <> "" /\ nft_description n <> "")
         (nfts env ownedObjects)
  /\ (forall obj,
         orString (displayed "name" obj) "" = "" ->
         (property "name" (ownFields obj) = None
          \/ property "name" (ownFields obj) = Some (FieldString "")
          \/ exists v, property "name" (ownFields obj) = Some v
                       /\ forall s, v <> FieldString s) ->
         nft_name (toSimpleNFT obj) = "Unknown NFT")
  /\ (forall obj,
         orString (displayed "description" obj) "" = "" ->
         (property "description" (ownFields obj) = None
          \/ property "description" (ownFields obj) = Some (FieldString "")
          \/ exists v, property "description" (ownFields obj) = Some v
                       /\ forall s, v <> FieldString s) ->
         nft_description (toSimpleNFT obj) = "No description").
Proof.
  split; [| split].
  - destruct ownedObjects as [objects |]; simpl; [| constructor].
    apply Forall_forall. intros n Hin.
    apply in_map_iff in Hin. destruct Hin as [obj [<- _]].
    unfold toSimpleNFT. cbn [nft_name nft_description].
    split; apply orString_fallback_nonempty; discriminate.
  - intros obj Hshown Hown. rewrite toSimpleNFT_name.
    assert (Hf : stringField "name" (ownFields obj) = "").
    { unfold stringField.
      destruct Hown as [-> | [-> | [v [-> Hv]]]]; try reflexivity.
      destruct v as [s | n |]; try reflexivity.
      exfalso. apply (Hv s). reflexivity. }
    rewrite Hf.
    destruct (displayed "name" obj) as [[ | c r] |]; simpl in *;
      try discriminate; reflexivity.
  - intros obj Hshown Hown. rewrite toSimpleNFT_description.
    assert (Hf : stringField "description" (ownFields obj) = "").
    { unfold stringField.
      destruct Hown as [-> | [-> | [v [-> Hv]]]]; try reflexivity.
      destruct v as [s | n |]; try reflexivity.
      exfalso. apply (Hv s). reflexivity. }
    rewrite Hf.
    destruct (displayed "description" obj) as [[ | c r] |]; simpl in *;
      try discriminate; reflexivity.
Qed.

Lemma nfts_named_and_described_witness :
  nft_name (toSimpleNFT untypedObject) = "Unknown NFT"
  /\ nft_description (toSimpleNFT untypedObject) = "No description".
Proof.
  split.
  - apply (proj1 (proj2 (nfts_named_and_described None None)) untypedObject).
    + reflexivity.
    + right. right. exists (FieldNumber (Num 5)).
      split; [reflexivity | intros s; discriminate].
  - apply (proj2 (proj2 (nfts_named_and_described None None)) untypedObject).
    + reflexivity.
    + right. right. exists FieldOther.
      split; [reflexivity | intros s; discriminate].
Defined.

(** X16: display metadata wins over the object's own fields: when the
    display data has a non-empty name the NFT shows it, whatever the
    [name] field holds; the field is used only when it is a string and the
    display name is missing or empty.  The level is the [level] field when
    that is a number, and 1 when the field is missing or is anything
    else. *)
Theorem toSimpleNFT_display_first obj :
  (forall shown,
      displayed "name" obj = Some shown ->
      shown <> "" ->
      nft_name (toSimpleNFT obj) = shown)
  /\ (forall own,
         orString (displayed "name" obj) "" = "" ->
         property "name" (ownFields obj) = Some (FieldString own) ->
         own <> "" ->
         nft_name (toSimpleNFT obj) = own)
  /\ (forall n,
         property "level" (ownFields obj) = Some (FieldNumber n) ->
         nft_level (toSimpleNFT obj) = n)
  /\ ((forall n, property "level" (ownFields obj) <> Some (FieldNumber n)) ->
      nft_level (toSimpleNFT obj) = Num 1).
Proof.
  rewrite toSimpleNFT_name, toSimpleNFT_level.
  split; [| split; [| split]].
  - intros shown -> Hne.
    destruct shown as [| c r]; [contradiction Hne; reflexivity | reflexivity].
  - intros own Hdisp Hown Hne. unfold stringField. rewrite Hown.
    destruct (displayed "name" obj) as [[| c r] |]; simpl in *; try discriminate;
      destruct own; try reflexivity; contradiction Hne; reflexivity.
  - intros n ->. reflexivity.
  - intros Hlevel.
    destruct (property "level" (ownFields obj)) as [[s | n |] |]; try reflexivity.
    contradiction (Hlevel n). reflexivity.
Qed.

Lemma toSimpleNFT_display_first_witness :
  nft_name (toSimpleNFT levelSeven) = "Shown"
  /\ nft_name (toSimpleNFT
                 (mkSuiObjectResponse
                    (Some (mkSuiObjectData "0x79" None
                             (Some (MoveObject [("name", FieldString "raw")]))
                             (Some [("name", "")])))))
     = "raw"
  /\ nft_level (toSimpleNFT levelSeven) = Num 7
  /\ nft_level (toSimpleNFT untypedObject) = Num 1.
Proof.
  split; [| split; [| split]].
  - apply (proj1 (toSimpleNFT_display_first levelSeven) "Shown");
      [reflexivity | discriminate].
  - apply (proj1 (proj2 (toSimpleNFT_display_first _)) "raw");
      [reflexivity | reflexivity | discriminate].
  - apply (proj1 (proj2 (proj2 (toSimpleNFT_display_first levelSeven))) (Num 7)).
    reflexivity.
  - apply (proj2 (proj2 (proj2 (toSimpleNFT_display_first untypedObject)))).
    intros n. discriminate.
Defined.

(** X23: with a connected wallet [requestSUI] asks the faucet exactly
    once, for the connected address.  After a resolved request the
    promise is fulfilled, [isLoading] is false, [isSuccess] is true and
    the error is cleared, and the refresh timer is armed exactly when a
    callback was given.  After a request rejected with a failure that is
    not an [Error], or is an [Error] whose message is a string,
    [isLoading] is false, [isSuccess] is false, the error is the message
    chosen for the failure, which is not empty, and no timer is armed.
    While the request is pending [isLoading] is true, [isSuccess] false
    and the error cleared. *)
Theorem requestSUI_state_after lowerCase faucetHost faucet c rest onSuccess s0 :
  exists evs,
    fx_trace (snd (requestSUI lowerCase faucetHost faucet (Some (String c rest))
                              onSuccess s0))
    = fx_trace s0 ++ evs
    /\ filter isFaucetRequest evs = [FxRequest faucetHost (String c rest)]
    /\ match faucet faucetHost (String c rest) with
       | FaucetResolves =>
           fst (requestSUI lowerCase faucetHost faucet (Some (String c rest))
                           onSuccess s0) = Returned tt
           /\ fx_isLoading (snd (requestSUI lowerCase faucetHost faucet
                                            (Some (String c rest)) onSuccess s0)) = false
           /\ fx_isSuccess (snd (requestSUI lowerCase faucetHost faucet
                                            (Some (String c rest)) onSuccess s0)) = true
           /\ fx_error (snd (requestSUI lowerCase faucetHost faucet
                                        (Some (String c rest)) onSuccess s0)) = None
           /\ filter isFaucetTimer evs
              = (if onSuccess then [FxSetTimeout "onSuccess" 2000] else [])
       | FaucetRejects reason =>
           fx_isLoading (snd (requestSUI lowerCase faucetHost faucet
                                         (Some (String c rest)) onSuccess s0)) = false
           /\ fx_isSuccess (snd (requestSUI lowerCase faucetHost faucet
                                            (Some (String c rest)) onSuccess s0)) = false
           /\ fx_error (snd (requestSUI lowerCase faucetHost faucet
                                        (Some (String c rest)) onSuccess s0))
              = Some (fst (faucetFailure lowerCase reason))
           /\ fst (faucetFailure lowerCase reason) <> ""
           /\ filter isFaucetTimer evs = []
       | FaucetNeverSettles =>
           fst (requestSUI lowerCase faucetHost faucet (Some (String c rest))
                           onSuccess s0) = Pending
           /\ fx_isLoading (snd (requestSUI lowerCase faucetHost faucet
                                            (Some (String c rest)) onSuccess s0)) = true
           /\ fx_isSuccess (snd (requestSUI lowerCase faucetHost faucet
                                            (Some (String c rest)) onSuccess s0)) = false
           /\ fx_error (snd (requestSUI lowerCase faucetHost faucet
                                        (Some (String c rest)) onSuccess s0)) = None
           /\ filter isFaucetTimer evs = []
       end.
Proof.
  unfold_faucet.
  destruct (faucet faucetHost (String c rest)) as [| reason |].
  - destruct onSuccess; cbn; tidy_trace; eexists;
      (split; [reflexivity |]); repeat split.
  - destruct (faucetFailure lowerCase reason) as [msg show] eqn:Hf.
    pose proof (faucetFailure_message_nonempty lowerCase reason) as Hne.
    rewrite Hf in Hne. cbn in *. tidy_trace. eexists.
    split; [reflexivity |]. repeat split. exact Hne.
  - cbn. tidy_trace. eexists. split; [reflexivity |]. repeat split.
Qed.

Lemma clock_poll_schedule source timeoutMs first issued reading :
  reading = Runtime.readingAt source first (length issued) ->
  exists n,
    Runtime.queriedAt (Runtime.poll source timeoutMs issued reading)
    = issued ++ map (Runtime.readingAt source first) (seq (length issued) n)
    /\ Forall (fun q => Z.of_N q < timeoutMs)
              (map (Runtime.readingAt source first) (seq (length issued) n))
    /\ forall lo,
        0 < lo ->
        (forall i, lo <= Zpos (Runtime.untilNextTest (source i))) ->
        (n <= Runtime.turnsWithin (timeoutMs - Z.of_N reading) lo)%nat.
Proof.
  funelim (Runtime.poll source timeoutMs issued reading); intros Hat;
    cbn [Runtime.queriedAt].
  - exists 0%nat. simpl. rewrite app_nil_r.
    repeat split; [constructor | intros; lia].
  - exists 1%nat. cbn [seq map]. rewrite <- Hat.
    repeat split; [constructor; [exact l | constructor] |].
    intros lo Hlo _.
    rewrite (turnsWithin_step (timeoutMs - Z.of_N reading) lo) by lia. lia.
  - exists 1%nat. cbn [seq map]. rewrite <- Hat.
    repeat split; [constructor; [exact l | constructor] |].
    intros lo Hlo _.
    rewrite (turnsWithin_step (timeoutMs - Z.of_N reading) lo) by lia. lia.
  - assert (Hnext : (reading + N.pos (Runtime.untilNextTest (source (length issued))))%N
                    = Runtime.readingAt source first (length (issued ++ [reading]))).
    { rewrite length_app. simpl length. rewrite Nat.add_1_r. simpl. rewrite Hat.
      reflexivity. }
    destruct (H first Hnext) as [n [Hq [Hall Hcount]]].
    exists (S n). split; [| split].
    + rewrite Hq, <- app_assoc. f_equal. rewrite length_app. simpl length.
      rewrite Nat.add_1_r. cbn [seq map app]. rewrite <- Hat. reflexivity.
    + cbn [seq map]. constructor.
      * rewrite <- Hat. exact l.
      * rewrite length_app in Hall. simpl length in Hall.
        rewrite Nat.add_1_r in Hall. exact Hall.
    + intros lo Hlo Hb.
      pose proof (Hcount lo Hlo Hb) as Hupp.
      pose proof (Hb (length issued)) as Hd.
      rewrite (turnsWithin_step (timeoutMs - Z.of_N reading) lo) by lia.
      pose proof (turnsWithin_mono
                    (timeoutMs
                     - Z.of_N (reading
                               + N.pos (Runtime.untilNextTest (source (length issued)))))
                    (timeoutMs - Z.of_N reading - lo)
                    lo ltac:(lia) ltac:(lia)).
      lia.
Qed.

(** X8: whatever the status source answers, [waitForTransaction]
    makes its queries at consecutive tests of the loop condition, one per
    turn from the first, and every one of them while the clock shows less
    than the timeout.  When no turn takes less than [lo] milliseconds on
    that clock, it makes at most the timeout divided by [lo], rounded up,
    of them: 31 at the default timeout when timers fire up to a
    millisecond early. *)
Theorem waitForTransaction_query_schedule
        (client : string -> nat -> Runtime.Turn) (digest : string)
        (timeoutMs : option Z) :
  exists n,
    Runtime.queriedAt (Runtime.waitForTransaction client 0 digest timeoutMs)
    = map (Runtime.readingAt (client digest) 0) (seq 0 n)
    /\ Forall (fun q => Z.of_N q < effectiveTimeout timeoutMs)
              (Runtime.queriedAt (Runtime.waitForTransaction client 0 digest timeoutMs))
    /\ forall lo,
        0 < lo ->
        (forall i, lo <= Zpos (Runtime.untilNextTest (client digest i))) ->
        (n <= Runtime.turnsWithin (effectiveTimeout timeoutMs) lo)%nat.
Proof.
  unfold Runtime.waitForTransaction.
  change (match timeoutMs with Some t => t | None => 30000 end)
    with (effectiveTimeout timeoutMs).
  destruct (clock_poll_schedule (client digest) (effectiveTimeout timeoutMs) 0 [] 0%N
              eq_refl) as [n [Hq [Hall Hcount]]].
  exists n. split; [exact Hq |]. split; [rewrite Hq; exact Hall |].
  intros lo Hlo Hb. specialize (Hcount lo Hlo Hb).
  replace (effectiveTimeout timeoutMs - Z.of_N 0) with (effectiveTimeout timeoutMs)
    in Hcount by (simpl; lia).
  exact Hcount.
Qed.
